(** * sawtooth/client.py: the validator client

    A shallow embedding of [core/sawtooth/client.py]: the transport
    ([_Communication]), the state synchronisation engine ([_ClientState]),
    the batch accumulator, the submission pipeline and the commit polling
    loop of [SawtoothClient], then its reading methods, [send_update], the
    scoped batch [UpdateBatch] and the constructor; followed by the
    properties of the specification that were checked against them, and by
    further properties of the code.

    Conventions.
    - A Python method on the client is a computation in the monad [M]: it
      takes the world (the client object and the log of everything put on
      the wire) and returns a result or a raised exception together with
      the world it leaves behind.  A raised exception keeps every
      assignment made before it, as in Python.
    - The remote validator is a function [peer] from the log so far and the
      request to the outcome of [opener.open].
    - Logging ([LOGGER.*]) has no effect on the client and is left out.
    - Code of other packages (urllib, gossip, journal, the transaction
      family) is the interface [Externals].  Its functions are taken to
      return; the local check of a transaction alone may raise.  A method
      that changes an object in place ([txn.apply] on the speculative
      store, [sign_from_node]) is the function to the object after it.
    - [TransactionStatus] is the [IntEnum] of the first import, and
      [assert] statements are executed.
    - A client is any value of the record [SawtoothClient], whether the
      constructor ([SawtoothClient_init], which refreshes once and loads
      the signing key) can make it or not.
    - [KeyError] is raised by [send_update] alone; the methods that can
      raise it are computations in [MK], the others in [M]. *)

From Stdlib Require Import ZArith Ascii String List Lia.
From stdpp Require Import base strings gmap pretty.

Open Scope Z_scope.
Open Scope string_scope.
Open Scope list_scope.

(** ** Python exceptions the client raises or lets through

    [ClientException], [MessageException] and [InvalidTransactionError] are
    the classes of [sawtooth.exceptions], none of them caught as another;
    the others are built-in. *)

Inductive Exn (V : Type) : Type :=
| ClientException (msg : string)
| MessageException (msg : string)
| InvalidTransactionError (detail : V)
| TypeError (msg : string)
| IndexError (msg : string)
| AttributeError (msg : string)
| UnboundLocalError (msg : string)
| ValueError (msg : string)
| AssertionError.

Arguments ClientException {V} msg.
Arguments MessageException {V} msg.
Arguments InvalidTransactionError {V} detail.
Arguments TypeError {V} msg.
Arguments IndexError {V} msg.
Arguments AttributeError {V} msg.
Arguments UnboundLocalError {V} msg.
Arguments ValueError {V} msg.
Arguments AssertionError {V}.

(** ** Code outside this file

    [Value] is a decoded JSON or CBOR body (any Python object the decoders
    return); the operations on it are the Python built-ins the client
    applies to such objects.  [Store] is a version of the journal's
    key/value store; [new_store ty prevstore storeinfo] is the class call
    [ty(prevstore=..., storeinfo=...)] and [clone_store s storeinfo] the
    method [s.clone_store(storeinfo)]. *)

Class Externals := {
  Value : Type;
  (* gossip.common *)
  json2dict : string -> Value;
  cbor2dict : string -> Value;
  dict2cbor : Value -> string;
  (* Python objects *)
  py_bytes : string -> Value;                    (* a str, as an object *)
  py_list : list Value -> Value;                 (* [ ... ] *)
  py_dict : gmap string Value -> Value;          (* { ... } *)
  py_truth : Value -> bool;                      (* bool(v) *)
  py_contains : string -> Value -> bool;         (* k in v *)
  py_getitem : Value -> string -> Value;         (* v[k] *)
  py_eq_str : Value -> string -> bool;           (* v == "..." *)
  py_str : Value -> string;                      (* str(v) *)
  block_ids_of : Value -> list string;           (* a JSON list of block ids *)
  (* urllib, urlparse *)
  urljoin : string -> string -> string;
  urlencode : list (string * string) -> string;
  (* journal.global_store_manager *)
  Store : Type;
  StoreType : Type;
  new_store : StoreType -> option Store -> option Value -> Store;
  clone_store : Store -> option Value -> Store;
  (* gossip.node, journal.transaction and the transaction family *)
  Node : Type;
  node_Identifier : Node -> string;
  TxnType : Type;
  MsgType : Type;
  Txn : Type;
  Msg : Type;
  txn_TransactionTypeName : Txn -> string;
  new_txn : TxnType -> gmap string (list Value) -> Txn;
  txn_sign_from_node : Txn -> Node -> Txn;
  txn_Identifier : Txn -> string;
  txn_check_valid : Txn -> option Store -> option (Exn Value);
  txn_apply : Txn -> option Store -> option Store;
  new_msg : MsgType -> Msg;
  set_Transaction : Msg -> Txn -> Msg;
  set_SenderID : Msg -> string -> Msg;
  msg_sign_from_node : Msg -> Node -> Msg;
  msg_MessageType : Msg -> string;
  msg_dump : Msg -> Value
}.

(** ** Strings *)

Fixpoint lstrip (c : ascii) (s : string) : string :=
  match s with
  | String a s' => if Ascii.eqb a c then lstrip c s' else s
  | EmptyString => EmptyString
  end.

Definition rstrip (c : ascii) (s : string) : string :=
  String.rev (lstrip c (String.rev s)).

(** [s.strip('/')] *)
Definition strip (c : ascii) (s : string) : string := rstrip c (lstrip c s).

Definition slash : ascii := "/"%char.

(** [bool(s)] for [s] a str or [None] *)
Definition str_truth (s : option string) : bool :=
  match s with
  | None => false
  | Some EmptyString => false
  | Some (String _ _) => true
  end.

(** The header of [if self._cookie: request.add_header('cookie', ...)] *)
Definition cookie_header (cookie : option string) : list (string * string) :=
  match cookie with
  | Some (String a k) => [("cookie", String a k)]
  | _ => []
  end.

(** [x or y] for objects that are true unless [None] *)
Definition py_or {A} (x y : option A) : option A :=
  match x with
  | Some a => Some a
  | None => y
  end.

(** ** The wire *)

Inductive Method := HEAD | GET | POST.

Record Request := {
  req_method : Method;
  req_url : string;
  req_headers : list (string * string);
  req_data : option string;
  req_timeout : Z
}.

(** What is observable of a run: the requests opened, and the sleeps. *)
Inductive Event :=
| Sent (r : Request)
| Slept (secs : Z).

(** The outcome of [opener.open(request, timeout=...)]: a response, one of
    the two urllib2 exceptions the client tells apart, or anything else. *)
Inductive Outcome :=
| Responded (code : Z) (headers : gmap string string) (content : string)
| HTTPError (code : Z) (headers : gmap string string) (content : option string)
| URLError (reason : string)
| OtherFailure.

Section Client.

Context {E : Externals}.

(** The remote validator. *)
Variable peer : list Event -> Request -> Outcome.

(** ** The objects

    [_Communication], [_ClientState] and [SawtoothClient] each have a
    [_base_url] or a [_current_state]; the fields of the first two carry the
    prefixes [comm_] and [cs_]. *)

Record Communication := {
  comm_base_url : string;                 (* _Communication._base_url *)
  comm_cookie : option string             (* _Communication._cookie *)
}.

Record ClientState := {
  cs_state_type : StoreType;              (* _ClientState._state_type *)
  cs_state : option Store;                (* _ClientState._state *)
  cs_current_state : option Store;        (* _ClientState._current_state *)
  cs_current_block_id : option string     (* _ClientState._current_block_id *)
}.

Record SawtoothClient := {
  _base_url : string;
  _message_type : option MsgType;
  _transaction_type : option TxnType;
  _store_name : option string;
  _communication : Communication;
  _last_transaction : option string;
  _local_node : option Node;
  _update_batch : option (gmap string (list Value));
  _disable_client_validation : bool;
  _current_state : option ClientState
}.

Definition set_cookie (k : option string) (c : SawtoothClient) : SawtoothClient :=
  {| _base_url := _base_url c;
     _message_type := _message_type c;
     _transaction_type := _transaction_type c;
     _store_name := _store_name c;
     _communication :=
       {| comm_base_url := comm_base_url (_communication c); comm_cookie := k |};
     _last_transaction := _last_transaction c;
     _local_node := _local_node c;
     _update_batch := _update_batch c;
     _disable_client_validation := _disable_client_validation c;
     _current_state := _current_state c |}.

Definition set_last_transaction (t : option string) (c : SawtoothClient)
  : SawtoothClient :=
  {| _base_url := _base_url c;
     _message_type := _message_type c;
     _transaction_type := _transaction_type c;
     _store_name := _store_name c;
     _communication := _communication c;
     _last_transaction := t;
     _local_node := _local_node c;
     _update_batch := _update_batch c;
     _disable_client_validation := _disable_client_validation c;
     _current_state := _current_state c |}.

Definition set_update_batch (b : option (gmap string (list Value)))
  (c : SawtoothClient) : SawtoothClient :=
  {| _base_url := _base_url c;
     _message_type := _message_type c;
     _transaction_type := _transaction_type c;
     _store_name := _store_name c;
     _communication := _communication c;
     _last_transaction := _last_transaction c;
     _local_node := _local_node c;
     _update_batch := b;
     _disable_client_validation := _disable_client_validation c;
     _current_state := _current_state c |}.

Definition set_current_state (s : option ClientState) (c : SawtoothClient)
  : SawtoothClient :=
  {| _base_url := _base_url c;
     _message_type := _message_type c;
     _transaction_type := _transaction_type c;
     _store_name := _store_name c;
     _communication := _communication c;
     _last_transaction := _last_transaction c;
     _local_node := _local_node c;
     _update_batch := _update_batch c;
     _disable_client_validation := _disable_client_validation c;
     _current_state := s |}.

Definition set_cs_state (s : option Store) (cs : ClientState) : ClientState :=
  {| cs_state_type := cs_state_type cs;
     cs_state := s;
     cs_current_state := cs_current_state cs;
     cs_current_block_id := cs_current_block_id cs |}.

Definition set_cs_current_state (s : option Store) (cs : ClientState)
  : ClientState :=
  {| cs_state_type := cs_state_type cs;
     cs_state := cs_state cs;
     cs_current_state := s;
     cs_current_block_id := cs_current_block_id cs |}.

Definition set_cs_current_block_id (b : option string) (cs : ClientState)
  : ClientState :=
  {| cs_state_type := cs_state_type cs;
     cs_state := cs_state cs;
     cs_current_state := cs_current_state cs;
     cs_current_block_id := b |}.

(** [_Communication.__init__] *)
Definition Communication_init (base_url : string) : Communication :=
  {| comm_base_url := rstrip slash base_url; comm_cookie := None |}.

(** [_ClientState.__init__]: only a state without a client starts with
    stores; the state of a [SawtoothClient] has the client and starts with
    none. *)
Definition ClientState_init (client_is_None : bool) (state_type : StoreType)
  : ClientState :=
  if client_is_None then
    let state := new_store state_type None None in
    {| cs_state_type := state_type;
       cs_state := Some state;
       cs_current_state := Some (clone_store state None);
       cs_current_block_id := None |}
  else
    {| cs_state_type := state_type;
       cs_state := None;
       cs_current_state := None;
       cs_current_block_id := None |}.

(** ** The monad of client methods *)

Record World := {
  self : SawtoothClient;
  wire : list Event
}.

Definition Result (A : Type) : Type := (Exn Value + A)%type.

Definition M (A : Type) : Type := World -> Result A * World.

Definition ret {A} (a : A) : M A := fun w => (inr a, w).

Definition raise {A} (e : Exn Value) : M A := fun w => (inl e, w).

Definition bind {A B} (m : M A) (k : A -> M B) : M B :=
  fun w =>
    match m w with
    | (inl e, w') => (inl e, w')
    | (inr a, w') => k a w'
    end.

Notation "x <- m ;; k" := (bind m (fun x => k))
  (at level 100, m at next level, right associativity).
Notation "m ;;; k" := (bind m (fun _ => k))
  (at level 100, right associativity).

(** [try: m except MessageException: h] *)
Definition except_MessageException {A} (m : M A) (h : M A) : M A :=
  fun w =>
    match m w with
    | (inl (MessageException _), w') => h w'
    | r => r
    end.

Definition get_self : M SawtoothClient := fun w => (inr (self w), w).

Definition modify_self (f : SawtoothClient -> SawtoothClient) : M unit :=
  fun w => (inr tt, {| self := f (self w); wire := wire w |}).

(** [opener.open(request, timeout=...)] *)
Definition open (r : Request) : M Outcome :=
  fun w => (inr (peer (wire w) r),
            {| self := self w; wire := wire w ++ [Sent r] |}).

(** [time.sleep(secs)] *)
Definition sleep (secs : Z) : M unit :=
  fun w => (inr tt, {| self := self w; wire := wire w ++ [Slept secs] |}).

(** ** _Communication *)

(** [headrequest]: the status code of a HEAD request.  An HTTP error is not
    an error here, its code is the answer. *)
Definition headrequest (path : string) : M Z :=
  c <- get_self ;;
  let url := urljoin (comm_base_url (_communication c)) path in
  o <- open {| req_method := HEAD; req_url := url; req_headers := [];
               req_data := None; req_timeout := 30 |} ;;
  match o with
  | HTTPError code _ _ => ret code
  | URLError reason =>
      raise (MessageException ("operation failed: " +:+ reason))
  | OtherFailure => raise (MessageException "no response from server")
  | Responded code _ _ => ret code
  end.

(** The decoding by declared content type shared by [getmsg] and [postmsg]:
    [None] when the type is neither JSON nor CBOR. *)
Definition decode (headers : gmap string string) (content : string)
  : option Value :=
  let encoding := headers !! "Content-Type" in
  if bool_decide (encoding = Some "application/json") then
    Some (json2dict content)
  else if bool_decide (encoding = Some "application/cbor") then
    Some (cbor2dict content)
  else None.

Definition getmsg (path : string) (timeout : Z) : M Value :=
  c <- get_self ;;
  let url := urljoin (comm_base_url (_communication c)) path in
  o <- open {| req_method := GET; req_url := url; req_headers := [];
               req_data := None; req_timeout := timeout |} ;;
  match o with
  | HTTPError code _ _ =>
      raise (MessageException
               ("operation failed with response: " +:+ pretty code))
  | URLError reason =>
      raise (MessageException ("operation failed: " +:+ reason))
  | OtherFailure => raise (MessageException "no response from server")
  | Responded _ headers content =>
      match decode headers content with
      | Some value => ret value
      | None => ret (py_bytes content)
      end
  end.

Definition postmsg (msgtype : string) (info : Value) : M (option Value) :=
  c <- get_self ;;
  let data := dict2cbor info in
  let datalen := String.length data in
  let url := urljoin (comm_base_url (_communication c)) msgtype in
  let cookie := comm_cookie (_communication c) in
  let request :=
    {| req_method := POST; req_url := url;
       req_headers :=
         [("Content-Type", "application/cbor");
          ("Content-Length", pretty datalen)]
         ++ cookie_header cookie;
       req_data := Some data; req_timeout := 10 |} in
  o <- open request ;;
  match o with
  | Responded _ headers content =>
      (if negb (str_truth cookie)
       then modify_self (set_cookie (headers !! "Set-Cookie"))
       else ret tt) ;;;
      ret (decode headers content)
  | HTTPError code headers content =>
      match content with
      | Some content =>
          match decode headers content with
          | None =>
              raise (MessageException
                       ("operation failed with response: " +:+ pretty code))
          | Some value =>
              if py_contains "errorType" value then
                if py_eq_str (py_getitem value "errorType")
                             "InvalidTransactionError"
                then raise (InvalidTransactionError
                              (if py_contains "error" value
                               then py_getitem value "error" else value))
                else raise (MessageException (py_str value))
              else
                (* the handler ends without raising: [response] was never
                   bound when [response.read()] is reached *)
                raise (UnboundLocalError
                  "local variable 'response' referenced before assignment")
          end
      | None =>
          raise (MessageException
                   ("operation failed with response: " +:+ pretty code))
      end
  | URLError reason =>
      raise (MessageException ("operation failed: " +:+ reason))
  | OtherFailure => raise (MessageException "no response from server")
  end.

(** ** Paths *)

Definition _construct_store_path (txn_type_or_name : option (Txn + string))
  (key : option string) (block_id : option string) (delta : bool) : string :=
  let path := "store" in
  let path :=
    match txn_type_or_name with
    | Some (inl txn) =>
        path +:+ "/" +:+ strip slash (txn_TransactionTypeName txn)
    | Some (inr name) => path +:+ "/" +:+ strip slash name
    | None => path
    end in
  let path :=
    match key with
    | Some key => path +:+ "/" +:+ strip slash key
    | None => path
    end in
  let query : list (string * string) := [] in
  let query :=
    match block_id with
    | Some block_id => (query ++ [("blockid", block_id)])%list
    | None => query
    end in
  let query := if delta then (query ++ [("delta", "1")])%list else query in
  if (0 <=? length query)%nat then path +:+ "?" +:+ urlencode query else path.

Definition _construct_list_path (list_type : string) (count : option Z)
  : string :=
  let path := list_type in
  match count with
  | Some count => path +:+ "?" +:+ urlencode [("blockcount", pretty count)]
  | None => path
  end.

Definition _construct_block_list_path (count : option Z) : string :=
  _construct_list_path "block" count.

Definition _construct_transaction_list_path (count : option Z) : string :=
  _construct_list_path "transaction" count.

Definition _construct_item_path (item_type item_id : string)
  (field : option string) : string :=
  let path := item_type +:+ "/" +:+ item_id in
  match field with
  | Some field => path +:+ "/" +:+ field
  | None => path
  end.

Definition _construct_block_path (block_id : string) (field : option string)
  : string :=
  _construct_item_path "block" block_id field.

Definition _construct_transaction_path (transaction_id : string)
  (field : option string) : string :=
  _construct_item_path "transaction" transaction_id field.

(** ** SawtoothClient: reading the ledger *)

Definition get_store_by_name (txn_type_or_name : option (Txn + string))
  (key : option string) (block_id : option string) (delta : bool) : M Value :=
  getmsg (_construct_store_path txn_type_or_name key block_id delta) 10.

Definition get_store (key : option string) (block_id : option string)
  (delta : bool) : M Value :=
  c <- get_self ;;
  match _store_name c with
  | None =>
      raise (ClientException
        "The client must be configured with a store name or transaction type")
  | Some name => get_store_by_name (Some (inr name)) key block_id delta
  end.

Definition get_store_delta_for_block (block_id : string) : M Value :=
  get_store (Some "*") (Some block_id) true.

Definition get_store_objects_through_block (block_id : string) : M Value :=
  get_store (Some "*") (Some block_id) false.

Definition get_block_list (count : option Z) : M Value :=
  getmsg (_construct_block_list_path count) 10.

(** ** TransactionStatus

    The class is an [IntEnum]: a member compares equal to its value, and
    the value written [500,] is the integer 500. *)

Inductive TransactionStatus :=
| committed
| pending
| not_found
| internal_server_error
| server_busy.

Definition TransactionStatus_value (s : TransactionStatus) : Z :=
  match s with
  | committed => 200
  | pending => 302
  | not_found => 404
  | internal_server_error => 500
  | server_busy => 503
  end.

Definition TransactionStatus_name (s : TransactionStatus) : string :=
  match s with
  | committed => "committed"
  | pending => "pending"
  | not_found => "not_found"
  | internal_server_error => "internal_server_error"
  | server_busy => "server_busy"
  end.

(** [TransactionStatus(status)]: the member with that value; [None] is the
    [ValueError] of the enum for a value of no member. *)
Definition TransactionStatus_call (status : Z) : option TransactionStatus :=
  List.find (fun s => (TransactionStatus_value s =? status)%Z)
    [committed; pending; not_found; internal_server_error; server_busy].

(** The [try ... except ValueError] of [wait_for_commit]. *)
Definition pretty_status (status : Z) : string :=
  match TransactionStatus_call status with
  | Some s => TransactionStatus_name s +:+ ":" +:+ pretty status
  | None => pretty status
  end.

Definition get_transaction_status (transaction_id : string) : M Z :=
  headrequest (_construct_transaction_path transaction_id None).

(** ** _ClientState *)

(** The [_ClientState] of the client; a method call on [None] is an
    [AttributeError]. *)
Definition client_state : M ClientState :=
  c <- get_self ;;
  match _current_state c with
  | Some cs => ret cs
  | None => raise (AttributeError "'NoneType' object has no attribute")
  end.

Definition modify_client_state (f : ClientState -> ClientState) : M unit :=
  modify_self (fun c => set_current_state (f <$> _current_state c) c).

(** [self._state.clone_store(storeinfo)] *)
Definition clone_of_state (storeinfo : option Value) : M Store :=
  cs <- client_state ;;
  match cs_state cs with
  | Some s => ret (clone_store s storeinfo)
  | None =>
      raise (AttributeError
               "'NoneType' object has no attribute 'clone_store'")
  end.

(** [x in block_ids], for [x] an id or [None] *)
Definition py_in (x : option string) (l : list string) : bool :=
  match x with
  | Some h => bool_decide (h ∈ l)
  | None => false
  end.

(** [block_ids.index(x)]: the first position of [x] *)
Fixpoint list_index (x : string) (l : list string) : option nat :=
  match l with
  | [] => None
  | y :: l' => if bool_decide (y = x) then Some O else S <$> list_index x l'
  end.

Definition py_index (x : option string) (l : list string) : M nat :=
  match x ≫= (fun h => list_index h l) with
  | Some i => ret i
  | None => raise (ValueError "value is not in list")
  end.

(** The body of [for fetch_id in ...:] over the ids still to visit. *)
Fixpoint fetch_deltas (ids : list string) : M unit :=
  match ids with
  | [] => ret tt
  | fetch_id :: ids' =>
      delta <- get_store_delta_for_block fetch_id ;;
      s <- clone_of_state (Some delta) ;;
      modify_client_state (set_cs_state (Some s)) ;;;
      fetch_deltas ids'
  end.

Definition fetch : M unit :=
  (* get the last ten block ids *)
  v <- get_block_list (Some 10) ;;
  let block_ids := block_ids_of v in
  match block_ids with
  | [] => raise (IndexError "list index out of range")
  | block_id :: _ =>
      cs <- client_state ;;
      (* if the latest block is the one we have *)
      if bool_decide (Some block_id = cs_current_block_id cs) then ret tt
      else
        (* look for the last common block *)
        (if py_in (cs_current_block_id cs) block_ids then
           i <- py_index (cs_current_block_id cs) block_ids ;;
           let fetch_list := take i block_ids in
           fetch_deltas (rev fetch_list)
         else
           (* no common block: re-fetch the full state *)
           state <- get_store_objects_through_block block_id ;;
           cs <- client_state ;;
           modify_client_state
             (set_cs_state
                (Some (new_store (cs_state_type cs) None
                         (Some (py_dict
                                  (<["Store" := state]>
                                     (<["DeletedKeys" := py_list []]> ∅)))))))
        ) ;;;
        s <- clone_of_state None ;;
        modify_client_state (set_cs_current_state (Some s)) ;;;
        modify_client_state (set_cs_current_block_id (Some block_id))
  end.

Definition fetch_state : M unit :=
  c <- get_self ;;
  match _current_state c with
  | None =>
      raise (ClientException
        "Client must be configured with a store name to access its current state")
  | Some _ => fetch
  end.

(** ** SawtoothClient: the submission pipeline *)

(** [self._current_state.state]: the speculative store of the client. *)
Definition speculative_state : M (option Store) :=
  cs <- client_state ;;
  ret (cs_current_state cs).

Definition sendtxn (txn_type : option TxnType) (txn_msg_type : option MsgType)
  (minfo : gmap string (list Value)) : M (option string) :=
  c <- get_self ;;
  match _local_node c with
  | None =>
      raise (ClientException
               "can not send transactions as a read-only client")
  | Some local_node =>
      let txn_type := py_or txn_type (_transaction_type c) in
      let txn_msg_type := py_or txn_msg_type (_message_type c) in
      match txn_type with
      | None => raise (TypeError "'NoneType' object is not callable")
      | Some txn_type =>
          let txn := new_txn txn_type minfo in
          let txn := txn_sign_from_node txn local_node in
          let txnid := txn_Identifier txn in
          (if negb (_disable_client_validation c) then
             st <- speculative_state ;;
             match txn_check_valid txn st with
             | Some e => raise e
             | None => ret tt
             end
           else ret tt) ;;;
          match txn_msg_type with
          | None => raise (TypeError "'NoneType' object is not callable")
          | Some txn_msg_type =>
              let msg := new_msg txn_msg_type in
              let msg := set_Transaction msg txn in
              let msg := set_SenderID msg (node_Identifier local_node) in
              let msg := msg_sign_from_node msg local_node in
              posted <-
                except_MessageException
                  (result <- postmsg (msg_MessageType msg) (msg_dump msg) ;;
                   ret (Some result))
                  (ret None) ;;
              match posted with
              | None => ret None
              | Some result =>
                  (* assert result *)
                  if negb (from_option py_truth false result)
                  then raise AssertionError
                  else
                    modify_self (set_last_transaction (Some txnid)) ;;;
                    (if negb (_disable_client_validation c) then
                       st <- speculative_state ;;
                       modify_client_state
                         (set_cs_current_state (txn_apply txn st))
                     else ret tt) ;;;
                    ret (Some txnid)
              end
          end
      end
  end.

(** ** SawtoothClient: the batch accumulator *)

Definition start_batch : M unit :=
  c <- get_self ;;
  match _update_batch c with
  | Some _ => raise (ClientException "Update batch already in progress.")
  | None =>
      modify_self
        (set_update_batch
           (Some (<["Updates" := []]> (<["Dependencies" := []]> ∅))))
  end.

Definition reset_batch : M unit :=
  modify_self (set_update_batch None).

Definition send_batch : M (option string) :=
  c <- get_self ;;
  match _update_batch c with
  | None => raise (TypeError "object of type 'NoneType' has no len()")
  | Some batch =>
      (* len(self._update_batch) == 0 *)
      if Nat.eqb (size batch) 0
      then raise (ClientException "No updates in batch.")
      else
        let msg_info := batch in
        modify_self (set_update_batch None) ;;;
        sendtxn (_transaction_type c) (_message_type c) msg_info
  end.

(** ** SawtoothClient: waiting for a commit

    The [while True] loop runs on [fuel]: [None] is a run that used it up
    before the loop returned. *)

Fixpoint wait_for_commit_loop (fuel : nat) (txnid : string)
  (timetowait iterations passes : Z) : M (option bool) :=
  match fuel with
  | O => ret None
  | S fuel' =>
      let passes := passes + 1 in
      status <- get_transaction_status txnid ;;
      if negb (status =? TransactionStatus_value committed)%Z
         && (iterations <? passes)%Z
      then ret (Some false)
      else if (status =? TransactionStatus_value committed)%Z
      then ret (Some true)
      else
        sleep timetowait ;;;
        wait_for_commit_loop fuel' txnid timetowait iterations passes
  end.

Definition wait_for_commit (fuel : nat) (txnid : option string)
  (timetowait iterations : Z) : M (option bool) :=
  c <- get_self ;;
  let txnid := if negb (str_truth txnid) then _last_transaction c else txnid in
  match txnid with
  | Some (String a t) =>
      wait_for_commit_loop fuel (String a t) timetowait iterations 0
  | _ =>
      (* no transaction specified for wait *)
      ret (Some true)
  end.

(** ** Notions the statements use *)

(** What [getmsg] returns for a response with these headers and content. *)
Definition body_of (headers : gmap string string) (content : string) : Value :=
  from_option id (py_bytes content) (decode headers content).

Definition get_request (c : SawtoothClient) (path : string) (timeout : Z)
  : Request :=
  {| req_method := GET;
     req_url := urljoin (comm_base_url (_communication c)) path;
     req_headers := []; req_data := None; req_timeout := timeout |}.

Definition head_request (c : SawtoothClient) (path : string) : Request :=
  {| req_method := HEAD;
     req_url := urljoin (comm_base_url (_communication c)) path;
     req_headers := []; req_data := None; req_timeout := 30 |}.

(** The request [postmsg] opens. *)
Definition post_request (c : SawtoothClient) (msgtype : string) (info : Value)
  : Request :=
  {| req_method := POST;
     req_url := urljoin (comm_base_url (_communication c)) msgtype;
     req_headers :=
       [("Content-Type", "application/cbor");
        ("Content-Length", pretty (String.length (dict2cbor info)))]
       ++ cookie_header (comm_cookie (_communication c));
     req_data := Some (dict2cbor info); req_timeout := 10 |}.

(** What a POST leaves behind: one request on the wire, and the client as
    it was except, after a response, for a cookie adopted while none was
    held. *)
Definition after_post (w : World) (msgtype : string) (info : Value) : World :=
  {| self :=
       match peer (wire w) (post_request (self w) msgtype info) with
       | Responded _ headers _ =>
           if str_truth (comm_cookie (_communication (self w)))
           then self w
           else set_cookie (headers !! "Set-Cookie") (self w)
       | _ => self w
       end;
     wire := wire w ++ [Sent (post_request (self w) msgtype info)] |}.

(** The request for the ids of the ten newest blocks. *)
Definition block_list_request (c : SawtoothClient) : Request :=
  get_request c (_construct_block_list_path (Some 10)) 10.

(** The request for the delta of one block of the store [name]. *)
Definition delta_request (c : SawtoothClient) (name block_id : string)
  : Request :=
  get_request c
    (_construct_store_path (Some (inr name)) (Some "*") (Some block_id) true)
    10.

(** The request for all objects of the store [name] through one block. *)
Definition objects_request (c : SawtoothClient) (name block_id : string)
  : Request :=
  get_request c
    (_construct_store_path (Some (inr name)) (Some "*") (Some block_id) false)
    10.

(** The request of a status check of one transaction. *)
Definition status_request (c : SawtoothClient) (txnid : string) : Request :=
  head_request c (_construct_transaction_path txnid None).

(** The peer answers the delta requests for [ids], asked in that order
    after the log [tr], with the bodies [deltas]. *)
Fixpoint deltas_served (c : SawtoothClient) (name : string) (tr : list Event)
  (ids : list string) (deltas : list Value) : Prop :=
  match ids, deltas with
  | [], [] => True
  | block_id :: ids', delta :: deltas' =>
      (exists code headers content,
          peer tr (delta_request c name block_id)
          = Responded code headers content
          /\ body_of headers content = delta)
      /\ deltas_served c name (tr ++ [Sent (delta_request c name block_id)])
           ids' deltas'
  | _, _ => False
  end.

(** A recorded head comes with a synchronized store. *)
Definition synchronized (c : SawtoothClient) : Prop :=
  forall cs, _current_state c = Some cs ->
             cs_current_block_id cs <> None -> cs_state cs <> None.

(** From [c] to [c'] the recorded head is kept and a synchronized store is
    not lost. *)
Definition keeps_head (c c' : SawtoothClient) : Prop :=
  forall cs', _current_state c' = Some cs' ->
    exists cs, _current_state c = Some cs
               /\ cs_current_block_id cs' = cs_current_block_id cs
               /\ (cs_state cs <> None -> cs_state cs' <> None).

(** The status code a HEAD request ends in, if it ends in one. *)
Definition status_code (o : Outcome) : option Z :=
  match o with
  | Responded code _ _ => Some code
  | HTTPError code _ _ => Some code
  | _ => None
  end.

(** The number of HEAD requests in a log. *)
Definition is_status_check (e : Event) : bool :=
  match e with
  | Sent {| req_method := HEAD |} => true
  | _ => false
  end.

Definition status_checks (tr : list Event) : nat :=
  length (List.filter is_status_check tr).

(** The log of a wait that gives up: a status check, then [sleeps] times a
    sleep and another status check. *)
Fixpoint polling (check : Request) (timetowait : Z) (sleeps : nat)
  : list Event :=
  match sleeps with
  | O => [Sent check]
  | S n => Sent check :: Slept timetowait :: polling check timetowait n
  end.

(** The transaction and the message [sendtxn] builds and signs. *)
Definition signed_txn (txn_type : TxnType) (minfo : gmap string (list Value))
  (local_node : Node) : Txn :=
  txn_sign_from_node (new_txn txn_type minfo) local_node.

Definition signed_msg (txn_msg_type : MsgType) (txn : Txn) (local_node : Node)
  : Msg :=
  msg_sign_from_node
    (set_SenderID (set_Transaction (new_msg txn_msg_type) txn)
       (node_Identifier local_node))
    local_node.

(** What [sendtxn] leaves of the client after a post that returned: the
    identifier recorded and, unless validation is disabled, the transaction
    applied to the speculative store. *)
Definition after_submit (txn : Txn) (c : SawtoothClient) : SawtoothClient :=
  let c := set_last_transaction (Some (txn_Identifier txn)) c in
  if negb (_disable_client_validation c) then
    set_current_state
      ((fun cs => set_cs_current_state (txn_apply txn (cs_current_state cs))
                    cs) <$> _current_state c) c
  else c.

(** The local check before a post: passed, or not run at all. *)
Definition locally_valid (c : SawtoothClient) (txn : Txn) : Prop :=
  _disable_client_validation c = true
  \/ exists cs, _current_state c = Some cs
               /\ txn_check_valid txn (cs_current_state cs) = None.

End Client.

(** ** The rest of the client

    The other methods of [SawtoothClient], the scoped batch [UpdateBatch]
    and the constructor.  What they need of the code outside this file
    beyond [Externals] is a variable of the section. *)

Section ClientRest.

Context {E : Externals}.
Variable peer : list Event -> Request -> Outcome.

Notation "x <- m ;; k" := (bind m (fun x => k))
  (at level 100, m at next level, right associativity).
Notation "m ;;; k" := (bind m (fun _ => k))
  (at level 100, right associativity).

(** *** Reading *)

(** The property [state] *)
Definition state : M (option Store) :=
  c <- get_self ;;
  match _current_state c with
  | None =>
      raise (ClientException
        "Client must be configured with a store name to access its current state")
  | Some cs => ret (cs_current_state cs)
  end.

Definition get_state : M (option Store) := state.

(** The property [last_transaction_id] *)
Definition last_transaction_id : M (option string) :=
  c <- get_self ;;
  ret (_last_transaction c).

Definition get_status (timeout : Z) : M Value := getmsg peer "status" timeout.

Definition get_store_list : M Value := getmsg peer "store" 10.

Definition get_store_keys : M Value := get_store peer None None false.

Definition get_all_store_objects : M Value :=
  get_store peer (Some "*") None false.

Definition get_store_object_for_key (key : string) : M Value :=
  get_store peer (Some key) None false.

Definition get_block (block_id : string) (field : option string) : M Value :=
  getmsg peer (_construct_block_path block_id field) 10.

Definition get_transaction_list (block_count : option Z) : M Value :=
  getmsg peer (_construct_transaction_list_path block_count) 10.

Definition get_transaction (transaction_id : string) (field : option string)
  : M Value :=
  getmsg peer (_construct_transaction_path transaction_id field) 10.

Definition forward_message (msg : Msg) : M (option Value) :=
  postmsg peer "forward" (msg_dump msg).

(** *** Methods that can raise [KeyError]

    [send_update] looks keys up in the batch dictionary.  [KeyError] is not
    among the exceptions of the methods above; a method that can raise it
    is a computation in [MK]. *)

Inductive Raised :=
| Exception (e : Exn Value)
| KeyError (key : string).

Definition MK (A : Type) : Type := World -> (Raised + A) * World.

Definition retK {A} (a : A) : MK A := fun w => (inr a, w).

Definition raiseK {A} (e : Raised) : MK A := fun w => (inl e, w).

Definition bindK {A B} (m : MK A) (k : A -> MK B) : MK B :=
  fun w =>
    match m w with
    | (inl e, w') => (inl e, w')
    | (inr a, w') => k a w'
    end.

(** A method of the first part, as a computation in [MK]. *)
Definition lift {A} (m : M A) : MK A :=
  fun w =>
    match m w with
    | (inl e, w') => (inl (Exception e), w')
    | (inr a, w') => (inr a, w')
    end.

(** *** send_update *)

(** The argument [updates]: one update (a dict), a list or tuple of
    updates, or an object of another type. *)
Inductive Updates :=
| OneUpdate (update : Value)
| UpdateList (updates : list Value)
| OtherUpdates (object : Value).

(** [str(type(v))], and the updates a transaction reads from an object that
    is neither a dict nor a list when it is given as its ['Updates']. *)
Variable py_type : Value -> string.
Variable as_updates : Value -> list Value.

(** [self._update_batch[key] += items] (for one item, [.append(item)]):
    the list under [key] is extended in place. *)
Definition batch_extend (key : string) (items : list Value) : MK unit :=
  bindK (lift get_self) (fun c =>
  match _update_batch c with
  | None =>
      raiseK (Exception
                (TypeError "'NoneType' object has no attribute '__getitem__'"))
  | Some batch =>
      match batch !! key with
      | None => raiseK (KeyError key)
      | Some l =>
          lift (modify_self
                  (set_update_batch (Some (<[key := l ++ items]> batch))))
      end
  end).

Definition send_update (updates : Updates) (dependencies : option (list Value))
  : MK (option string) :=
  bindK (lift get_self) (fun c =>
  match _update_batch c with
  | Some _ =>
      (* if we are in batching mode *)
      bindK
        (match updates with
         | OneUpdate update => batch_extend "Updates" [update]
         | UpdateList updates => batch_extend "Updates" updates
         | OtherUpdates object =>
             raiseK (Exception
                       (ClientException
                          ("Unexpected updates type " +:+ py_type object
                           +:+ ".")))
         end)
        (fun _ =>
      bindK
        (match dependencies with
         | Some (d :: ds) => batch_extend "Dependencies" (d :: ds)
         | _ => retK tt
         end)
        (fun _ =>
      (* there is no transaction id yet *)
      retK None))
  | None =>
      let updates :=
        match updates with
        | OneUpdate update => [update]
        | UpdateList updates => updates
        | OtherUpdates object => as_updates object
        end in
      let dependencies := default [] dependencies in
      lift (sendtxn peer (_transaction_type c) (_message_type c)
              (<["Updates" := updates]>
                 (<["Dependencies" := dependencies]> ∅)))
  end).

(** *** UpdateBatch *)

Definition UpdateBatch_enter : MK unit := lift start_batch.

(** [__exit__]: [exception] is the exception the block raised, if any.
    The method returns [None], so that exception is raised again. *)
Definition UpdateBatch_exit (exception : option Raised) : MK unit :=
  match exception with
  | None => lift (send_batch peer ;;; ret tt)
  | Some _ => lift reset_batch
  end.

(** [with UpdateBatch(client) as _: body] *)
Definition with_UpdateBatch {A} (body : MK A) : MK A :=
  fun w =>
    match UpdateBatch_enter w with
    | (inl e, w0) => (inl e, w0)
    | (inr _, w0) =>
        match body w0 with
        | (inl e, w1) =>
            match UpdateBatch_exit (Some e) w1 with
            | (inl e', w2) => (inl e', w2)
            | (inr _, w2) => (inl e, w2)
            end
        | (inr a, w1) =>
            match UpdateBatch_exit None w1 with
            | (inl e', w2) => (inl e', w2)
            | (inr _, w2) => (inr a, w2)
            end
        end
    end.

(** *** The constructor *)

Definition set_local_node (n : option Node) (c : SawtoothClient)
  : SawtoothClient :=
  {| _base_url := _base_url c;
     _message_type := _message_type c;
     _transaction_type := _transaction_type c;
     _store_name := _store_name c;
     _communication := _communication c;
     _last_transaction := _last_transaction c;
     _local_node := n;
     _update_batch := _update_batch c;
     _disable_client_validation := _disable_client_validation c;
     _current_state := _current_state c |}.

(** Of the transaction family, the store manager, the signing module and
    the file system: the name and the store type of a transaction type,
    the default store type, the signing key of a WIF string, whether a key
    is true, its identifier, the node of an identifier, a key and a name,
    the content of a file (or the text of the [IOError]), and [s.strip()]. *)
Variable TransactionTypeName : TxnType -> string.
Variable TransactionStoreType : TxnType -> StoreType.
Variable KeyValueStore : StoreType.
Variable SigningKey : Type.
Variable generate_signing_key : string -> SigningKey.
Variable key_truth : SigningKey -> bool.
Variable generate_identifier : SigningKey -> string.
Variable new_node : string -> SigningKey -> string -> Node.
Variable read_file : string -> string + string.
Variable py_strip : string -> string.

(** The store name of a new client: an explicit store name takes
    precedence over a store name implied by the transaction type. *)
Definition init_store_name (store_name : option string)
  (transaction_type : option TxnType) : option string :=
  match store_name with
  | Some store_name => Some (strip slash store_name)
  | None =>
      match transaction_type with
      | Some transaction_type =>
          Some (strip slash (TransactionTypeName transaction_type))
      | None => None
      end
  end.

(** The signing key of a new client, if it is given one. *)
Definition init_signing_key (keystring keyfile : option string)
  : M (option SigningKey) :=
  match keystring with
  | Some (String a s) => ret (Some (generate_signing_key (String a s)))
  | _ =>
      match keyfile with
      | Some (String a s) =>
          match read_file (String a s) with
          | inr content =>
              ret (Some (generate_signing_key (py_strip content)))
          | inl ex =>
              raise (ClientException ("Failed to load key file: " +:+ ex))
          end
      | _ => ret None
      end
  end.

(** The fields of a new client, before it fetches the state and loads a
    key. *)
Definition blank_client (base_url : string) (store_name : option string)
  (transaction_type : option TxnType) (message_type : option MsgType)
  (disable_client_validation : bool) : SawtoothClient :=
  {| _base_url := base_url;
     _message_type := message_type;
     _transaction_type := transaction_type;
     _store_name := init_store_name store_name transaction_type;
     _communication := Communication_init base_url;
     _last_transaction := None;
     _local_node := None;
     _update_batch := None;
     _disable_client_validation := disable_client_validation;
     _current_state := None |}.

(** We only keep current state if we have a store name. *)
Definition init_current_state (transaction_type : option TxnType) : M unit :=
  c <- get_self ;;
  match _store_name c with
  | Some _ =>
      let state_type :=
        match transaction_type with
        | Some transaction_type => TransactionStoreType transaction_type
        | None => KeyValueStore
        end in
      modify_self
        (set_current_state (Some (ClientState_init false state_type))) ;;;
      fetch_state peer
  | None => ret tt
  end.

(** The signing identity of a new client, if it is given a key. *)
Definition init_local_node (name : string) (keystring keyfile : option string)
  : M unit :=
  signing_key <- init_signing_key keystring keyfile ;;
  match signing_key with
  | Some key =>
      if key_truth key then
        let identifier := generate_identifier key in
        modify_self (set_local_node (Some (new_node identifier key name)))
      else ret tt
  | None => ret tt
  end.

(** [SawtoothClient.__init__], from the log so far: the result, and the
    new client with the log it leaves. *)
Definition SawtoothClient_init (base_url : string) (store_name : option string)
  (name : string) (transaction_type : option TxnType)
  (message_type : option MsgType) (keystring keyfile : option string)
  (disable_client_validation : bool) (tr : list Event)
  : Result unit * World :=
  (init_current_state transaction_type ;;;
   init_local_node name keystring keyfile)
    {| self := blank_client base_url store_name transaction_type message_type
                 disable_client_validation;
       wire := tr |}.

(** *** Notions the further statements use *)

(** The world after a request that changed nothing of the client. *)
Definition sent (w : World) (r : Request) : World :=
  {| self := self w; wire := wire w ++ [Sent r] |}.

(** A GET request as [getmsg] sends it: no header, no body. *)
Definition plain_get (r : Request) : Prop :=
  req_method r = GET /\ req_headers r = [] /\ req_data r = None.

(** From [c] to [c'] nothing has changed but, at most, the synchronized
    store of the state: the speculative store, the recorded head and all
    the rest of the client are the same. *)
Definition keeps_view (c c' : SawtoothClient) : Prop :=
  exists st,
    c' = set_current_state (set_cs_state st <$> _current_state c) c.

(** A method that only reads: it leaves the client as it is and sends at
    most one request, which is no POST and has no header and no body. *)
Definition read_only {A} (m : M A) : Prop :=
  forall w, exists rs,
    (m w).2 = {| self := self w; wire := wire w ++ (Sent <$> rs) |}
    /\ (length rs <= 1)%nat
    /\ Forall (fun r => req_method r <> POST /\ req_headers r = []
                        /\ req_data r = None) rs.

(** The updates a batch takes from an argument of [send_update], if it
    takes any. *)
Definition update_items (updates : Updates) : option (list Value) :=
  match updates with
  | OneUpdate update => Some [update]
  | UpdateList updates => Some updates
  | OtherUpdates _ => None
  end.

(** A block of calls of [send_update], one after the other. *)
Fixpoint send_updates (calls : list (Updates * option (list Value)))
  : MK unit :=
  match calls with
  | [] => retK tt
  | (updates, dependencies) :: calls =>
      bindK (send_update updates dependencies) (fun _ => send_updates calls)
  end.

(** The transaction a batch of such calls amounts to. *)
Definition batched (calls : list (Updates * option (list Value)))
  : gmap string (list Value) :=
  <["Updates" := concat (omap (fun call => update_items call.1) calls)]>
    (<["Dependencies" := concat ((fun call => default [] call.2) <$> calls)]>
       ∅).

End ClientRest.

(** ** A concrete setting to run the client in

    Small stand-ins for the code outside this file: bodies are strings,
    lists and dictionaries; a store records the store it was made from and
    the store information it was made with; a transaction is applied to a
    store by recording its identifier. *)

Module Demo.

Inductive PyValue :=
| PyStr (s : string)
| PyList (l : list string)
| PyDict (kv : list (string * string)).

Inductive KVStore :=
| NewStore (storeinfo : option PyValue)
| CloneStore (prevstore : KVStore) (storeinfo : option PyValue)
| Applied (txnid : string) (store : KVStore).

Record Transaction := {
  t_type : string;
  t_minfo : gmap string (list PyValue);
  t_signer : option string
}.

Record Message := {
  m_type : string;
  m_transaction : option Transaction;
  m_sender : option string;
  m_signer : option string
}.

Definition truth (v : PyValue) : bool :=
  match v with
  | PyStr EmptyString | PyList [] | PyDict [] => false
  | _ => true
  end.

Definition getitem (v : PyValue) (k : string) : PyValue :=
  match v with
  | PyDict kv =>
      PyStr (default EmptyString
               (snd <$> List.find (fun p => String.eqb (fst p) k) kv))
  | _ => PyStr EmptyString
  end.

Definition contains (k : string) (v : PyValue) : bool :=
  match v with
  | PyDict kv => existsb (fun p => String.eqb (fst p) k) kv
  | _ => false
  end.

Definition to_str (v : PyValue) : string :=
  match v with
  | PyStr s => s
  | PyList _ => "[...]"
  | PyDict _ => "{...}"
  end.

(** A JSON body is read as the list of its words, a CBOR body as a
    dictionary with the one key [body]. *)
Definition ids_of (v : PyValue) : list string :=
  match v with
  | PyList l => l
  | _ => []
  end.

#[export] Instance externals : Externals := {|
  Value := PyValue;
  json2dict content := PyList (String.words content);
  cbor2dict content := PyDict [("body", content)];
  dict2cbor := to_str;
  py_bytes := PyStr;
  py_list l := PyList (to_str <$> l);
  py_dict m := PyDict (prod_map id to_str <$> map_to_list m);
  py_truth := truth;
  py_contains := contains;
  py_getitem := getitem;
  py_eq_str v s := match v with PyStr t => String.eqb t s | _ => false end;
  py_str := to_str;
  block_ids_of := ids_of;
  urljoin base path := base +:+ "/" +:+ path;
  urlencode query :=
    String.concat "&" ((fun p => fst p +:+ "=" +:+ snd p) <$> query);
  Store := KVStore;
  StoreType := unit;
  new_store _ prevstore storeinfo :=
    match prevstore with
    | None => NewStore storeinfo
    | Some s => CloneStore s storeinfo
    end;
  clone_store s storeinfo := CloneStore s storeinfo;
  Node := string;
  node_Identifier n := n;
  TxnType := string;
  MsgType := string;
  Txn := Transaction;
  Msg := Message;
  txn_TransactionTypeName := t_type;
  new_txn ty minfo := {| t_type := ty; t_minfo := minfo; t_signer := None |};
  txn_sign_from_node t n :=
    {| t_type := t_type t; t_minfo := t_minfo t; t_signer := Some n |};
  txn_Identifier t := "txn-of-" +:+ default "nobody" (t_signer t);
  txn_check_valid _ _ := None;
  txn_apply t st := Applied ("txn-of-" +:+ default "nobody" (t_signer t)) <$> st;
  new_msg ty :=
    {| m_type := ty; m_transaction := None; m_sender := None;
       m_signer := None |};
  set_Transaction m t :=
    {| m_type := m_type m; m_transaction := Some t; m_sender := m_sender m;
       m_signer := m_signer m |};
  set_SenderID m s :=
    {| m_type := m_type m; m_transaction := m_transaction m;
       m_sender := Some s; m_signer := m_signer m |};
  msg_sign_from_node m n :=
    {| m_type := m_type m; m_transaction := m_transaction m;
       m_sender := m_sender m; m_signer := Some n |};
  msg_MessageType := m_type;
  msg_dump m := PyDict [("Transaction", m_type m)]
|}.

Definition json_headers : gmap string string :=
  {[ "Content-Type" := "application/json" ]}.

(** A client for the store [Accounts], with a signing identity, that has
    synchronized nothing yet. *)
Definition fresh_state : ClientState := ClientState_init false tt.

Definition fresh_client : SawtoothClient :=
  {| _base_url := "http://validator";
     _message_type := Some "/Accounts/Transaction";
     _transaction_type := Some "/Accounts";
     _store_name := Some "Accounts";
     _communication := Communication_init "http://validator/";
     _last_transaction := None;
     _local_node := Some "alice";
     _update_batch := None;
     _disable_client_validation := false;
     _current_state := Some fresh_state |}.

(** The same client, synchronized through block [B0]. *)
Definition store_B0 : KVStore :=
  NewStore (Some (PyDict [("Store", "objects at B0")])).

Definition synced_state : ClientState :=
  {| cs_state_type := tt; cs_state := Some store_B0;
     cs_current_state := Some (CloneStore store_B0 None);
     cs_current_block_id := Some "B0" |}.

Definition synced_client : SawtoothClient :=
  set_current_state (Some synced_state) fresh_client.

(** A peer whose newest blocks are [block_ids], that answers every store
    request in JSON with the words of its URL, every HEAD request with
    [code], and every POST with an empty JSON list. *)
Definition chain_peer (block_ids : string) (code : Z) (tr : list Event)
  (r : Request) : Outcome :=
  match req_method r with
  | HEAD => if (code <? 400)%Z then Responded code ∅ EmptyString
            else HTTPError code ∅ None
  | GET =>
      if String.eqb (req_url r) "http://validator/block?blockcount=10"
      then Responded 200 json_headers block_ids
      else Responded 200 json_headers ("body of " +:+ req_url r)
  | POST => Responded 200 json_headers "accepted"
  end.

(** A peer that cannot be reached. *)
Definition unreachable_peer (tr : list Event) (r : Request) : Outcome :=
  URLError "connection refused".

End Demo.

(** ** More of the concrete setting

    Stand-ins for what [send_update] and the constructor need beyond
    [Externals], and further peers. *)

Module DemoRest.

(** [str(type(v))] *)
Definition py_type (v : Demo.PyValue) : string :=
  match v with
  | Demo.PyStr _ => "<type 'str'>"
  | Demo.PyList _ => "<type 'list'>"
  | Demo.PyDict _ => "<type 'dict'>"
  end.

Definition as_updates (v : Demo.PyValue) : list Demo.PyValue := [v].

(** A transaction type is its name; there is one store type; a signing
    key is its WIF string, and the node of a key is named by the identifier
    of the key. *)
Definition TransactionTypeName (transaction_type : string) : string :=
  transaction_type.

Definition key_truth (key : string) : bool :=
  match key with
  | EmptyString => false
  | String _ _ => true
  end.

Definition generate_identifier (key : string) : string := "id-of-" +:+ key.

Definition new_node (identifier key name : string) : string := identifier.

(** The one file there is. *)
Definition read_file (path : string) : string + string :=
  if String.eqb path "alice.wif" then inr " 5Kalice "
  else inl ("No such file or directory: " +:+ path).

Definition py_strip (s : string) : string := strip " "%char s.

(** The constructor with these stand-ins. *)
Definition construct (peer : list Event -> Request -> Outcome) :=
  SawtoothClient_init (E := Demo.externals) peer TransactionTypeName
    (fun _ => tt) tt string (fun wif => wif) key_truth generate_identifier
    new_node read_file py_strip.

(** A peer that answers every POST without a content type. *)
Definition mute_peer (tr : list Event) (r : Request) : Outcome :=
  match req_method r with
  | POST => Responded 200 ∅ "ok"
  | _ => Demo.chain_peer "B0" 302 tr r
  end.

(** A peer that answers every POST with an HTTP error and a JSON body. *)
Definition failing_peer (tr : list Event) (r : Request) : Outcome :=
  match req_method r with
  | POST => HTTPError 500 Demo.json_headers (Some "internal error")
  | _ => Demo.chain_peer "B0" 302 tr r
  end.

(** A peer whose newest blocks are [B2 B1 B0] that serves the delta of
    [B1] and drops the connection on the request for the delta of [B2]. *)
Definition flaky_peer (tr : list Event) (r : Request) : Outcome :=
  if String.eqb (req_url r)
       "http://validator/store/Accounts/*?blockid=B2&delta=1"
  then URLError "connection reset"
  else Demo.chain_peer "B2 B1 B0" 302 tr r.

End DemoRest.

(** ** A second setting, with a stricter transaction family

    As [Demo], except that a CBOR body is read as the dictionary of its
    words taken in pairs, and that a transaction without updates fails its
    check. *)

Module Strict.

Fixpoint pairs (l : list string) : list (string * string) :=
  match l with
  | k :: v :: l' => (k, v) :: pairs l'
  | _ => []
  end.

Definition check_valid (t : Demo.Transaction) (st : option Demo.KVStore)
  : option (Exn Demo.PyValue) :=
  match Demo.t_minfo t !! "Updates" with
  | Some (_ :: _) => None
  | _ => Some (InvalidTransactionError (Demo.PyStr "no updates"))
  end.

#[export] Instance externals : Externals := {|
  Value := Demo.PyValue;
  json2dict := @json2dict Demo.externals;
  cbor2dict content := Demo.PyDict (pairs (String.words content));
  dict2cbor := @dict2cbor Demo.externals;
  py_bytes := @py_bytes Demo.externals;
  py_list := @py_list Demo.externals;
  py_dict := @py_dict Demo.externals;
  py_truth := @py_truth Demo.externals;
  py_contains := @py_contains Demo.externals;
  py_getitem := @py_getitem Demo.externals;
  py_eq_str := @py_eq_str Demo.externals;
  py_str := @py_str Demo.externals;
  block_ids_of := @block_ids_of Demo.externals;
  urljoin := @urljoin Demo.externals;
  urlencode := @urlencode Demo.externals;
  Store := Demo.KVStore;
  StoreType := unit;
  new_store := @new_store Demo.externals;
  clone_store := @clone_store Demo.externals;
  Node := string;
  node_Identifier := @node_Identifier Demo.externals;
  TxnType := string;
  MsgType := string;
  Txn := Demo.Transaction;
  Msg := Demo.Message;
  txn_TransactionTypeName := @txn_TransactionTypeName Demo.externals;
  new_txn := @new_txn Demo.externals;
  txn_sign_from_node := @txn_sign_from_node Demo.externals;
  txn_Identifier := @txn_Identifier Demo.externals;
  txn_check_valid := check_valid;
  txn_apply := @txn_apply Demo.externals;
  new_msg := @new_msg Demo.externals;
  set_Transaction := @set_Transaction Demo.externals;
  set_SenderID := @set_SenderID Demo.externals;
  msg_sign_from_node := @msg_sign_from_node Demo.externals;
  msg_MessageType := @msg_MessageType Demo.externals;
  msg_dump := @msg_dump Demo.externals
|}.

Definition cbor_headers : gmap string string :=
  {[ "Content-Type" := "application/cbor" ]}.

(** The client of the store [Accounts], synchronized through block [B0]. *)
Definition synced_state : ClientState :=
  {| cs_state_type := tt; cs_state := Some Demo.store_B0;
     cs_current_state := Some (Demo.CloneStore Demo.store_B0 None);
     cs_current_block_id := Some "B0" |}.

Definition synced_client : SawtoothClient :=
  {| _base_url := "http://validator";
     _message_type := Some "/Accounts/Transaction";
     _transaction_type := Some "/Accounts";
     _store_name := Some "Accounts";
     _communication := Communication_init "http://validator/";
     _last_transaction := None;
     _local_node := Some "alice";
     _update_batch := None;
     _disable_client_validation := false;
     _current_state := Some synced_state |}.

(** A transaction with one update. *)
Definition one_update : gmap string (list Demo.PyValue) :=
  {[ "Updates" := [Demo.PyStr "deposit"] ]}.

(** A peer that rejects every POST as an invalid transaction. *)
Definition rejecting_peer (tr : list Event) (r : Request) : Outcome :=
  match req_method r with
  | POST =>
      HTTPError 400 cbor_headers
        (Some "errorType InvalidTransactionError error overdrawn")
  | _ => Demo.chain_peer "B0" 302 tr r
  end.

End Strict.

(** * Properties *)

(** Unfolds the monad; what is left is the case analysis of the method. *)
Ltac run :=
  unfold bind, ret, raise, get_self, modify_self, open, sleep,
    except_MessageException; simpl.

(** ** The transport *)

Section Transport.

Context {E : Externals}.
Variable peer : list Event -> Request -> Outcome.

Lemma getmsg_Responded path timeout w code headers content :
  peer (wire w) (get_request (self w) path timeout)
  = Responded code headers content ->
  getmsg peer path timeout w
  = (inr (body_of headers content),
     {| self := self w;
        wire := wire w ++ [Sent (get_request (self w) path timeout)] |}).
Proof.
  intros Hpeer. unfold getmsg. run.
  fold (get_request (self w) path timeout). rewrite Hpeer.
  unfold body_of. destruct (decode headers content); reflexivity.
Qed.

Lemma getmsg_failed path timeout w :
  (forall code headers content,
      peer (wire w) (get_request (self w) path timeout)
      <> Responded code headers content) ->
  exists msg,
    getmsg peer path timeout w
    = (inl (MessageException msg),
       {| self := self w;
          wire := wire w ++ [Sent (get_request (self w) path timeout)] |}).
Proof.
  intros Hpeer. unfold getmsg. run.
  fold (get_request (self w) path timeout).
  destruct (peer (wire w) (get_request (self w) path timeout)) eqn:Ho;
    try (eexists; reflexivity).
  exfalso. eapply Hpeer. reflexivity.
Qed.

(** A GET request leaves the client as it is and sends one request, which
    carries no header. *)
Lemma getmsg_world path timeout w :
  (getmsg peer path timeout w).2
  = {| self := self w;
       wire := wire w ++ [Sent (get_request (self w) path timeout)] |}.
Proof.
  unfold getmsg. run. fold (get_request (self w) path timeout).
  destruct (peer (wire w) (get_request (self w) path timeout)); try reflexivity.
  destruct (decode headers content); reflexivity.
Qed.

(** A HEAD request answers with the status code, of a response or of an
    HTTP error alike. *)
Lemma headrequest_code path w code :
  status_code (peer (wire w) (head_request (self w) path)) = Some code ->
  headrequest peer path w
  = (inr code,
     {| self := self w;
        wire := wire w ++ [Sent (head_request (self w) path)] |}).
Proof.
  intros Hpeer. unfold headrequest. run.
  fold (head_request (self w) path).
  destruct (peer (wire w) (head_request (self w) path));
    simpl in Hpeer; congruence.
Qed.

Lemma headrequest_world path w :
  (headrequest peer path w).2
  = {| self := self w;
       wire := wire w ++ [Sent (head_request (self w) path)] |}.
Proof.
  unfold headrequest. run. fold (head_request (self w) path).
  destruct (peer (wire w) (head_request (self w) path)); reflexivity.
Qed.

End Transport.

(** ** The state synchronisation engine *)

Section Refresh.

Context {E : Externals}.
Variable peer : list Event -> Request -> Outcome.

Lemma get_store_run w name key block_id delta :
  _store_name (self w) = Some name ->
  get_store peer key block_id delta w
  = getmsg peer (_construct_store_path (Some (inr name)) key block_id delta)
      10 w.
Proof.
  intros Hname. unfold get_store, get_store_by_name. run.
  rewrite Hname. reflexivity.
Qed.

Lemma py_in_absent (x : option string) (l : list string) :
  (forall h, x = Some h -> h ∉ l) -> py_in x l = false.
Proof.
  destruct x as [h|]; simpl; [|reflexivity].
  intros Habs. apply bool_decide_eq_false. apply Habs. reflexivity.
Qed.

Lemma py_in_present (h : string) (l : list string) :
  h ∈ l -> py_in (Some h) l = true.
Proof. intros Hin. simpl. apply bool_decide_eq_true. exact Hin. Qed.

(** [index] finds the first occurrence. *)
Lemma list_index_first (h : string) (newer older : list string) :
  h ∉ newer -> list_index h (newer ++ h :: older) = Some (length newer).
Proof.
  induction newer as [|y newer IH]; simpl; intros Hnot.
  - rewrite bool_decide_eq_true_2; reflexivity.
  - rewrite bool_decide_eq_false_2.
    + rewrite IH; [reflexivity|]. intros Hin. apply Hnot. now right.
    + intros ->. apply Hnot. now left.
Qed.

Lemma delta_request_comm c c' name block_id :
  _communication c = _communication c' ->
  delta_request c name block_id = delta_request c' name block_id.
Proof.
  intros Hcomm. unfold delta_request, get_request. rewrite Hcomm. reflexivity.
Qed.

(** The loop over the blocks to catch up with: as long as the peer serves
    the deltas, each is fetched in turn and cloned onto the store reached
    so far. *)
Lemma fetch_deltas_run c name ids : forall deltas w cs s0,
  _communication (self w) = _communication c ->
  _store_name (self w) = Some name ->
  _current_state (self w) = Some cs ->
  cs_state cs = Some s0 ->
  deltas_served peer c name (wire w) ids deltas ->
  fetch_deltas peer ids w
  = (inr tt,
     {| self :=
          set_current_state
            (Some (set_cs_state
                     (Some (foldl (fun s delta => clone_store s (Some delta))
                              s0 deltas)) cs))
            (self w);
        wire := wire w ++ (Sent <$> (delta_request c name <$> ids)) |}).
Proof.
  induction ids as [|block_id ids IH];
    intros deltas w cs s0 Hcomm Hname Hcs Hs0 Hserved.
  - destruct deltas; [|contradiction]. simpl. unfold ret.
    rewrite app_nil_r. destruct w as [c0 tr]; simpl in *.
    f_equal. f_equal. destruct c0; simpl in *. subst.
    destruct cs; simpl in *. subst. reflexivity.
  - destruct deltas as [|delta deltas]; [contradiction|].
    destruct Hserved as [(code & headers & content & Hpeer & Hbody) Hrest].
    rewrite <- (delta_request_comm (self w) c) in Hpeer, Hrest by exact Hcomm.
    simpl. unfold bind at 1. unfold get_store_delta_for_block.
    rewrite (get_store_run w name) by assumption.
    rewrite (getmsg_Responded peer _ _ w code headers content) by exact Hpeer.
    rewrite Hbody.
    unfold clone_of_state, client_state. run. rewrite Hcs, Hs0.
    unfold modify_client_state. run. rewrite Hcs. simpl.
    erewrite IH with (deltas := deltas) (s0 := clone_store s0 (Some delta));
      simpl; try reflexivity; try assumption.
    rewrite <- app_assoc. simpl.
    rewrite <- (delta_request_comm (self w) c) by exact Hcomm. reflexivity.
Qed.

(** A state as the constructor makes it has no recorded head. *)
Lemma init_synchronized c client_is_None state_type :
  _current_state c = Some (ClientState_init client_is_None state_type) ->
  synchronized c.
Proof.
  intros Hcs cs Hcs' Hhead. rewrite Hcs in Hcs'. injection Hcs' as <-.
  destruct client_is_None; simpl in Hhead; congruence.
Qed.

(** Refresh is [fetch] on a client that keeps a state. *)
Lemma fetch_state_fetch w cs :
  _current_state (self w) = Some cs -> fetch_state peer w = fetch peer w.
Proof. intros Hcs. unfold fetch_state. run. rewrite Hcs. reflexivity. Qed.

Lemma keeps_head_refl c : keeps_head c c.
Proof. intros cs Hcs. exists cs. auto. Qed.

Lemma keeps_head_trans c1 c2 c3 :
  keeps_head c1 c2 -> keeps_head c2 c3 -> keeps_head c1 c3.
Proof.
  intros H12 H23 cs3 Hcs3.
  destruct (H23 cs3 Hcs3) as (cs2 & Hcs2 & Hhead2 & Hst2).
  destruct (H12 cs2 Hcs2) as (cs1 & Hcs1 & Hhead1 & Hst1).
  exists cs1. split; [exact Hcs1|]. split; [congruence|auto].
Qed.

Lemma get_store_self key block_id delta w :
  self (get_store peer key block_id delta w).2 = self w.
Proof.
  unfold get_store, get_store_by_name. run.
  destruct (_store_name (self w)); [|reflexivity].
  rewrite getmsg_world. reflexivity.
Qed.

(** However the loop over the deltas ends, it keeps the recorded head and
    does not lose the synchronized store. *)
Lemma fetch_deltas_keeps_head ids : forall w,
  keeps_head (self w) (self (fetch_deltas peer ids w).2).
Proof.
  induction ids as [|block_id ids IH]; intros w.
  - apply keeps_head_refl.
  - simpl. unfold bind at 1. unfold get_store_delta_for_block.
    pose proof (get_store_self (Some "*") (Some block_id) true w) as Hself.
    destruct (get_store peer (Some "*") (Some block_id) true w)
      as [[e|delta] w1]; simpl in Hself.
    { simpl. rewrite Hself. apply keeps_head_refl. }
    unfold clone_of_state, client_state. run.
    destruct (_current_state (self w1)) as [cs|] eqn:Hcs; simpl.
    2:{ rewrite Hself. apply keeps_head_refl. }
    destruct (cs_state cs) as [s0|] eqn:Hs0; simpl.
    2:{ rewrite Hself. apply keeps_head_refl. }
    unfold modify_client_state. run. rewrite Hcs. simpl.
    eapply keeps_head_trans; [|apply IH]. simpl.
    intros cs' [= <-]. exists cs. rewrite <- Hself.
    split; [exact Hcs|]. split; [reflexivity|]. simpl. discriminate.
Qed.

(** Whatever the peer does, [fetch] leaves a client whose recorded head
    comes with a synchronized store as such a client. *)
Lemma fetch_synchronized w :
  synchronized (self w) -> synchronized (self (fetch peer w).2).
Proof.
  intros Hsync.
  assert (Hkeep : forall c', keeps_head (self w) c' -> synchronized c').
  { intros c' Hk cs' Hcs' Hhead.
    destruct (Hk cs' Hcs') as (cs & Hcs & Hsame & Hst).
    apply Hst. apply (Hsync cs Hcs). congruence. }
  unfold fetch, get_block_list. unfold bind at 1.
  pose proof (getmsg_world peer (_construct_block_list_path (Some 10)) 10 w)
    as Hw.
  destruct (getmsg peer (_construct_block_list_path (Some 10)) 10 w)
    as [[e|v] w1]; simpl in Hw; subst w1; [exact Hsync|].
  destruct (block_ids_of v) as [|block_id older]; [exact Hsync|].
  unfold client_state. run.
  destruct (_current_state (self w)) as [cs|] eqn:Hcs; [|exact Hsync].
  simpl. destruct (bool_decide _); [exact Hsync|].
  destruct (py_in (cs_current_block_id cs) (block_id :: older)).
  - unfold py_index.
    destruct (cs_current_block_id cs ≫= _) as [i|]; run; [|exact Hsync].
    set (w1 := {| self := self w; wire := _ |}).
    pose proof (fetch_deltas_keeps_head
                  (rev (take i (block_id :: older))) w1) as Hk.
    destruct (fetch_deltas peer (rev (take i (block_id :: older))) w1)
      as [[e|[]] w2]; simpl in Hk.
    { apply Hkeep. exact Hk. }
    unfold clone_of_state, client_state, modify_client_state. run.
    destruct (_current_state (self w2)) as [cs2|] eqn:Hcs2; simpl.
    2:{ apply Hkeep. exact Hk. }
    destruct (cs_state cs2) as [s2|] eqn:Hs2; simpl.
    2:{ apply Hkeep. exact Hk. }
    rewrite Hcs2. simpl. intros cs' [= <-] _. simpl. congruence.
  - unfold get_store_objects_through_block.
    set (w1 := {| self := self w; wire := _ |}).
    pose proof (get_store_self (Some "*") (Some block_id) false w1) as Hself.
    destruct (get_store peer (Some "*") (Some block_id) false w1)
      as [[e|state] w2]; simpl in Hself.
    { simpl. rewrite Hself. exact Hsync. }
    unfold clone_of_state, client_state, modify_client_state. run.
    subst w1. simpl in Hself.
    repeat (progress (rewrite ?Hself, ?Hcs; simpl)).
    intros cs' [= <-] _. simpl. discriminate.
Qed.

Lemma block_list_run {B} (k : Value -> M B) w code headers content :
  peer (wire w) (block_list_request (self w))
  = Responded code headers content ->
  bind (get_block_list peer (Some 10)) k w
  = k (body_of headers content)
      {| self := self w;
         wire := wire w ++ [Sent (block_list_request (self w))] |}.
Proof.
  intros Hpeer. unfold get_block_list, bind.
  rewrite (getmsg_Responded peer _ _ w code headers content) by exact Hpeer.
  reflexivity.
Qed.

(** C3.  Refresh when already current: if the newest id of the fetched
    block list is the recorded head, [fetch] returns after the block-list
    request alone; the client (synchronized store, speculative store and
    recorded head included) is as before, and the log has grown by that one
    request. *)
Theorem fetch_current_is_noop w cs code headers content block_id older :
  _current_state (self w) = Some cs ->
  peer (wire w) (block_list_request (self w))
  = Responded code headers content ->
  block_ids_of (body_of headers content) = block_id :: older ->
  cs_current_block_id cs = Some block_id ->
  fetch peer w
  = (inr tt,
     {| self := self w;
        wire := wire w ++ [Sent (block_list_request (self w))] |}).
Proof.
  intros Hcs Hpeer Hids Hhead.
  unfold fetch.
  rewrite (block_list_run _ w code headers content) by exact Hpeer.
  rewrite Hids. unfold client_state. run. rewrite Hcs, Hhead.
  rewrite bool_decide_eq_true_2 by reflexivity. reflexivity.
Qed.

(** C2.  Full refetch: if the recorded head is not among the fetched ids
    (in particular if no head was ever recorded), [fetch] asks for all
    objects of the store through the newest id and for nothing else; from
    the answer it builds a store of the configured type with no previous
    store ([prevstore] is [None]) and no deleted keys, forks the
    speculative store from it and records the newest id.  If the request
    fails, the failure is raised and the client is as before. *)
Theorem fetch_full_refetch w cs name code headers content block_id older :
  _current_state (self w) = Some cs ->
  _store_name (self w) = Some name ->
  peer (wire w) (block_list_request (self w))
  = Responded code headers content ->
  block_ids_of (body_of headers content) = block_id :: older ->
  (forall head, cs_current_block_id cs = Some head ->
                head ∉ block_id :: older) ->
  let tr1 := wire w ++ [Sent (block_list_request (self w))] in
  let tr2 := tr1 ++ [Sent (objects_request (self w) name block_id)] in
  match peer tr1 (objects_request (self w) name block_id) with
  | Responded _ headers' content' =>
      let fresh :=
        new_store (cs_state_type cs) None
          (Some (py_dict (<["Store" := body_of headers' content']>
                            (<["DeletedKeys" := py_list []]> ∅)))) in
      fetch peer w
      = (inr tt,
         {| self :=
              set_current_state
                (Some {| cs_state_type := cs_state_type cs;
                         cs_state := Some fresh;
                         cs_current_state := Some (clone_store fresh None);
                         cs_current_block_id := Some block_id |})
                (self w);
            wire := tr2 |})
  | _ =>
      exists msg,
        fetch peer w
        = (inl (MessageException msg), {| self := self w; wire := tr2 |})
  end.
Proof.
  intros Hcs Hname Hpeer Hids Habsent tr1 tr2.
  assert (Hne : Some block_id <> cs_current_block_id cs).
  { intros Heq. symmetry in Heq. apply (Habsent _ Heq). now left. }
  unfold fetch.
  rewrite (block_list_run _ w code headers content) by exact Hpeer.
  rewrite Hids.
  unfold client_state. run. rewrite Hcs.
  rewrite bool_decide_eq_false_2 by exact Hne.
  rewrite py_in_absent by exact Habsent.
  unfold get_store_objects_through_block.
  rewrite (get_store_run {| self := self w; wire := tr1 |} name)
    by exact Hname.
  fold (objects_request (self w) name block_id).
  destruct (peer tr1 (objects_request (self w) name block_id)) as
    [code' headers' content'| | |] eqn:Hobj.
  1:{ rewrite (getmsg_Responded peer _ _ {| self := self w; wire := tr1 |}
                 code' headers' content') by exact Hobj.
      simpl. rewrite Hcs. unfold modify_client_state, clone_of_state,
        client_state. run. rewrite Hcs. simpl. reflexivity. }
  all: destruct (getmsg_failed peer
                   (_construct_store_path (Some (inr name)) (Some "*")
                      (Some block_id) false) 10
                   {| self := self w; wire := tr1 |}) as [msg Hfail];
    [intros ? ? ?; simpl; fold (objects_request (self w) name block_id);
     rewrite Hobj; discriminate|].
  all: exists msg; rewrite Hfail; reflexivity.
Qed.

(** C1.  Incremental refresh: if the recorded head [head] is among the
    fetched ids but not the newest ([newer] are the ids before its first
    occurrence), and the peer serves the deltas, then [fetch] asks for the
    delta of each id of [newer], oldest first (the reverse of the fetched
    order), clones each delta in that order onto the synchronized store,
    forks the speculative store from the result and records the newest
    id. *)
Theorem fetch_incremental w cs name s0 code headers content head newer older
    deltas :
  _current_state (self w) = Some cs ->
  _store_name (self w) = Some name ->
  cs_current_block_id cs = Some head ->
  cs_state cs = Some s0 ->
  peer (wire w) (block_list_request (self w))
  = Responded code headers content ->
  block_ids_of (body_of headers content) = newer ++ head :: older ->
  newer <> [] ->
  head ∉ newer ->
  deltas_served peer (self w) name
    (wire w ++ [Sent (block_list_request (self w))]) (rev newer) deltas ->
  let synced := foldl (fun s delta => clone_store s (Some delta)) s0 deltas in
  fetch peer w
  = (inr tt,
     {| self :=
          set_current_state
            (Some {| cs_state_type := cs_state_type cs;
                     cs_state := Some synced;
                     cs_current_state := Some (clone_store synced None);
                     cs_current_block_id := List.head newer |})
            (self w);
        wire :=
          wire w ++ [Sent (block_list_request (self w))]
          ++ (Sent <$> (delta_request (self w) name <$> rev newer)) |}).
Proof.
  intros Hcs Hname Hhead Hs0 Hpeer Hids Hnewer Hnotin Hserved synced.
  destruct newer as [|newest newer']; [congruence|].
  unfold fetch.
  rewrite (block_list_run _ w code headers content) by exact Hpeer.
  rewrite Hids. cbn [app].
  change (newest :: newer' ++ head :: older)
    with ((newest :: newer') ++ head :: older).
  change (List.head (newest :: newer')) with (Some newest).
  set (newer := newest :: newer') in *.
  unfold client_state, bind at 1 2, get_self, ret. cbn [self].
  rewrite Hcs, Hhead.
  rewrite bool_decide_eq_false_2.
  2:{ intros [= ->]. apply Hnotin. now left. }
  rewrite py_in_present.
  2:{ apply elem_of_app. right. now left. }
  unfold py_index, mbind, option_bind.
  rewrite list_index_first by exact Hnotin.
  unfold bind at 2, ret.
  rewrite take_app_length.
  unfold bind at 1.
  erewrite (fetch_deltas_run (self w) name (rev newer) deltas
              {| self := self w;
                 wire := wire w ++ [Sent (block_list_request (self w))] |}
              cs s0); try reflexivity; try assumption.
  unfold clone_of_state, client_state, modify_client_state. run.
  rewrite <- app_assoc. reflexivity.
Qed.

End Refresh.

(** The three cases on the client of the store [Accounts]. *)

Section RefreshRuns.

#[local] Existing Instance Demo.externals.

Lemma fetch_current_is_noop_witness :
  let w := {| self := Demo.synced_client; wire := [] |} in
  fetch (Demo.chain_peer "B0 A9 A8" 302) w
  = (inr tt,
     {| self := Demo.synced_client;
        wire := [Sent (block_list_request Demo.synced_client)] |}).
Proof.
  intros w.
  apply (fetch_current_is_noop (E := Demo.externals) (Demo.chain_peer "B0 A9 A8" 302) w
           Demo.synced_state
           200 Demo.json_headers "B0 A9 A8" "B0" ["A9"; "A8"]);
    reflexivity.
Defined.

Lemma fetch_full_refetch_witness :
  let w := {| self := Demo.fresh_client; wire := [] |} in
  let fresh :=
    Demo.NewStore
      (Some (py_dict
               (<["Store" :=
                    Demo.PyList
                      ["body"; "of";
                       "http://validator/store/Accounts/*?blockid=B1"]]>
                  (<["DeletedKeys" := py_list []]> ∅)))) in
  fetch (Demo.chain_peer "B1" 302) w
  = (inr tt,
     {| self :=
          set_current_state
            (Some {| cs_state_type := tt;
                     cs_state := Some fresh;
                     cs_current_state := Some (Demo.CloneStore fresh None);
                     cs_current_block_id := Some "B1" |})
            Demo.fresh_client;
        wire := [Sent (block_list_request Demo.fresh_client);
                 Sent (objects_request Demo.fresh_client "Accounts" "B1")] |}).
Proof.
  intros w fresh.
  apply (fetch_full_refetch (E := Demo.externals) (Demo.chain_peer "B1" 302) w
           Demo.fresh_state
           "Accounts" 200 Demo.json_headers "B1" "B1" []);
    try reflexivity.
  intros head Hhead. discriminate Hhead.
Defined.

Lemma fetch_incremental_witness :
  let w := {| self := Demo.synced_client; wire := [] |} in
  let delta b :=
    Demo.PyList
      ["body"; "of";
       "http://validator/store/Accounts/*?blockid=" +:+ b +:+ "&delta=1"] in
  let synced :=
    Demo.CloneStore
      (Demo.CloneStore
         (Demo.CloneStore Demo.store_B0 (Some (delta "B1")))
         (Some (delta "B2")))
      (Some (delta "B3")) in
  fetch (Demo.chain_peer "B3 B2 B1 B0 A9" 302) w
  = (inr tt,
     {| self :=
          set_current_state
            (Some {| cs_state_type := tt;
                     cs_state := Some synced;
                     cs_current_state := Some (Demo.CloneStore synced None);
                     cs_current_block_id := Some "B3" |})
            Demo.synced_client;
        wire := [Sent (block_list_request Demo.synced_client);
                 Sent (delta_request Demo.synced_client "Accounts" "B1");
                 Sent (delta_request Demo.synced_client "Accounts" "B2");
                 Sent (delta_request Demo.synced_client "Accounts" "B3")] |}).
Proof.
  intros w delta synced.
  apply (fetch_incremental (E := Demo.externals) (Demo.chain_peer "B3 B2 B1 B0 A9" 302) w
           Demo.synced_state
           "Accounts" Demo.store_B0 200 Demo.json_headers "B3 B2 B1 B0 A9"
           "B0" ["B3"; "B2"; "B1"] ["A9"]
           [delta "B1"; delta "B2"; delta "B3"]);
    try reflexivity.
  - discriminate.
  - intros Hin. repeat (apply elem_of_cons in Hin as [Hin|Hin];
                        [discriminate Hin|]).
    inversion Hin.
  - simpl. repeat split; do 3 eexists; split; reflexivity.
Defined.

End RefreshRuns.

(** ** The submission pipeline *)

Section Pipeline.

Context {E : Externals}.
Variable peer : list Event -> Request -> Outcome.

(** [postmsg], by the outcome of the request. *)
Lemma postmsg_unfold msgtype info w :
  postmsg peer msgtype info w
  = let request := post_request (self w) msgtype info in
    let sent := {| self := self w; wire := wire w ++ [Sent request] |} in
    match peer (wire w) request with
    | Responded _ headers content =>
        (inr (decode headers content), after_post peer w msgtype info)
    | HTTPError code headers (Some content) =>
        match decode headers content with
        | None =>
            (inl (MessageException
                    ("operation failed with response: " +:+ pretty code)),
             sent)
        | Some value =>
            if py_contains "errorType" value then
              if py_eq_str (py_getitem value "errorType")
                   "InvalidTransactionError"
              then (inl (InvalidTransactionError
                           (if py_contains "error" value
                            then py_getitem value "error" else value)), sent)
              else (inl (MessageException (py_str value)), sent)
            else
              (inl (UnboundLocalError
                 "local variable 'response' referenced before assignment"),
               sent)
        end
    | HTTPError code headers None =>
        (inl (MessageException
                ("operation failed with response: " +:+ pretty code)), sent)
    | URLError reason =>
        (inl (MessageException ("operation failed: " +:+ reason)), sent)
    | OtherFailure =>
        (inl (MessageException "no response from server"), sent)
    end.
Proof.
  unfold postmsg, after_post, bind, get_self, open.
  cbv beta iota zeta. cbn [self wire].
  fold (post_request (self w) msgtype info).
  destruct (peer (wire w) (post_request (self w) msgtype info))
    as [code headers content|code headers [content|]| |];
    try reflexivity.
  - destruct (str_truth (comm_cookie (_communication (self w))));
      reflexivity.
  - destruct (decode headers content) as [value|]; [|reflexivity].
    destruct (py_contains "errorType" value); [|reflexivity].
    destruct (py_eq_str (py_getitem value "errorType")
                "InvalidTransactionError"); reflexivity.
Qed.

Lemma postmsg_world msgtype info w :
  (postmsg peer msgtype info w).2 = after_post peer w msgtype info.
Proof.
  rewrite postmsg_unfold. cbv zeta. unfold after_post.
  destruct (peer (wire w) (post_request (self w) msgtype info))
    as [code headers content|code headers [content|]| |];
    try reflexivity.
  destruct (decode headers content) as [value|]; [|reflexivity].
  destruct (py_contains "errorType" value); [|reflexivity].
  destruct (py_eq_str (py_getitem value "errorType")
              "InvalidTransactionError"); reflexivity.
Qed.

(** A POST returns a value only after a response. *)
Lemma postmsg_returns msgtype info w result w1 :
  postmsg peer msgtype info w = (inr result, w1) ->
  exists code headers content,
    peer (wire w) (post_request (self w) msgtype info)
    = Responded code headers content.
Proof.
  rewrite postmsg_unfold. cbv zeta.
  destruct (peer (wire w) (post_request (self w) msgtype info))
    as [code headers content|code headers [content|]| |];
    try discriminate.
  - intros _. eauto.
  - destruct (decode headers content) as [value|]; [|discriminate].
    destruct (py_contains "errorType" value); [|discriminate].
    destruct (py_eq_str (py_getitem value "errorType")
                "InvalidTransactionError"); discriminate.
Qed.

(** A POST that raises leaves the client as it was. *)
Lemma postmsg_raises msgtype info w e w1 :
  postmsg peer msgtype info w = (inl e, w1) ->
  w1 = {| self := self w;
          wire := wire w ++ [Sent (post_request (self w) msgtype info)] |}.
Proof.
  rewrite postmsg_unfold. cbv zeta.
  destruct (peer (wire w) (post_request (self w) msgtype info))
    as [code headers content|code headers [content|]| |];
    try congruence.
  destruct (decode headers content) as [value|]; [|congruence].
  destruct (py_contains "errorType" value); [|congruence].
  destruct (py_eq_str (py_getitem value "errorType")
              "InvalidTransactionError"); congruence.
Qed.

(** Among the transport failures of a POST, those in which [postmsg]
    raises [MessageException], are the peer that cannot be reached and the
    peer that does not answer. *)
Lemma postmsg_unreachable msgtype info w :
  (exists reason,
      peer (wire w) (post_request (self w) msgtype info) = URLError reason)
  \/ peer (wire w) (post_request (self w) msgtype info) = OtherFailure ->
  exists msg,
    postmsg peer msgtype info w
    = (inl (MessageException msg),
       {| self := self w;
          wire := wire w ++ [Sent (post_request (self w) msgtype info)] |}).
Proof.
  intros Hpeer. rewrite postmsg_unfold. cbv zeta.
  destruct Hpeer as [[reason ->]| ->]; eexists; reflexivity.
Qed.

(** [sendtxn] up to the post: a client that can sign, with a transaction
    and a message type, whose transaction passes the local check, posts the
    signed message; what follows depends on the post alone. *)
Lemma sendtxn_posts w txn_type txn_msg_type minfo local_node tty mty :
  _local_node (self w) = Some local_node ->
  py_or txn_type (_transaction_type (self w)) = Some tty ->
  py_or txn_msg_type (_message_type (self w)) = Some mty ->
  locally_valid (self w) (signed_txn tty minfo local_node) ->
  let txn := signed_txn tty minfo local_node in
  let msg := signed_msg mty txn local_node in
  sendtxn peer txn_type txn_msg_type minfo w
  = match postmsg peer (msg_MessageType msg) (msg_dump msg) w with
    | (inl (MessageException _), w1) => (inr None, w1)
    | (inl e, w1) => (inl e, w1)
    | (inr result, w1) =>
        if from_option py_truth false result
        then (inr (Some (txn_Identifier txn)),
              {| self := after_submit txn (self w1); wire := wire w1 |})
        else (inl AssertionError, w1)
    end.
Proof.
  intros Hnode Htty Hmty Hvalid txn msg.
  unfold sendtxn. unfold bind at 1. unfold get_self. cbv beta iota zeta.
  cbn [self]. rewrite Hnode, Htty, Hmty.
  fold (signed_txn tty minfo local_node). fold txn.
  fold (signed_msg mty txn local_node). fold msg.
  assert (Hcheck :
    (if negb (_disable_client_validation (self w))
     then bind speculative_state
            (fun st => match txn_check_valid txn st with
                       | Some e => raise e
                       | None => ret tt
                       end)
     else ret tt) w = (inr tt, w)).
  { destruct Hvalid as [Hoff|(cs & Hcs & Hok)].
    - rewrite Hoff. reflexivity.
    - destruct (_disable_client_validation (self w)); [reflexivity|].
      unfold speculative_state, client_state. run. rewrite Hcs. simpl.
      fold txn in Hok. rewrite Hok. reflexivity. }
  unfold bind at 1. rewrite Hcheck.
  unfold bind at 1. unfold except_MessageException. unfold bind at 1.
  destruct (postmsg peer (msg_MessageType msg) (msg_dump msg) w)
    as [[e|result] w1] eqn:Hpost.
  - destruct e; reflexivity.
  - unfold ret at 1. cbv beta iota.
    destruct (from_option py_truth false result); [|reflexivity].
    simpl negb. cbv iota.
    pose proof (postmsg_world (msg_MessageType msg) (msg_dump msg) w) as Hw.
    rewrite Hpost in Hw. simpl in Hw.
    assert (Hflag : _disable_client_validation (self w1)
                    = _disable_client_validation (self w)).
    { subst w1. unfold after_post. simpl.
      destruct (peer _ _); try reflexivity.
      destruct (str_truth _); reflexivity. }
    assert (Hst : _current_state (self w1) = _current_state (self w)).
    { subst w1. unfold after_post. simpl.
      destruct (peer _ _); try reflexivity.
      destruct (str_truth _); reflexivity. }
    unfold after_submit. simpl _disable_client_validation. rewrite Hflag.
    run. destruct (_disable_client_validation (self w)) eqn:Hoff'; simpl.
    + reflexivity.
    + unfold speculative_state, client_state, modify_client_state. run.
      destruct Hvalid as [Hoff|(cs & Hcs & Hok)]; [congruence|].
      simpl. repeat (progress (rewrite ?Hst, ?Hcs; simpl)). reflexivity.
Qed.

(** [sendtxn] before the post: where one of the conditions of
    [sendtxn_posts] fails, it raises and nothing has happened. *)
Lemma sendtxn_cases w txn_type txn_msg_type minfo :
  (exists e, sendtxn peer txn_type txn_msg_type minfo w = (inl e, w))
  \/ (exists local_node tty mty,
         _local_node (self w) = Some local_node
         /\ py_or txn_type (_transaction_type (self w)) = Some tty
         /\ py_or txn_msg_type (_message_type (self w)) = Some mty
         /\ locally_valid (self w) (signed_txn tty minfo local_node)).
Proof.
  destruct (_local_node (self w)) as [local_node|] eqn:Hnode.
  2:{ left. unfold sendtxn. run. rewrite Hnode. eauto. }
  destruct (py_or txn_type (_transaction_type (self w))) as [tty|] eqn:Htty.
  2:{ left. unfold sendtxn. run. rewrite Hnode, Htty. eauto. }
  destruct (_disable_client_validation (self w)) eqn:Hoff.
  - destruct (py_or txn_msg_type (_message_type (self w))) as [mty|] eqn:Hmty.
    + right. exists local_node, tty, mty. repeat split. left. exact Hoff.
    + left. unfold sendtxn. run. rewrite Hnode, Htty, Hoff, Hmty. simpl.
      eauto.
  - destruct (_current_state (self w)) as [cs|] eqn:Hcs.
    2:{ left. unfold sendtxn, speculative_state, client_state. run.
        rewrite Hnode, Htty, Hoff. simpl. rewrite Hcs. eauto. }
    destruct (txn_check_valid (signed_txn tty minfo local_node)
                (cs_current_state cs)) as [e|] eqn:Hok.
    { left. unfold sendtxn, speculative_state, client_state. run.
      rewrite Hnode, Htty, Hoff. simpl. rewrite Hcs. simpl.
      unfold signed_txn in Hok. rewrite Hok. eauto. }
    destruct (py_or txn_msg_type (_message_type (self w))) as [mty|] eqn:Hmty.
    + right. exists local_node, tty, mty. repeat split. right. eauto.
    + left. unfold sendtxn, speculative_state, client_state. run.
      rewrite Hnode, Htty, Hoff. simpl. rewrite Hcs. simpl.
      unfold signed_txn in Hok. rewrite Hok, Hmty. eauto.
Qed.

(** A post changes nothing of the client but the cookie. *)
Lemma after_post_self w msgtype info :
  exists k, self (after_post peer w msgtype info)
            = set_cookie k (self w).
Proof.
  unfold after_post. simpl.
  assert (Hid : self w
                = set_cookie (comm_cookie (_communication (self w))) (self w)).
  { destruct (self w) as [? ? ? ? [? ?] ? ? ? ? ?]. reflexivity. }
  destruct (peer _ _); eauto.
  destruct (str_truth _); eauto.
Qed.

(** What [sendtxn] can do to the client: adopt a cookie, and after a
    post that returned record the transaction and apply it. *)
Lemma sendtxn_self w txn_type txn_msg_type minfo :
  exists k,
    self (sendtxn peer txn_type txn_msg_type minfo w).2 = set_cookie k (self w)
    \/ exists txn,
         self (sendtxn peer txn_type txn_msg_type minfo w).2
         = after_submit txn (set_cookie k (self w)).
Proof.
  destruct (sendtxn_cases w txn_type txn_msg_type minfo)
    as [[e Hearly]|(local_node & tty & mty & Hnode & Htty & Hmty & Hvalid)].
  { rewrite Hearly. exists (comm_cookie (_communication (self w))). left.
    simpl. destruct (self w) as [? ? ? ? [? ?] ? ? ? ? ?]. reflexivity. }
  rewrite (sendtxn_posts w txn_type txn_msg_type minfo local_node tty mty)
    by assumption.
  cbv zeta.
  set (txn := signed_txn tty minfo local_node).
  set (msg := signed_msg mty txn local_node).
  pose proof (postmsg_world (msg_MessageType msg) (msg_dump msg) w) as Hw.
  destruct (after_post_self w (msg_MessageType msg) (msg_dump msg))
    as [k Hk].
  rewrite <- Hw in Hk. exists k.
  destruct (postmsg peer (msg_MessageType msg) (msg_dump msg) w)
    as [[e|result] w1]; simpl in Hk.
  - left. destruct e; exact Hk.
  - destruct (from_option py_truth false result); simpl.
    + right. exists txn. rewrite Hk. reflexivity.
    + left. exact Hk.
Qed.

(** The pipeline keeps the recorded head and the synchronized store. *)
Lemma sendtxn_synchronized w txn_type txn_msg_type minfo :
  synchronized (self w) ->
  synchronized (self (sendtxn peer txn_type txn_msg_type minfo w).2).
Proof.
  intros Hsync.
  destruct (sendtxn_self w txn_type txn_msg_type minfo)
    as [k [->|[txn ->]]].
  - exact Hsync.
  - unfold after_submit. simpl.
    destruct (negb (_disable_client_validation (self w))); [|exact Hsync].
    intros cs'. simpl.
    destruct (_current_state (self w)) as [cs|] eqn:Hcs; [|discriminate].
    simpl. intros [= <-]. simpl. apply (Hsync cs Hcs).
Qed.

(** Where the post fails with [MessageException]: if [postmsg] raises
    [MessageException] (as it does for a peer that cannot be reached or
    does not answer), [sendtxn] returns [None] and the client, its
    speculative store and last transaction included, is as before.
    Moreover, in every run, the last transaction and the speculative store
    are changed only if [sendtxn] returns an identifier, which it does
    only after a response to the post; and with client validation disabled
    the speculative store is never changed. *)
Theorem sendtxn_failed_post w txn_type txn_msg_type minfo r w' :
  sendtxn peer txn_type txn_msg_type minfo w = (r, w') ->
  (forall local_node tty mty msg w1,
      _local_node (self w) = Some local_node ->
      py_or txn_type (_transaction_type (self w)) = Some tty ->
      py_or txn_msg_type (_message_type (self w)) = Some mty ->
      locally_valid (self w) (signed_txn tty minfo local_node) ->
      postmsg peer
        (msg_MessageType
           (signed_msg mty (signed_txn tty minfo local_node) local_node))
        (msg_dump
           (signed_msg mty (signed_txn tty minfo local_node) local_node))
        w
      = (inl (MessageException msg), w1) ->
      r = inr None /\ w' = w1 /\ self w' = self w)
  /\ ((forall txnid, r <> inr (Some txnid)) ->
      _last_transaction (self w') = _last_transaction (self w)
      /\ _current_state (self w') = _current_state (self w))
  /\ (forall txnid, r = inr (Some txnid) ->
      _last_transaction (self w') = Some txnid
      /\ exists msgtype info code headers content,
          peer (wire w) (post_request (self w) msgtype info)
          = Responded code headers content
          /\ wire w' = wire w ++ [Sent (post_request (self w) msgtype info)])
  /\ (_disable_client_validation (self w) = true ->
      _current_state (self w') = _current_state (self w)).
Proof.
  intros Hrun.
  split.
  { intros local_node tty mty msg w1 Hnode Htty Hmty Hvalid Hpost.
    rewrite (sendtxn_posts w txn_type txn_msg_type minfo local_node tty mty)
      in Hrun by assumption.
    cbv zeta in Hrun. rewrite Hpost in Hrun. injection Hrun as <- <-.
    apply postmsg_raises in Hpost. subst w1. auto. }
  destruct (sendtxn_cases w txn_type txn_msg_type minfo)
    as [[e Hearly]|(local_node & tty & mty & Hnode & Htty & Hmty & Hvalid)].
  { rewrite Hearly in Hrun. injection Hrun as <- <-.
    repeat split; auto; discriminate. }
  rewrite (sendtxn_posts w txn_type txn_msg_type minfo local_node tty mty)
    in Hrun by assumption.
  cbv zeta in Hrun.
  set (txn := signed_txn tty minfo local_node) in *.
  set (msg := signed_msg mty txn local_node) in *.
  destruct (postmsg peer (msg_MessageType msg) (msg_dump msg) w)
    as [[e|result] w1] eqn:Hpost.
  - apply postmsg_raises in Hpost.
    assert (Hw : w' = w1 /\ forall txnid, r <> inr (Some txnid)).
    { destruct e; injection Hrun as <- <-; split; auto; discriminate. }
    destruct Hw as [-> Hr]. subst w1. simpl.
    split; [auto|]. split; [|auto].
    intros txnid Heq. destruct (Hr _ Heq).
  - pose proof (postmsg_world (msg_MessageType msg) (msg_dump msg) w)
      as Hw.
    rewrite Hpost in Hw. simpl in Hw.
    destruct (after_post_self w (msg_MessageType msg) (msg_dump msg))
      as [k Hk].
    rewrite <- Hw in Hk.
    destruct (from_option py_truth false result).
    + injection Hrun as <- <-. simpl.
      split; [intros Hr; destruct (Hr _ eq_refl)|].
      split.
      * intros txnid [= <-]. split.
        { unfold after_submit.
          destruct (negb _); reflexivity. }
        destruct (postmsg_returns _ _ _ _ _ Hpost)
          as (code & headers & content & Hpeer).
        exists (msg_MessageType msg), (msg_dump msg), code, headers, content.
        split; [exact Hpeer|]. rewrite Hw. reflexivity.
      * intros Hoff. unfold after_submit. simpl. rewrite Hk. simpl.
        rewrite Hoff. reflexivity.
    + injection Hrun as <- <-. rewrite Hk. simpl.
      repeat split; auto; discriminate.
Qed.

End Pipeline.

(** Submissions to a peer that cannot be reached, and to one that answers
    with an HTTP error. *)

Section PipelineRuns.

#[local] Existing Instance Demo.externals.

Lemma sendtxn_failed_post_witness :
  let w := {| self := Demo.synced_client; wire := [] |} in
  let run := sendtxn Demo.unreachable_peer None None ∅ w in
  run.1 = inr None /\ self run.2 = Demo.synced_client.
Proof.
  intros w run.
  destruct (sendtxn_failed_post (E := Demo.externals) Demo.unreachable_peer
              w None None ∅ run.1 run.2 (surjective_pairing run))
    as [Hfail _].
  destruct (Hfail "alice" "/Accounts" "/Accounts/Transaction"
              "operation failed: connection refused" run.2
              eq_refl eq_refl eq_refl
              (or_intror (ex_intro _ Demo.synced_state
                            (conj eq_refl eq_refl)))
              eq_refl)
    as (Hr & _ & Hself).
  split; assumption.
Defined.

(** C5.  A post that fails is not always turned into [None].  The peer
    answers the POST with an HTTP error whose JSON body has no
    ['errorType'].  No handler of [postmsg] raises for it, [response] is
    read without ever having been bound, and [sendtxn], which catches
    [MessageException] only, lets the [UnboundLocalError] through after
    the transaction went out: the failure of the post is propagated to
    the caller instead of being reported as [None]. *)
Theorem sendtxn_failed_post_propagates :
  let w := {| self := Demo.synced_client; wire := [] |} in
  let request :=
    post_request Demo.synced_client "/Accounts/Transaction"
      (Demo.PyDict [("Transaction", "/Accounts/Transaction")]) in
  let run := sendtxn DemoRest.failing_peer None None ∅ w in
  DemoRest.failing_peer [] request
  = HTTPError 500 Demo.json_headers (Some "internal error")
  /\ run.1
     = inl (UnboundLocalError
              "local variable 'response' referenced before assignment")
  /\ run.1 <> inr None
  /\ wire run.2 = [Sent request].
Proof.
  vm_compute.
  split; [reflexivity|]. split; [reflexivity|].
  split; [intros Heq; discriminate Heq|reflexivity].
Qed.

End PipelineRuns.

(** ** The batch accumulator *)

Section Batch.

Context {E : Externals}.
Variable peer : list Event -> Request -> Outcome.

(** The pipeline never touches the batch slot. *)
Lemma sendtxn_keeps_batch w txn_type txn_msg_type minfo :
  _update_batch (self (sendtxn peer txn_type txn_msg_type minfo w).2)
  = _update_batch (self w).
Proof.
  destruct (sendtxn_self peer w txn_type txn_msg_type minfo)
    as [k [->|[txn ->]]]; [reflexivity|].
  unfold after_submit. destruct (negb _); reflexivity.
Qed.

(** The dictionary [start_batch] makes has two keys. *)
Lemma new_batch_size (updates dependencies : list Value) :
  size (<["Updates" := updates]>
          (<["Dependencies" := dependencies]> (∅ : gmap string (list Value))))
  = 2%nat.
Proof.
  rewrite map_size_insert_None.
  - rewrite map_size_insert_None by apply lookup_empty.
    rewrite map_size_empty. reflexivity.
  - rewrite lookup_insert_ne by discriminate. apply lookup_empty.
Qed.

(** [send_batch] on an open batch: the slot is emptied, then the batch is
    handed to the pipeline. *)
Lemma send_batch_delegates w batch :
  _update_batch (self w) = Some batch ->
  size batch <> 0%nat ->
  send_batch peer w
  = sendtxn peer (_transaction_type (self w)) (_message_type (self w)) batch
      {| self := set_update_batch None (self w); wire := wire w |}.
Proof.
  intros Hbatch Hsize. unfold send_batch. run. rewrite Hbatch.
  destruct (size batch) as [|n] eqn:Hn; [congruence|]. reflexivity.
Qed.

(** [start_batch] followed by [send_batch]: the batch, which holds no
    update, is handed to the pipeline. *)
Lemma send_batch_after_start w :
  _update_batch (self w) = None ->
  bind start_batch (fun _ => send_batch peer) w
  = sendtxn peer (_transaction_type (self w)) (_message_type (self w))
      (<["Updates" := []]> (<["Dependencies" := []]> ∅))
      {| self := set_update_batch None (self w); wire := wire w |}.
Proof.
  intros Hnone. unfold start_batch. run. rewrite Hnone.
  rewrite (send_batch_delegates _
             (<["Updates" := []]> (<["Dependencies" := []]> ∅))).
  - reflexivity.
  - reflexivity.
  - rewrite new_batch_size. discriminate.
Qed.

(** C6.  One open batch: on a client whose batch slot is occupied,
    [start_batch] raises the configuration error and changes nothing;
    [send_batch] empties the slot and only then runs the pipeline on the
    batch; and after [send_batch], however it ended, either the slot is
    empty or the pipeline was never entered (the batch was refused as
    empty, with the client unchanged). *)
Theorem one_open_batch w batch :
  _update_batch (self w) = Some batch ->
  start_batch w
  = (inl (ClientException "Update batch already in progress."), w)
  /\ (size batch <> 0%nat ->
      send_batch peer w
      = sendtxn peer (_transaction_type (self w)) (_message_type (self w))
          batch {| self := set_update_batch None (self w); wire := wire w |})
  /\ (_update_batch (self (send_batch peer w).2) = None
      \/ (size batch = 0%nat
          /\ send_batch peer w
             = (inl (ClientException "No updates in batch."), w))).
Proof.
  intros Hbatch. split; [|split].
  - unfold start_batch. run. rewrite Hbatch. reflexivity.
  - apply send_batch_delegates. exact Hbatch.
  - destruct (size batch) as [|n] eqn:Hn.
    + right. split; [reflexivity|].
      unfold send_batch. run. rewrite Hbatch, Hn. reflexivity.
    + left. rewrite (send_batch_delegates w batch) by (congruence || lia).
      rewrite sendtxn_keeps_batch. reflexivity.
Qed.

(** C10.  [send_batch] with no open batch: taking the length of [None]
    raises a [TypeError], which is not the configuration error; nothing
    is built, signed or posted, and the client is unchanged. *)
Theorem send_batch_without_batch w :
  _update_batch (self w) = None ->
  send_batch peer w
  = (inl (TypeError "object of type 'NoneType' has no len()"), w).
Proof.
  intros Hnone. unfold send_batch. run. rewrite Hnone. reflexivity.
Qed.

End Batch.

(** Batches on the client of the store [Accounts]. *)

Section BatchRuns.

#[local] Existing Instance Demo.externals.

Lemma one_open_batch_witness :
  let peer := Demo.chain_peer "B0" 302 in
  let batch : gmap string (list Value) :=
    <["Updates" := [Demo.PyStr "update"]]> (<["Dependencies" := []]> ∅) in
  let w := {| self := set_update_batch (Some batch) Demo.synced_client;
              wire := [] |} in
  start_batch w
  = (inl (ClientException "Update batch already in progress."), w)
  /\ (size batch <> 0%nat ->
      send_batch peer w
      = sendtxn peer (Some "/Accounts") (Some "/Accounts/Transaction") batch
          {| self := Demo.synced_client; wire := [] |})
  /\ (_update_batch (self (send_batch peer w).2) = None
      \/ (size batch = 0%nat
          /\ send_batch peer w
             = (inl (ClientException "No updates in batch."), w))).
Proof.
  intros peer batch w.
  apply (one_open_batch (E := Demo.externals) peer w batch).
  reflexivity.
Defined.

Lemma send_batch_without_batch_witness :
  let w := {| self := Demo.synced_client; wire := [] |} in
  send_batch (Demo.chain_peer "B0" 302) w
  = (inl (TypeError "object of type 'NoneType' has no len()"), w).
Proof.
  intros w.
  apply (send_batch_without_batch (E := Demo.externals)
           (Demo.chain_peer "B0" 302) w).
  reflexivity.
Defined.

(** C4.  A batch that was opened and holds no update is not refused:
    [send_batch] sees the two keys of the dictionary, builds and signs a
    transaction without updates, posts it and returns its identifier. *)
Theorem send_batch_empty_batch_posts :
  let peer := Demo.chain_peer "B0" 302 in
  let w := {| self := Demo.synced_client; wire := [] |} in
  let run := bind start_batch (fun _ => send_batch peer) w in
  run.1 = inr (Some "txn-of-alice")
  /\ wire run.2
     = [Sent (post_request Demo.synced_client "/Accounts/Transaction"
                (Demo.PyDict [("Transaction", "/Accounts/Transaction")]))]
  /\ _last_transaction (self run.2) = Some "txn-of-alice".
Proof. vm_compute. repeat split. Qed.

End BatchRuns.

(** ** Transaction status and the wait for a commit *)

Section Commit.

Context {E : Externals}.
Variable peer : list Event -> Request -> Outcome.

Lemma status_checks_app (tr tr' : list Event) :
  status_checks (tr ++ tr') = (status_checks tr + status_checks tr')%nat.
Proof.
  unfold status_checks. rewrite List.filter_app, length_app. reflexivity.
Qed.

Lemma status_checks_head (c : SawtoothClient) path :
  status_checks [Sent (head_request c path)] = 1%nat.
Proof. reflexivity. Qed.

Lemma status_checks_polling c txnid timetowait sleeps :
  status_checks (polling (status_request c txnid) timetowait sleeps)
  = S sleeps.
Proof.
  induction sleeps as [|n IH]; [reflexivity|].
  change (status_checks (polling (status_request c txnid) timetowait (S n)))
    with (S (status_checks (polling (status_request c txnid) timetowait n))).
  rewrite IH. reflexivity.
Qed.

Lemma get_transaction_status_code txnid w code :
  status_code (peer (wire w) (status_request (self w) txnid)) = Some code ->
  get_transaction_status peer txnid w
  = (inr code,
     {| self := self w;
        wire := wire w ++ [Sent (status_request (self w) txnid)] |}).
Proof.
  intros Hcode. unfold get_transaction_status.
  apply headrequest_code. exact Hcode.
Qed.

(** One pass of the loop that sees the transaction committed. *)
Lemma wait_for_commit_loop_committed fuel txnid timetowait iterations passes w :
  status_code (peer (wire w) (status_request (self w) txnid)) = Some 200 ->
  wait_for_commit_loop peer (S fuel) txnid timetowait iterations passes w
  = (inr (Some true),
     {| self := self w;
        wire := wire w ++ [Sent (status_request (self w) txnid)] |}).
Proof.
  intros Hcode. simpl. unfold bind.
  rewrite (get_transaction_status_code txnid w 200) by exact Hcode.
  reflexivity.
Qed.

(** The loop against a peer that never reports the transaction committed:
    with [k] passes left before the budget is exceeded, it checks, sleeps
    and checks again [k] times, and gives up. *)
Lemma wait_for_commit_loop_gives_up c txnid timetowait iterations :
  (forall tr, exists code,
      status_code (peer tr (status_request c txnid)) = Some code
      /\ code <> 200) ->
  forall k fuel passes w,
    self w = c ->
    Z.to_nat (iterations - passes) = k ->
    (k < fuel)%nat ->
    wait_for_commit_loop peer fuel txnid timetowait iterations passes w
    = (inr (Some false),
       {| self := c;
          wire := wire w ++ polling (status_request c txnid) timetowait k |}).
Proof.
  intros Hnever. induction k as [|k IH]; intros fuel passes w Hself Hk Hfuel.
  - destruct fuel as [|fuel]; [lia|]. simpl. unfold bind.
    destruct (Hnever (wire w)) as (code & Hcode & Hne).
    rewrite <- Hself in Hcode.
    rewrite (get_transaction_status_code txnid w code) by exact Hcode.
    replace (code =? 200)%Z with false by (symmetry; apply Z.eqb_neq; exact Hne).
    replace (iterations <? passes + 1)%Z with true
      by (symmetry; apply Z.ltb_lt; lia).
    simpl. unfold ret. rewrite Hself. reflexivity.
  - destruct fuel as [|fuel]; [lia|]. simpl. unfold bind.
    destruct (Hnever (wire w)) as (code & Hcode & Hne).
    rewrite <- Hself in Hcode.
    rewrite (get_transaction_status_code txnid w code) by exact Hcode.
    replace (code =? 200)%Z with false by (symmetry; apply Z.eqb_neq; exact Hne).
    replace (iterations <? passes + 1)%Z with false
      by (symmetry; apply Z.ltb_ge; lia).
    simpl.
    rewrite (IH fuel (passes + 1)) by (simpl; try assumption; lia).
    simpl. rewrite Hself, <- !app_assoc. reflexivity.
Qed.

(** The loop against any peer: with enough fuel it returns or raises, after
    no more status checks than the budget and one. *)
Lemma wait_for_commit_loop_bounded txnid timetowait iterations :
  forall k fuel passes w,
    Z.to_nat (iterations - passes) = k ->
    (k < fuel)%nat ->
    exists r w',
      wait_for_commit_loop peer fuel txnid timetowait iterations passes w
      = (r, w')
      /\ r <> inr None
      /\ self w' = self w
      /\ (status_checks (wire w') <= status_checks (wire w) + S k)%nat.
Proof.
  induction k as [|k IH]; intros fuel passes w Hk Hfuel.
  - destruct fuel as [|fuel]; [lia|]. simpl. unfold bind.
    pose proof (headrequest_world peer
                  (_construct_transaction_path txnid None) w) as Hw.
    unfold get_transaction_status.
    destruct (headrequest peer (_construct_transaction_path txnid None) w)
      as [[e|code] w1]; simpl in Hw; subst w1.
    + eexists _, _. split; [reflexivity|]. split; [discriminate|].
      split; [reflexivity|]. simpl; rewrite status_checks_app, status_checks_head; lia.
    + replace (iterations <? passes + 1)%Z with true
        by (symmetry; apply Z.ltb_lt; lia).
      destruct (code =? 200)%Z; simpl; unfold ret;
        (eexists _, _; split; [reflexivity|]; split; [discriminate|];
         split; [reflexivity|]; simpl; rewrite status_checks_app, status_checks_head; lia).
  - destruct fuel as [|fuel]; [lia|]. simpl. unfold bind.
    pose proof (headrequest_world peer
                  (_construct_transaction_path txnid None) w) as Hw.
    unfold get_transaction_status.
    destruct (headrequest peer (_construct_transaction_path txnid None) w)
      as [[e|code] w1]; simpl in Hw; subst w1.
    + eexists _, _. split; [reflexivity|]. split; [discriminate|].
      split; [reflexivity|]. simpl; rewrite status_checks_app, status_checks_head; lia.
    + replace (iterations <? passes + 1)%Z with false
        by (symmetry; apply Z.ltb_ge; lia).
      destruct (code =? 200)%Z; simpl; unfold ret.
      * eexists _, _. split; [reflexivity|]. split; [discriminate|].
        split; [reflexivity|]. simpl; rewrite status_checks_app, status_checks_head; lia.
      * edestruct (IH fuel (passes + 1)) as (r & w' & Hloop & Hr & Hself & Hn);
          [lia|lia|].
        rewrite Hloop. exists r, w'. split; [reflexivity|].
        split; [exact Hr|]. split; [exact Hself|].
        simpl in Hn. rewrite !status_checks_app, status_checks_head in Hn.
        change (status_checks [Slept timetowait]) with 0%nat in Hn. lia.
Qed.

(** C7, as the code has it.  Waiting for a transaction with budget
    [iterations]: whatever the peer does the wait ends after at most
    [iterations + 1] status checks (one check for a negative budget);
    against a peer that never reports the transaction committed it makes
    exactly that many checks, with a sleep between two checks, and returns
    [False]; and the pass whose status check reports it committed returns
    [True] at once, with no further check or sleep. *)
Theorem wait_for_commit_polls w a t timetowait iterations fuel :
  (Z.to_nat iterations < fuel)%nat ->
  let txnid := String a t in
  let check := status_request (self w) txnid in
  (exists r w',
      wait_for_commit peer fuel (Some txnid) timetowait iterations w = (r, w')
      /\ r <> inr None
      /\ (status_checks (wire w')
          <= status_checks (wire w) + S (Z.to_nat iterations))%nat)
  /\ ((forall tr, exists code,
          status_code (peer tr check) = Some code /\ code <> 200) ->
      wait_for_commit peer fuel (Some txnid) timetowait iterations w
      = (inr (Some false),
         {| self := self w;
            wire := wire w
                    ++ polling check timetowait (Z.to_nat iterations) |})
      /\ status_checks (polling check timetowait (Z.to_nat iterations))
         = S (Z.to_nat iterations))
  /\ (forall fuel' passes w0,
        status_code (peer (wire w0) (status_request (self w0) txnid))
        = Some 200 ->
        wait_for_commit_loop peer (S fuel') txnid timetowait iterations
          passes w0
        = (inr (Some true),
           {| self := self w0;
              wire := wire w0 ++ [Sent (status_request (self w0) txnid)] |})).
Proof.
  intros Hfuel txnid check.
  assert (Hstart : wait_for_commit peer fuel (Some txnid) timetowait
                     iterations w
                   = wait_for_commit_loop peer fuel txnid timetowait
                       iterations 0 w) by reflexivity.
  split; [|split].
  - destruct (wait_for_commit_loop_bounded txnid timetowait iterations
                (Z.to_nat iterations) fuel 0 w)
      as (r & w' & Hloop & Hr & _ & Hn); [f_equal; lia|exact Hfuel|].
    exists r, w'. rewrite Hstart. auto.
  - intros Hnever. split.
    + rewrite Hstart.
      apply (wait_for_commit_loop_gives_up (self w) txnid timetowait
               iterations Hnever (Z.to_nat iterations) fuel 0 w);
        [reflexivity|f_equal; lia|exact Hfuel].
    + apply status_checks_polling.
  - intros fuel' passes w0 Hcode.
    apply wait_for_commit_loop_committed. exact Hcode.
Qed.

(** C8.  The status of a transaction is the code of a HEAD request for
    [transaction/<id>], whether it comes with a response or with an HTTP
    error.  As a [TransactionStatus] the code 200 is [committed], 302
    [pending], 404 [not_found], 500 [internal_server_error] and 503
    [server_busy]; any other code is no member and is labelled by its
    numeral.  Every code has a label. *)
Theorem transaction_status_mapping :
  TransactionStatus_call 200 = Some committed
  /\ TransactionStatus_call 302 = Some pending
  /\ TransactionStatus_call 404 = Some not_found
  /\ TransactionStatus_call 500 = Some internal_server_error
  /\ TransactionStatus_call 503 = Some server_busy
  /\ (forall code, code ∉ [200; 302; 404; 500; 503] ->
        TransactionStatus_call code = None
        /\ pretty_status code = pretty code)
  /\ (forall s,
        pretty_status (TransactionStatus_value s)
        = TransactionStatus_name s +:+ ":" +:+ pretty (TransactionStatus_value s))
  /\ (forall txnid w code,
        status_code
          (peer (wire w) (head_request (self w) ("transaction/" +:+ txnid)))
        = Some code ->
        get_transaction_status peer txnid w
        = (inr code,
           {| self := self w;
              wire := wire w
                      ++ [Sent (head_request (self w)
                                  ("transaction/" +:+ txnid))] |})).
Proof.
  repeat (split; [reflexivity|]).
  split; [|split].
  - intros code Hcode.
    assert (Hcall : TransactionStatus_call code = None).
    { unfold TransactionStatus_call. cbn [List.find TransactionStatus_value].
      repeat match goal with
             | |- context [(?n =? code)%Z] =>
                 replace (n =? code)%Z with false
                   by (symmetry; apply Z.eqb_neq; intros <-; apply Hcode;
                       repeat constructor)
             end.
      reflexivity. }
    split; [exact Hcall|]. unfold pretty_status. rewrite Hcall. reflexivity.
  - intros []; reflexivity.
  - intros txnid w code Hcode.
    apply (get_transaction_status_code txnid w code). exact Hcode.
Qed.

End Commit.

(** Waiting for the transaction [tx1] with a budget of 3. *)

Section CommitRuns.

#[local] Existing Instance Demo.externals.

(** C7, as the specification has it, fails: with a budget of 3 against a
    peer that always answers 302 the wait returns [False] after 4 status
    checks, not after at most 3. *)
Lemma wait_for_commit_budget_counterexample :
  let w := {| self := Demo.synced_client; wire := [] |} in
  let run := wait_for_commit (Demo.chain_peer "B0" 302) 10 (Some "tx1") 0 3 w in
  run.1 = inr (Some false)
  /\ status_checks (wire run.2) = 4%nat
  /\ ~ (status_checks (wire run.2) <= 3)%nat.
Proof.
  vm_compute. split; [reflexivity|]. split; [reflexivity|].
  intros Hle. repeat (apply le_S_n in Hle). inversion Hle.
Qed.

Lemma wait_for_commit_polls_witness :
  let peer := Demo.chain_peer "B0" 302 in
  let w := {| self := Demo.synced_client; wire := [] |} in
  let check := status_request Demo.synced_client "tx1" in
  wait_for_commit peer 10 (Some "tx1") 0 3 w
  = (inr (Some false),
     {| self := Demo.synced_client;
        wire := [Sent check; Slept 0; Sent check; Slept 0; Sent check;
                 Slept 0; Sent check] |}).
Proof.
  intros peer w check.
  destruct (wait_for_commit_polls (E := Demo.externals) peer w
              "t" "x1" 0 3 10 ltac:(vm_compute; lia))
    as (_ & Hgives_up & _).
  apply Hgives_up.
  intros tr. exists 302. split; [reflexivity|discriminate].
Defined.

Lemma transaction_status_mapping_witness :
  let peer := Demo.chain_peer "B0" 404 in
  let w := {| self := Demo.synced_client; wire := [] |} in
  (TransactionStatus_call 418 = None /\ pretty_status 418 = "418")
  /\ pretty_status 404 = "not_found:404"
  /\ get_transaction_status peer "tx1" w
     = (inr 404,
        {| self := Demo.synced_client;
           wire := [Sent (head_request Demo.synced_client
                            "transaction/tx1")] |}).
Proof.
  intros peer w.
  destruct (transaction_status_mapping (E := Demo.externals) peer)
    as (_ & _ & _ & _ & _ & Hother & Hknown & Hhead).
  split; [|split].
  - apply (Hother 418).
    intros Hin. repeat (apply elem_of_cons in Hin as [Hin|Hin];
                        [discriminate Hin|]).
    inversion Hin.
  - apply (Hknown not_found).
  - apply (Hhead "tx1" w 404). reflexivity.
Defined.

End CommitRuns.

(** ** The session cookie *)

Section Session.

Context {E : Externals}.
Variable peer : list Event -> Request -> Outcome.

(** C9, as the code has it.  The cookie belongs to POST requests alone.
    A POST of a client that holds a cookie (a non-empty one) carries it in
    the header [cookie] and leaves it as it is, whatever the outcome.  A
    POST of a client that holds none carries no such header, and adopts
    the [Set-Cookie] header of the response if there is a response, and
    nothing otherwise.  GET and HEAD requests carry no header at all and
    leave the client, its cookie included, unchanged. *)
Theorem cookie_discipline w :
  let cookie := comm_cookie (_communication (self w)) in
  (forall msgtype info,
      let request := post_request (self w) msgtype info in
      let w' := (postmsg peer msgtype info w).2 in
      wire w' = wire w ++ [Sent request]
      /\ (forall k, cookie = Some k -> k <> EmptyString ->
          comm_cookie (_communication (self w')) = Some k
          /\ In ("cookie", k) (req_headers request))
      /\ (str_truth cookie = false ->
          (forall v, ~ In ("cookie", v) (req_headers request))
          /\ comm_cookie (_communication (self w'))
             = match peer (wire w) request with
               | Responded _ headers _ => headers !! "Set-Cookie"
               | _ => cookie
               end))
  /\ (forall path timeout,
        (getmsg peer path timeout w).2
        = {| self := self w;
             wire := wire w ++ [Sent (get_request (self w) path timeout)] |}
        /\ req_headers (get_request (self w) path timeout) = [])
  /\ (forall path,
        (headrequest peer path w).2
        = {| self := self w;
             wire := wire w ++ [Sent (head_request (self w) path)] |}
        /\ req_headers (head_request (self w) path) = []).
Proof.
  intros cookie. split; [|split].
  - intros msgtype info request w'. subst w'.
    rewrite postmsg_world. unfold after_post. cbn [self wire].
    fold request. split; [reflexivity|]. split.
    + intros k Hheld Hk. fold cookie. rewrite Hheld.
      destruct k as [|a k]; [congruence|]. cbn [str_truth]. split.
      * destruct (peer (wire w) request); rewrite <- Hheld; reflexivity.
      * unfold request, post_request. cbn [req_headers]. fold cookie.
        rewrite Hheld. apply in_or_app. right. now left.
    + intros Hnone. fold cookie. rewrite Hnone. split.
      * intros v. unfold request, post_request. cbn [req_headers].
        fold cookie.
        replace (cookie_header cookie) with (@nil (string * string)).
        { intros [[=]|[[=]|[]]]. }
        destruct cookie as [[|a k]|]; simpl in *; congruence.
      * destruct (peer (wire w) request); reflexivity.
  - intros path timeout. split; [apply getmsg_world|reflexivity].
  - intros path. split; [apply headrequest_world|reflexivity].
Qed.

End Session.

(** A client that holds the cookie [sid]. *)

Section SessionRuns.

#[local] Existing Instance Demo.externals.

(** C9, as the specification has it, fails: the refresh of a client that
    holds a cookie sends its request for the block list without it. *)
Lemma cookie_not_carried_counterexample :
  let w := {| self := set_cookie (Some "sid") Demo.synced_client;
              wire := [] |} in
  let run := fetch_state (Demo.chain_peer "B0" 302) w in
  run.1 = inr tt
  /\ comm_cookie (_communication (self run.2)) = Some "sid"
  /\ exists request,
      wire run.2 = [Sent request]
      /\ ~ In ("cookie", "sid") (req_headers request).
Proof.
  vm_compute. split; [reflexivity|]. split; [reflexivity|].
  eexists. split; [reflexivity|]. intros [].
Qed.

Lemma cookie_discipline_witness :
  let peer := Demo.chain_peer "B0" 302 in
  let w := {| self := set_cookie (Some "sid") Demo.synced_client;
              wire := [] |} in
  let info := Demo.PyStr "message" in
  comm_cookie (_communication (self (postmsg peer "forward" info w).2))
  = Some "sid"
  /\ In ("cookie", "sid") (req_headers (post_request (self w) "forward" info)).
Proof.
  intros peer w info.
  destruct (cookie_discipline (E := Demo.externals) peer w)
    as (Hpost & _ & _).
  destruct (Hpost "forward" info) as (_ & Hheld & _).
  apply Hheld; [reflexivity|discriminate].
Defined.

End SessionRuns.

(** * Further properties *)

(** ** More of the submission pipeline *)

Section PipelineMore.

Context {E : Externals}.
Variable peer : list Event -> Request -> Outcome.

(** X1.  A read-only client cannot submit: without a signing identity
    [sendtxn] raises the configuration error before anything is built or
    sent, and [send_batch] of an open batch raises it too, having already
    emptied the batch slot: the batch is gone although nothing was sent. *)
Theorem read_only_client_cannot_submit w :
  _local_node (self w) = None ->
  (forall txn_type txn_msg_type minfo,
      sendtxn peer txn_type txn_msg_type minfo w
      = (inl (ClientException
                "can not send transactions as a read-only client"), w))
  /\ (forall batch,
        _update_batch (self w) = Some batch -> size batch <> 0%nat ->
        send_batch peer w
        = (inl (ClientException
                  "can not send transactions as a read-only client"),
           {| self := set_update_batch None (self w); wire := wire w |})).
Proof.
  intros Hnode. split.
  - intros txn_type txn_msg_type minfo. unfold sendtxn. run.
    rewrite Hnode. reflexivity.
  - intros batch Hbatch Hsize.
    rewrite (send_batch_delegates peer w batch) by assumption.
    unfold sendtxn. run. rewrite Hnode. reflexivity.
Qed.

(** X2.  A transaction that fails the local check is never sent: with
    client validation on, if [check_valid] raises on the speculative store,
    [sendtxn] raises that exception and the world (the speculative store,
    the last transaction and the wire) is as before. *)
Theorem sendtxn_local_rejection w txn_type txn_msg_type minfo local_node tty
    cs e :
  _local_node (self w) = Some local_node ->
  py_or txn_type (_transaction_type (self w)) = Some tty ->
  _disable_client_validation (self w) = false ->
  _current_state (self w) = Some cs ->
  txn_check_valid (signed_txn tty minfo local_node) (cs_current_state cs)
  = Some e ->
  sendtxn peer txn_type txn_msg_type minfo w = (inl e, w).
Proof.
  intros Hnode Htty Hon Hcs Hcheck.
  unfold sendtxn, speculative_state, client_state. run.
  rewrite Hnode, Htty, Hon. simpl. rewrite Hcs. simpl.
  unfold signed_txn in Hcheck. rewrite Hcheck. reflexivity.
Qed.

(** What [sendtxn] makes of the outcome of its post, for a client that
    gets as far as posting. *)
Lemma sendtxn_by_outcome w txn_type txn_msg_type minfo local_node tty mty :
  _local_node (self w) = Some local_node ->
  py_or txn_type (_transaction_type (self w)) = Some tty ->
  py_or txn_msg_type (_message_type (self w)) = Some mty ->
  locally_valid (self w) (signed_txn tty minfo local_node) ->
  let txn := signed_txn tty minfo local_node in
  let msg := signed_msg mty txn local_node in
  let request := post_request (self w) (msg_MessageType msg) (msg_dump msg) in
  let posted := after_post peer w (msg_MessageType msg) (msg_dump msg) in
  sendtxn peer txn_type txn_msg_type minfo w
  = match peer (wire w) request with
    | Responded _ headers content =>
        if from_option py_truth false (decode headers content)
        then (inr (Some (txn_Identifier txn)),
              {| self := after_submit txn (self posted);
                 wire := wire posted |})
        else (inl AssertionError, posted)
    | HTTPError code headers (Some content) =>
        match decode headers content with
        | None => (inr None, sent w request)
        | Some value =>
            if py_contains "errorType" value then
              if py_eq_str (py_getitem value "errorType")
                   "InvalidTransactionError"
              then (inl (InvalidTransactionError
                           (if py_contains "error" value
                            then py_getitem value "error" else value)),
                    sent w request)
              else (inr None, sent w request)
            else
              (inl (UnboundLocalError
                 "local variable 'response' referenced before assignment"),
               sent w request)
        end
    | _ => (inr None, sent w request)
    end.
Proof.
  intros Hnode Htty Hmty Hvalid txn msg request posted.
  rewrite (sendtxn_posts peer w txn_type txn_msg_type minfo local_node tty mty)
    by assumption.
  cbv zeta. fold txn msg. rewrite postmsg_unfold. cbv zeta. fold request.
  unfold sent.
  destruct (peer (wire w) request)
    as [code headers content|code headers [content|]| |]; try reflexivity.
  destruct (decode headers content) as [value|]; [|reflexivity].
  destruct (py_contains "errorType" value); [|reflexivity].
  destruct (py_eq_str (py_getitem value "errorType")
              "InvalidTransactionError"); reflexivity.
Qed.

(** X3.  An accepted submission: when the post is answered with a body
    that decodes to a true value, [sendtxn] returns the identifier of the
    signed transaction after exactly one POST, records it as the last
    transaction and, unless client validation is disabled, applies the
    transaction to the speculative store; the synchronized store and the
    recorded head stay as they were. *)
Theorem sendtxn_accepted w txn_type txn_msg_type minfo local_node tty mty
    code headers content value :
  _local_node (self w) = Some local_node ->
  py_or txn_type (_transaction_type (self w)) = Some tty ->
  py_or txn_msg_type (_message_type (self w)) = Some mty ->
  locally_valid (self w) (signed_txn tty minfo local_node) ->
  let txn := signed_txn tty minfo local_node in
  let msg := signed_msg mty txn local_node in
  let request := post_request (self w) (msg_MessageType msg) (msg_dump msg) in
  peer (wire w) request = Responded code headers content ->
  decode headers content = Some value ->
  py_truth value = true ->
  exists w',
    sendtxn peer txn_type txn_msg_type minfo w
    = (inr (Some (txn_Identifier txn)), w')
    /\ wire w' = wire w ++ [Sent request]
    /\ _last_transaction (self w') = Some (txn_Identifier txn)
    /\ _current_state (self w')
       = (if _disable_client_validation (self w)
          then _current_state (self w)
          else (fun cs => set_cs_current_state
                            (txn_apply txn (cs_current_state cs)) cs)
               <$> _current_state (self w)).
Proof.
  intros Hnode Htty Hmty Hvalid txn msg request Hpeer Hdecode Htrue.
  rewrite (sendtxn_by_outcome w txn_type txn_msg_type minfo local_node tty mty)
    by assumption.
  cbv zeta. fold txn msg request. rewrite Hpeer, Hdecode.
  cbn [from_option]. rewrite Htrue. eexists. split; [reflexivity|].
  destruct (after_post_self peer w (msg_MessageType msg) (msg_dump msg))
    as [k Hk].
  split; [reflexivity|]. cbn [self]. rewrite Hk.
  unfold after_submit. simpl.
  destruct (_disable_client_validation (self w)); simpl;
    split; reflexivity.
Qed.

(** X4.  A post that is answered but not acknowledged: when the response
    has a content type that is neither JSON nor CBOR, or decodes to a false
    value, the [assert] of [sendtxn] fails.  The transaction is on the wire,
    but it is not recorded as the last transaction and not applied to the
    speculative store. *)
Theorem sendtxn_unacknowledged w txn_type txn_msg_type minfo local_node tty
    mty code headers content :
  _local_node (self w) = Some local_node ->
  py_or txn_type (_transaction_type (self w)) = Some tty ->
  py_or txn_msg_type (_message_type (self w)) = Some mty ->
  locally_valid (self w) (signed_txn tty minfo local_node) ->
  let txn := signed_txn tty minfo local_node in
  let msg := signed_msg mty txn local_node in
  let request := post_request (self w) (msg_MessageType msg) (msg_dump msg) in
  peer (wire w) request = Responded code headers content ->
  from_option py_truth false (decode headers content) = false ->
  exists w',
    sendtxn peer txn_type txn_msg_type minfo w = (inl AssertionError, w')
    /\ wire w' = wire w ++ [Sent request]
    /\ _last_transaction (self w') = _last_transaction (self w)
    /\ _current_state (self w') = _current_state (self w).
Proof.
  intros Hnode Htty Hmty Hvalid txn msg request Hpeer Hfalse.
  rewrite (sendtxn_by_outcome w txn_type txn_msg_type minfo local_node tty mty)
    by assumption.
  cbv zeta. fold txn msg request. rewrite Hpeer, Hfalse.
  eexists. split; [reflexivity|].
  destruct (after_post_self peer w (msg_MessageType msg) (msg_dump msg))
    as [k Hk].
  split; [reflexivity|]. rewrite Hk. split; reflexivity.
Qed.

(** X5.  A rejection by the validator: when the post ends in an HTTP error
    whose body decodes to a value with an ['errorType'], [sendtxn] raises
    [InvalidTransactionError] if that type is ["InvalidTransactionError"]
    (with the ['error'] of the body, or the body itself if it has none) and
    returns [None] otherwise.  Either way the client is unchanged. *)
Theorem sendtxn_remote_rejection w txn_type txn_msg_type minfo local_node tty
    mty code headers content value :
  _local_node (self w) = Some local_node ->
  py_or txn_type (_transaction_type (self w)) = Some tty ->
  py_or txn_msg_type (_message_type (self w)) = Some mty ->
  locally_valid (self w) (signed_txn tty minfo local_node) ->
  let txn := signed_txn tty minfo local_node in
  let msg := signed_msg mty txn local_node in
  let request := post_request (self w) (msg_MessageType msg) (msg_dump msg) in
  peer (wire w) request = HTTPError code headers (Some content) ->
  decode headers content = Some value ->
  py_contains "errorType" value = true ->
  sendtxn peer txn_type txn_msg_type minfo w
  = (if py_eq_str (py_getitem value "errorType") "InvalidTransactionError"
     then inl (InvalidTransactionError
                 (if py_contains "error" value
                  then py_getitem value "error" else value))
     else inr None,
     sent w request).
Proof.
  intros Hnode Htty Hmty Hvalid txn msg request Hpeer Hdecode Htype.
  rewrite (sendtxn_by_outcome w txn_type txn_msg_type minfo local_node tty mty)
    by assumption.
  cbv zeta. fold txn msg request. rewrite Hpeer, Hdecode, Htype.
  destruct (py_eq_str _ _); reflexivity.
Qed.

(** X6.  An HTTP error without an error type: when the post ends in an
    HTTP error whose body decodes to a value that has no ['errorType'], no
    handler of [postmsg] raises, [response] is read without ever having
    been bound, and the [UnboundLocalError] passes through [sendtxn], which
    catches [MessageException] only. *)
Theorem sendtxn_http_error_without_error_type w txn_type txn_msg_type minfo
    local_node tty mty code headers content value :
  _local_node (self w) = Some local_node ->
  py_or txn_type (_transaction_type (self w)) = Some tty ->
  py_or txn_msg_type (_message_type (self w)) = Some mty ->
  locally_valid (self w) (signed_txn tty minfo local_node) ->
  let txn := signed_txn tty minfo local_node in
  let msg := signed_msg mty txn local_node in
  let request := post_request (self w) (msg_MessageType msg) (msg_dump msg) in
  peer (wire w) request = HTTPError code headers (Some content) ->
  decode headers content = Some value ->
  py_contains "errorType" value = false ->
  postmsg peer (msg_MessageType msg) (msg_dump msg) w
  = (inl (UnboundLocalError
            "local variable 'response' referenced before assignment"),
     sent w request)
  /\ sendtxn peer txn_type txn_msg_type minfo w
     = (inl (UnboundLocalError
               "local variable 'response' referenced before assignment"),
        sent w request).
Proof.
  intros Hnode Htty Hmty Hvalid txn msg request Hpeer Hdecode Htype.
  split.
  - rewrite postmsg_unfold. cbv zeta. fold request.
    rewrite Hpeer, Hdecode, Htype. reflexivity.
  - rewrite (sendtxn_by_outcome w txn_type txn_msg_type minfo local_node tty
               mty) by assumption.
    cbv zeta. fold txn msg request. rewrite Hpeer, Hdecode, Htype.
    reflexivity.
Qed.

(** The world a submission leaves: nothing sent and the client as it was,
    or one POST sent and the client with at most a cookie adopted and, if
    an identifier is returned, the submission recorded. *)
Lemma sendtxn_world w txn_type txn_msg_type minfo :
  exists r c' tr,
    sendtxn peer txn_type txn_msg_type minfo w
    = (r, {| self := c'; wire := wire w ++ tr |})
    /\ (tr = [] /\ c' = self w
        \/ exists msgtype info k,
             tr = [Sent (post_request (self w) msgtype info)]
             /\ (c' = set_cookie k (self w)
                 \/ exists txn, c' = after_submit txn (set_cookie k (self w)))).
Proof.
  destruct (sendtxn_cases peer w txn_type txn_msg_type minfo)
    as [[e Hearly]|(local_node & tty & mty & Hnode & Htty & Hmty & Hvalid)].
  { exists (inl e), (self w), []. rewrite Hearly, app_nil_r.
    split; [destruct w; reflexivity|]. left. split; reflexivity. }
  rewrite (sendtxn_posts peer w txn_type txn_msg_type minfo local_node tty mty)
    by assumption.
  cbv zeta.
  set (txn := signed_txn tty minfo local_node).
  set (msg := signed_msg mty txn local_node).
  pose proof (postmsg_world peer (msg_MessageType msg) (msg_dump msg) w) as Hw.
  destruct (after_post_self peer w (msg_MessageType msg) (msg_dump msg))
    as [k Hk].
  assert (Hposted : after_post peer w (msg_MessageType msg) (msg_dump msg)
                    = {| self := set_cookie k (self w);
                         wire := wire w
                                 ++ [Sent (post_request (self w)
                                             (msg_MessageType msg)
                                             (msg_dump msg))] |}).
  { rewrite <- Hk. reflexivity. }
  rewrite Hposted in Hw.
  destruct (postmsg peer (msg_MessageType msg) (msg_dump msg) w)
    as [[e|result] w1]; simpl in Hw; subst w1.
  - assert (Hraise : exists r,
               match e with
               | MessageException _ =>
                   (inr None,
                    {| self := set_cookie k (self w);
                       wire := wire w
                               ++ [Sent (post_request (self w)
                                           (msg_MessageType msg)
                                           (msg_dump msg))] |})
               | _ =>
                   (inl e,
                    {| self := set_cookie k (self w);
                       wire := wire w
                               ++ [Sent (post_request (self w)
                                           (msg_MessageType msg)
                                           (msg_dump msg))] |})
               end
               = (r : Result (option string),
                  {| self := set_cookie k (self w);
                     wire := wire w
                             ++ [Sent (post_request (self w)
                                         (msg_MessageType msg)
                                         (msg_dump msg))] |})).
    { destruct e; eexists; reflexivity. }
    destruct Hraise as [r Hraise].
    exists r, (set_cookie k (self w)), [Sent (post_request (self w)
                                               (msg_MessageType msg)
                                               (msg_dump msg))].
    split; [exact Hraise|]. right.
    exists (msg_MessageType msg), (msg_dump msg), k.
    split; [reflexivity|]. left. reflexivity.
  - destruct (from_option py_truth false result).
    + eexists _, _, _. split; [reflexivity|]. right.
      exists (msg_MessageType msg), (msg_dump msg), k.
      split; [reflexivity|]. right. exists txn. reflexivity.
    + eexists _, _, _. split; [reflexivity|]. right.
      exists (msg_MessageType msg), (msg_dump msg), k.
      split; [reflexivity|]. left. reflexivity.
Qed.

(** X7.  A submission is one POST at most: however [sendtxn] ends and
    whatever the peer answers, it has sent nothing, and then the client is
    as it was, or one POST built from the client as it was, and no other
    request.  [sendtxn] assigns neither the recorded head nor the store
    type of the state, neither the batch slot nor the store name: a client
    does not count its own submission as a block it has caught up with. *)
Theorem sendtxn_sends_at_most_one_post w txn_type txn_msg_type minfo :
  exists r c' tr,
    sendtxn peer txn_type txn_msg_type minfo w
    = (r, {| self := c'; wire := wire w ++ tr |})
    /\ (tr = [] /\ c' = self w
        \/ exists msgtype info,
             tr = [Sent (post_request (self w) msgtype info)])
    /\ (forall cs, _current_state (self w) = Some cs ->
          exists cs', _current_state c' = Some cs'
                      /\ cs_current_block_id cs' = cs_current_block_id cs
                      /\ cs_state_type cs' = cs_state_type cs)
    /\ (_current_state (self w) = None -> _current_state c' = None)
    /\ _update_batch c' = _update_batch (self w)
    /\ _store_name c' = _store_name (self w).
Proof.
  destruct (sendtxn_world w txn_type txn_msg_type minfo)
    as (r & c' & tr & Hrun & Hshape).
  exists r, c', tr. split; [exact Hrun|].
  destruct Hshape as [[-> ->]|(msgtype & info & k & -> & Hself)].
  { split; [left; split; reflexivity|].
    split; [intros cs Hcs; exists cs; auto|]. auto. }
  split; [right; exists msgtype, info; reflexivity|].
  destruct Hself as [->|[txn ->]].
  - split; [intros cs Hcs; exists cs; auto|]. auto.
  - unfold after_submit. simpl.
    destruct (negb (_disable_client_validation (self w))); simpl.
    + split.
      { intros cs Hcs. rewrite Hcs. simpl. eexists.
        split; [reflexivity|]. auto. }
      split; [intros ->; reflexivity|]. auto.
    + split; [intros cs Hcs; exists cs; auto|]. auto.
Qed.

End PipelineMore.

(** ** Batches of updates *)

Section BatchMore.

Context {E : Externals}.
Variable peer : list Event -> Request -> Outcome.
Variable py_type : Value -> string.
Variable as_updates : Value -> list Value.

Lemma set_update_batch_twice b b' (c : SawtoothClient) :
  set_update_batch b' (set_update_batch b c) = set_update_batch b' c.
Proof. reflexivity. Qed.

Lemma set_update_batch_same (c : SawtoothClient) :
  set_update_batch (_update_batch c) c = c.
Proof. destruct c. reflexivity. Qed.

(** [self._update_batch[key] += items] on a batch that has the key. *)
Lemma batch_extend_run key items w batch l :
  _update_batch (self w) = Some batch ->
  batch !! key = Some l ->
  batch_extend key items w
  = (inr tt,
     {| self := set_update_batch (Some (<[key := l ++ items]> batch)) (self w);
        wire := wire w |}).
Proof.
  intros Hbatch Hkey. unfold batch_extend, bindK, lift, get_self. simpl.
  rewrite Hbatch, Hkey. reflexivity.
Qed.

(** [send_update] in batching mode. *)
Lemma send_update_batching w batch updates dependencies :
  _update_batch (self w) = Some batch ->
  send_update peer py_type as_updates updates dependencies w
  = bindK
      (match updates with
       | OneUpdate update => batch_extend "Updates" [update]
       | UpdateList updates => batch_extend "Updates" updates
       | OtherUpdates object =>
           raiseK (Exception
                     (ClientException
                        ("Unexpected updates type " +:+ py_type object
                         +:+ ".")))
       end)
      (fun _ =>
         bindK
           (match dependencies with
            | Some (d :: ds) => batch_extend "Dependencies" (d :: ds)
            | _ => retK tt
            end)
           (fun _ => retK None)) w.
Proof.
  intros Hbatch. unfold send_update. unfold bindK at 1.
  unfold lift at 1, get_self. cbv beta iota. rewrite Hbatch. reflexivity.
Qed.

(** X8.  In batching mode [send_update] is local: whatever the updates and
    the dependencies, and whether it returns or raises, nothing is sent,
    nothing of the client but the content of the open batch changes, the
    batch stays open, and no transaction id is returned. *)
Theorem send_update_batching_is_offline w batch updates dependencies :
  _update_batch (self w) = Some batch ->
  let run := send_update peer py_type as_updates updates dependencies w in
  wire run.2 = wire w
  /\ (exists batch', self run.2 = set_update_batch (Some batch') (self w))
  /\ (forall txnid, run.1 <> inr (Some txnid)).
Proof.
  intros Hbatch run.
  assert (Hsame : self w = set_update_batch (Some batch) (self w)).
  { rewrite <- Hbatch. symmetry. apply set_update_batch_same. }
  assert (Hextend : forall key items w0 b0,
             _update_batch (self w0) = Some b0 ->
             exists b1 r,
               batch_extend key items w0
               = (r, {| self := set_update_batch (Some b1) (self w0);
                        wire := wire w0 |})).
  { intros key items w0 b0 Hb0.
    destruct (b0 !! key) as [l|] eqn:Hkey.
    - rewrite (batch_extend_run key items w0 b0 l) by assumption. eauto.
    - unfold batch_extend, bindK, lift, get_self, raiseK. simpl.
      rewrite Hb0, Hkey. exists b0. eexists. f_equal.
      destruct w0 as [c tr]. simpl in *. f_equal.
      rewrite <- Hb0. symmetry. apply set_update_batch_same. }
  assert (Hrun : exists b r,
             run = (r, {| self := set_update_batch (Some b) (self w);
                          wire := wire w |})
             /\ forall txnid, r <> inr (Some txnid)).
  { subst run. rewrite (send_update_batching w batch) by assumption.
    assert (Hfirst : exists b1 r,
               match updates with
               | OneUpdate update => batch_extend "Updates" [update]
               | UpdateList updates => batch_extend "Updates" updates
               | OtherUpdates object =>
                   raiseK (Exception
                             (ClientException
                                ("Unexpected updates type " +:+ py_type object
                                 +:+ ".")))
               end w
               = (r, {| self := set_update_batch (Some b1) (self w);
                        wire := wire w |})).
    { destruct updates as [update|l|object].
      - apply (Hextend _ _ w batch Hbatch).
      - apply (Hextend _ _ w batch Hbatch).
      - exists batch. eexists. unfold raiseK. f_equal.
        destruct w as [c tr]. simpl in *. f_equal. exact Hsame. }
    destruct Hfirst as (b1 & r1 & Hfirst).
    unfold bindK at 1. rewrite Hfirst.
    destruct r1 as [e|[]].
    { exists b1. eexists. split; [reflexivity|].
      intros txnid Heq; discriminate Heq. }
    set (w1 := {| self := set_update_batch (Some b1) (self w);
                  wire := wire w |}).
    assert (Hsecond : exists b2 r,
               match dependencies with
               | Some (d :: ds) => batch_extend "Dependencies" (d :: ds)
               | _ => retK tt
               end w1
               = (r, {| self := set_update_batch (Some b2) (self w);
                        wire := wire w |})).
    { destruct dependencies as [[|d ds]|].
      - exists b1. eexists. reflexivity.
      - destruct (Hextend "Dependencies" (d :: ds) w1 b1 eq_refl)
          as (b2 & r & Hrun).
        exists b2, r. rewrite Hrun. reflexivity.
      - exists b1. eexists. reflexivity. }
    destruct Hsecond as (b2 & r2 & Hsecond).
    unfold bindK. rewrite Hsecond.
    destruct r2 as [e|[]]; unfold retK; exists b2; eexists;
      (split; [reflexivity|]); intros txnid Heq; discriminate Heq. }
  destruct Hrun as (b & r & -> & Hr).
  split; [reflexivity|]. split; [exists b; reflexivity|]. exact Hr.
Qed.

(** [send_update] in batching mode, on a batch that has both keys. *)
Lemma send_update_batching_run w batch us ds updates items dependencies :
  _update_batch (self w) = Some batch ->
  batch !! "Updates" = Some us ->
  batch !! "Dependencies" = Some ds ->
  update_items updates = Some items ->
  send_update peer py_type as_updates updates dependencies w
  = (inr None,
     {| self := set_update_batch
                  (Some (<["Dependencies" := ds ++ default [] dependencies]>
                           (<["Updates" := us ++ items]> batch))) (self w);
        wire := wire w |}).
Proof.
  intros Hbatch Hus Hds Hitems.
  rewrite (send_update_batching w batch) by assumption.
  assert (Hfirst :
            match updates with
            | OneUpdate update => batch_extend "Updates" [update]
            | UpdateList updates => batch_extend "Updates" updates
            | OtherUpdates object =>
                raiseK (Exception
                          (ClientException
                             ("Unexpected updates type " +:+ py_type object
                              +:+ ".")))
            end w
            = (inr tt,
               {| self := set_update_batch
                            (Some (<["Updates" := us ++ items]> batch))
                            (self w);
                  wire := wire w |})).
  { destruct updates as [update|l|object]; simpl in Hitems;
      [injection Hitems as <- | injection Hitems as <- | discriminate];
      apply batch_extend_run; assumption. }
  unfold bindK at 1. rewrite Hfirst.
  set (batch1 := <["Updates" := us ++ items]> batch).
  assert (Hds1 : batch1 !! "Dependencies" = Some ds).
  { subst batch1. rewrite lookup_insert_ne by discriminate. exact Hds. }
  destruct dependencies as [[|d l]|]; unfold bindK, retK; cbn [default].
  - rewrite app_nil_r, (insert_id batch1) by exact Hds1. reflexivity.
  - rewrite (batch_extend_run "Dependencies" (d :: l) _ batch1 ds)
      by (try reflexivity; exact Hds1).
    reflexivity.
  - rewrite app_nil_r, (insert_id batch1) by exact Hds1. reflexivity.
Qed.

(** X9.  What [send_update] adds to an open batch: a dict is appended to
    the updates of the batch, a list or tuple extends them, and the
    dependencies, if any are given, extend its dependencies; the other
    keys of the batch are untouched and the call returns [None]. *)
Theorem send_update_adds_to_batch w batch us ds updates items dependencies :
  _update_batch (self w) = Some batch ->
  batch !! "Updates" = Some us ->
  batch !! "Dependencies" = Some ds ->
  update_items updates = Some items ->
  exists batch',
    send_update peer py_type as_updates updates dependencies w
    = (inr None,
       {| self := set_update_batch (Some batch') (self w); wire := wire w |})
    /\ batch' !! "Updates" = Some (us ++ items)
    /\ batch' !! "Dependencies" = Some (ds ++ default [] dependencies)
    /\ forall key, key <> "Updates" -> key <> "Dependencies" ->
                   batch' !! key = batch !! key.
Proof.
  intros Hbatch Hus Hds Hitems.
  rewrite (send_update_batching_run w batch us ds updates items) by assumption.
  eexists. split; [reflexivity|].
  split; [|split].
  - rewrite lookup_insert_ne by discriminate. apply lookup_insert_eq.
  - apply lookup_insert_eq.
  - intros key Hu Hd. rewrite !lookup_insert_ne by congruence. reflexivity.
Qed.

(** A block of accepted calls in an open batch. *)
Lemma send_updates_run calls : forall w batch us ds,
  _update_batch (self w) = Some batch ->
  batch !! "Updates" = Some us ->
  batch !! "Dependencies" = Some ds ->
  Forall (fun call => is_Some (update_items call.1)) calls ->
  send_updates peer py_type as_updates calls w
  = (inr tt,
     {| self :=
          set_update_batch
            (Some (<["Dependencies" :=
                       ds ++ concat ((fun call => default [] call.2)
                                       <$> calls)]>
                     (<["Updates" :=
                          us ++ concat (omap (fun call => update_items call.1)
                                          calls)]> batch)))
            (self w);
        wire := wire w |}).
Proof.
  induction calls as [|[updates dependencies] calls IH];
    intros w batch us ds Hbatch Hus Hds Hall.
  - simpl. unfold retK. rewrite !app_nil_r.
    rewrite (insert_id batch "Updates") by exact Hus.
    rewrite (insert_id batch "Dependencies") by exact Hds.
    rewrite <- Hbatch, set_update_batch_same. destruct w; reflexivity.
  - apply Forall_cons in Hall as [[items Hitems] Hall].
    cbn [send_updates fst snd] in *. unfold bindK.
    rewrite (send_update_batching_run w batch us ds updates items)
      by assumption.
    set (batch1 := <["Dependencies" := ds ++ default [] dependencies]>
                     (<["Updates" := us ++ items]> batch)).
    rewrite (IH {| self := set_update_batch (Some batch1) (self w);
                   wire := wire w |}
               batch1 (us ++ items) (ds ++ default [] dependencies) eq_refl);
      [|subst batch1; rewrite lookup_insert_ne by discriminate;
        apply lookup_insert_eq
       |apply lookup_insert_eq|exact Hall].
    subst batch1.
    cbn [self wire omap list_omap fmap list_fmap concat fst snd].
    rewrite Hitems. cbn [concat]. rewrite set_update_batch_twice.
    do 4 f_equal. rewrite <- !app_assoc.
    apply map_eq. intros key.
    destruct (decide (key = "Dependencies")) as [->|Hd].
    { rewrite !lookup_insert_eq. reflexivity. }
    rewrite !(lookup_insert_ne _ "Dependencies") by congruence.
    destruct (decide (key = "Updates")) as [->|Hu].
    { rewrite !lookup_insert_eq. reflexivity. }
    rewrite !lookup_insert_ne by congruence. reflexivity.
Qed.

Lemma start_batch_run w :
  _update_batch (self w) = None ->
  start_batch w
  = (inr tt,
     {| self := set_update_batch
                  (Some (<["Updates" := []]> (<["Dependencies" := []]> ∅)))
                  (self w);
        wire := wire w |}).
Proof. intros Hnone. unfold start_batch. run. rewrite Hnone. reflexivity. Qed.

Lemma closed_batch (c : SawtoothClient) :
  _update_batch c = None -> set_update_batch None c = c.
Proof. intros <-. apply set_update_batch_same. Qed.

(** The batch of a block is the transaction of its calls. *)
Lemma batch_of_calls (calls : list (Updates * option (list Value))) :
  <["Dependencies" :=
      [] ++ concat ((fun call => default [] call.2) <$> calls)]>
    (<["Updates" :=
         [] ++ concat (omap (fun call => update_items call.1) calls)]>
       (<["Updates" := []]> (<["Dependencies" := []]> ∅)))
  = batched calls.
Proof.
  unfold batched. cbn [app].
  rewrite insert_insert_eq, insert_insert_ne by discriminate.
  rewrite insert_insert_eq. reflexivity.
Qed.

(** X10.  A scoped batch is one transaction: a [with UpdateBatch(client)]
    block of calls of [send_update] with dicts, lists or tuples, entered
    with no batch open, does what one [sendtxn] does with the updates of
    the calls concatenated in order and their dependencies concatenated in
    order: the same requests, the same client afterwards, and the same
    exception if there is one.  The transaction id is not returned. *)
Theorem with_UpdateBatch_is_one_transaction w calls :
  _update_batch (self w) = None ->
  Forall (fun call => is_Some (update_items call.1)) calls ->
  with_UpdateBatch peer (send_updates peer py_type as_updates calls) w
  = match sendtxn peer (_transaction_type (self w)) (_message_type (self w))
            (batched calls) w with
    | (inl e, w') => (inl (Exception e), w')
    | (inr _, w') => (inr tt, w')
    end.
Proof.
  intros Hnone Hall.
  unfold with_UpdateBatch, UpdateBatch_enter, UpdateBatch_exit.
  unfold lift at 1. rewrite (start_batch_run w) by assumption.
  rewrite (send_updates_run calls
             {| self := set_update_batch
                          (Some (<["Updates" := []]>
                                   (<["Dependencies" := []]> ∅))) (self w);
                wire := wire w |}
             (<["Updates" := []]> (<["Dependencies" := []]> ∅)) [] [] eq_refl);
    [|rewrite lookup_insert_eq; reflexivity
     |rewrite lookup_insert_ne by discriminate;
      rewrite lookup_insert_eq; reflexivity
     |exact Hall].
  rewrite batch_of_calls. cbn [self wire]. rewrite set_update_batch_twice.
  unfold lift, bind.
  rewrite (send_batch_delegates peer _ (batched calls)) by
    (try reflexivity; unfold batched; rewrite new_batch_size; discriminate).
  cbn [self wire]. rewrite set_update_batch_twice.
  rewrite (closed_batch (self w)) by assumption.
  replace {| self := self w; wire := wire w |} with w
    by (destruct w; reflexivity).
  destruct (sendtxn peer _ _ (batched calls) w) as [[e|r] w']; reflexivity.
Qed.

Lemma send_updates_app calls calls' w :
  send_updates peer py_type as_updates (calls ++ calls') w
  = bindK (send_updates peer py_type as_updates calls)
      (fun _ => send_updates peer py_type as_updates calls') w.
Proof.
  revert w. induction calls as [|[updates dependencies] calls IH]; intros w.
  - reflexivity.
  - simpl. unfold bindK.
    destruct (send_update peer py_type as_updates updates dependencies w)
      as [[e|u] w1]; [reflexivity|].
    rewrite IH. reflexivity.
Qed.

(** X11.  A scoped batch is all or nothing: if one call of the block has
    updates that are neither a dict nor a list or tuple, the block raises
    the [ClientException] of that call, the updates of the calls before it
    are abandoned with the batch, nothing is sent, and the client is as it
    was before the block. *)
Theorem with_UpdateBatch_is_all_or_nothing w good object dependencies rest :
  _update_batch (self w) = None ->
  Forall (fun call => is_Some (update_items call.1)) good ->
  with_UpdateBatch peer
    (send_updates peer py_type as_updates
       (good ++ (OtherUpdates object, dependencies) :: rest)) w
  = (inl (Exception
            (ClientException
               ("Unexpected updates type " +:+ py_type object +:+ "."))),
     w).
Proof.
  intros Hnone Hall.
  unfold with_UpdateBatch, UpdateBatch_enter, UpdateBatch_exit.
  unfold lift at 1. rewrite (start_batch_run w) by assumption.
  rewrite send_updates_app. unfold bindK at 1.
  rewrite (send_updates_run good
             {| self := set_update_batch
                          (Some (<["Updates" := []]>
                                   (<["Dependencies" := []]> ∅))) (self w);
                wire := wire w |}
             (<["Updates" := []]> (<["Dependencies" := []]> ∅)) [] [] eq_refl);
    [|rewrite lookup_insert_eq; reflexivity
     |rewrite lookup_insert_ne by discriminate;
      rewrite lookup_insert_eq; reflexivity
     |exact Hall].
  cbn [send_updates]. unfold bindK at 1.
  erewrite send_update_batching by reflexivity.
  unfold bindK at 1, raiseK. unfold lift, reset_batch, modify_self.
  cbn [self wire]. rewrite !set_update_batch_twice.
  rewrite (closed_batch (self w)) by assumption.
  destruct w; reflexivity.
Qed.

(** A scoped batch entered with no batch open. *)
Lemma with_UpdateBatch_entered {A} (body : MK A) w :
  _update_batch (self w) = None ->
  with_UpdateBatch peer body w
  = match body {| self := set_update_batch
                            (Some (<["Updates" := []]>
                                     (<["Dependencies" := []]> ∅))) (self w);
                  wire := wire w |} with
    | (inl e, w1) =>
        (inl e, {| self := set_update_batch None (self w1);
                   wire := wire w1 |})
    | (inr a, w1) =>
        match send_batch peer w1 with
        | (inl e', w2) => (inl (Exception e'), w2)
        | (inr _, w2) => (inr a, w2)
        end
    end.
Proof.
  intros Hnone.
  unfold with_UpdateBatch, UpdateBatch_enter, UpdateBatch_exit.
  unfold lift at 1. rewrite (start_batch_run w) by assumption.
  destruct (body _) as [[e|a] w1]; [reflexivity|].
  unfold lift, bind.
  destruct (send_batch peer w1) as [[e'|r] w2]; reflexivity.
Qed.

(** X12.  The scope of a batch, for any block.  Entered while a batch is
    open, the block is not run: the [with] raises at once and the open
    batch is left as it is.  Entered with no batch open: if the block
    raises, its exception is the one the [with] raises, the batch is
    abandoned and the exit sends nothing; and however the [with] ends, no
    batch is open afterwards, except when the block returns with an empty
    dictionary in the slot, which [send_batch] refuses without closing it. *)
Theorem UpdateBatch_scope {A} (body : MK A) w :
  let entered :=
    {| self := set_update_batch
                 (Some (<["Updates" := []]> (<["Dependencies" := []]> ∅)))
                 (self w);
       wire := wire w |} in
  (forall batch,
      _update_batch (self w) = Some batch ->
      with_UpdateBatch peer body w
      = (inl (Exception (ClientException "Update batch already in progress.")),
         w))
  /\ (_update_batch (self w) = None ->
      (forall e w1,
          body entered = (inl e, w1) ->
          with_UpdateBatch peer body w
          = (inl e, {| self := set_update_batch None (self w1);
                       wire := wire w1 |}))
      /\ (_update_batch (self (with_UpdateBatch peer body w).2) = None
          \/ exists a w1,
               body entered = (inr a, w1)
               /\ _update_batch (self w1) = Some ∅
               /\ with_UpdateBatch peer body w
                  = (inl (Exception (ClientException "No updates in batch.")),
                     w1))).
Proof.
  intros entered. split.
  - intros batch Hbatch.
    unfold with_UpdateBatch, UpdateBatch_enter, lift, start_batch. run.
    rewrite Hbatch. reflexivity.
  - intros Hnone.
    rewrite (with_UpdateBatch_entered body w) by assumption.
    fold entered. split.
    + intros e w1 ->. reflexivity.
    + destruct (body entered) as [[e|a] w1].
      { left. reflexivity. }
      destruct (_update_batch (self w1)) as [batch|] eqn:Hslot.
      * destruct (decide (size batch = 0%nat)) as [Hsize|Hsize].
        -- right. exists a, w1. split; [reflexivity|].
           apply map_size_empty_iff in Hsize. subst batch.
           split; [exact Hslot|].
           unfold send_batch. run. rewrite Hslot. reflexivity.
        -- left. rewrite (send_batch_delegates peer w1 batch) by assumption.
           pose proof (sendtxn_keeps_batch peer
                         {| self := set_update_batch None (self w1);
                            wire := wire w1 |}
                         (_transaction_type (self w1))
                         (_message_type (self w1)) batch) as Hkeeps.
           destruct (sendtxn peer _ _ batch _) as [[e|r] w2];
             simpl in *; exact Hkeeps.
      * left. unfold send_batch. run. rewrite Hslot. simpl. exact Hslot.
Qed.

(** X13.  A batch of one call is the call: with no batch open, a scoped
    batch around one [send_update] with a dict, a list or a tuple sends
    what the same call sends outside a batch and leaves the same client;
    only the transaction id is not returned. *)
Theorem batch_of_one_is_immediate w updates items dependencies :
  _update_batch (self w) = None ->
  update_items updates = Some items ->
  with_UpdateBatch peer
    (send_update peer py_type as_updates updates dependencies) w
  = match send_update peer py_type as_updates updates dependencies w with
    | (inl e, w') => (inl e, w')
    | (inr _, w') => (inr None, w')
    end.
Proof.
  intros Hnone Hitems.
  assert (Himmediate :
            send_update peer py_type as_updates updates dependencies w
            = lift (sendtxn peer (_transaction_type (self w))
                      (_message_type (self w))
                      (batched [(updates, dependencies)])) w).
  { unfold send_update. unfold bindK, lift at 1, get_self.
    cbv beta iota. rewrite Hnone. unfold batched.
    cbn [omap list_omap fmap list_fmap fst snd concat]. rewrite Hitems.
    cbn [concat]. rewrite !app_nil_r.
    destruct updates; simpl in Hitems; [injection Hitems as <-
                                       |injection Hitems as <-|discriminate];
      reflexivity. }
  rewrite Himmediate.
  unfold with_UpdateBatch, UpdateBatch_enter, UpdateBatch_exit.
  unfold lift at 1. rewrite (start_batch_run w) by assumption.
  rewrite (send_update_batching_run
             {| self := set_update_batch
                          (Some (<["Updates" := []]>
                                   (<["Dependencies" := []]> ∅))) (self w);
                wire := wire w |}
             (<["Updates" := []]> (<["Dependencies" := []]> ∅)) [] []
             updates items dependencies eq_refl);
    [|rewrite lookup_insert_eq; reflexivity
     |rewrite lookup_insert_ne by discriminate;
      rewrite lookup_insert_eq; reflexivity
     |exact Hitems].
  pose proof (batch_of_calls [(updates, dependencies)]) as Hcalls.
  cbn [omap list_omap fmap list_fmap fst snd concat] in Hcalls.
  rewrite Hitems in Hcalls. cbn [concat] in Hcalls.
  rewrite !app_nil_r in Hcalls. cbn [app] in Hcalls |- *.
  rewrite Hcalls.
  cbn [self wire]. rewrite set_update_batch_twice. unfold lift, bind.
  rewrite (send_batch_delegates peer _ (batched [(updates, dependencies)]))
    by (try reflexivity; unfold batched; rewrite new_batch_size; discriminate).
  cbn [self wire]. rewrite set_update_batch_twice.
  rewrite (closed_batch (self w)) by assumption.
  replace {| self := self w; wire := wire w |} with w
    by (destruct w; reflexivity).
  destruct (sendtxn peer _ _ (batched [(updates, dependencies)]) w)
    as [[e|r] w']; reflexivity.
Qed.

End BatchMore.

(** ** More of the state synchronisation *)

Section RefreshMore.

Context {E : Externals}.
Variable peer : list Event -> Request -> Outcome.

Lemma set_current_state_same (c : SawtoothClient) :
  set_current_state (_current_state c) c = c.
Proof. destruct c. reflexivity. Qed.

Lemma set_cs_state_same (cs : ClientState) :
  set_cs_state (cs_state cs) cs = cs.
Proof. destruct cs. reflexivity. Qed.

Lemma keeps_view_refl c : keeps_view c c.
Proof.
  destruct (_current_state c) as [cs|] eqn:Hcs.
  - exists (cs_state cs). rewrite Hcs. simpl. rewrite set_cs_state_same.
    rewrite <- Hcs. symmetry. apply set_current_state_same.
  - exists None. rewrite Hcs. simpl. rewrite <- Hcs. symmetry.
    apply set_current_state_same.
Qed.

Lemma keeps_view_trans c1 c2 c3 :
  keeps_view c1 c2 -> keeps_view c2 c3 -> keeps_view c1 c3.
Proof.
  intros [st2 ->] [st3 ->]. exists st3.
  destruct (_current_state c1) as [cs|]; reflexivity.
Qed.

Lemma keeps_view_state c c' :
  keeps_view c c' -> c' = set_current_state (_current_state c') c.
Proof. intros [st ->]. reflexivity. Qed.

Lemma plain_get_request c path timeout : plain_get (get_request c path timeout).
Proof. repeat split. Qed.

Ltac gets :=
  repeat (apply Forall_cons_2; [apply plain_get_request|]);
  try apply Forall_nil_2; try assumption.

(** A read of the store sends one GET request, or none if the client has
    no store name, and leaves the client as it is. *)
Lemma get_store_shape key block_id delta w :
  exists rs,
    (get_store peer key block_id delta w).2
    = {| self := self w; wire := wire w ++ (Sent <$> rs) |}
    /\ Forall plain_get rs.
Proof.
  unfold get_store, get_store_by_name. run.
  destruct (_store_name (self w)) as [name|].
  - rewrite getmsg_world. eexists [_]. split; [reflexivity|gets].
  - exists []. simpl. rewrite app_nil_r. split; [|gets].
    destruct w; reflexivity.
Qed.

(** However the loop over the deltas ends, it has sent GET requests only
    and changed nothing but the synchronized store. *)
Lemma fetch_deltas_shape ids : forall w,
  exists rs c',
    (fetch_deltas peer ids w).2
    = {| self := c'; wire := wire w ++ (Sent <$> rs) |}
    /\ Forall plain_get rs
    /\ keeps_view (self w) c'.
Proof.
  induction ids as [|block_id ids IH]; intros w.
  - exists [], (self w). simpl. rewrite app_nil_r.
    split; [destruct w; reflexivity|]. split; [gets|apply keeps_view_refl].
  - simpl. unfold bind at 1. unfold get_store_delta_for_block.
    destruct (get_store_shape (Some "*") (Some block_id) true w)
      as (rs1 & Hw1 & Hget1).
    destruct (get_store peer (Some "*") (Some block_id) true w)
      as [[e|delta] w1]; simpl in Hw1; subst w1.
    { exists rs1, (self w). simpl.
      split; [reflexivity|]. split; [gets|apply keeps_view_refl]. }
    unfold clone_of_state, client_state. run.
    destruct (_current_state (self w)) as [cs|] eqn:Hcs; simpl.
    2:{ exists rs1, (self w). simpl.
        split; [reflexivity|]. split; [gets|apply keeps_view_refl]. }
    destruct (cs_state cs) as [s0|] eqn:Hs0; simpl.
    2:{ exists rs1, (self w). simpl.
        split; [reflexivity|]. split; [gets|apply keeps_view_refl]. }
    unfold modify_client_state. run. rewrite Hcs. simpl.
    match goal with
    | |- context [fetch_deltas peer ids ?w2] =>
        destruct (IH w2) as (rs & c' & Hrun & Hget & Hview)
    end.
    exists (rs1 ++ rs), c'.
    rewrite Hrun. simpl. rewrite fmap_app, app_assoc.
    split; [reflexivity|].
    split; [apply Forall_app; split; assumption|].
    eapply keeps_view_trans; [|exact Hview]. simpl.
    exists (Some (clone_store s0 (Some delta))). rewrite Hcs. reflexivity.
Qed.

(** A GET request returns only what a response carries. *)
Lemma getmsg_returns path timeout w v w1 :
  getmsg peer path timeout w = (inr v, w1) ->
  exists code headers content,
    peer (wire w) (get_request (self w) path timeout)
    = Responded code headers content
    /\ v = body_of headers content.
Proof.
  unfold getmsg. run. fold (get_request (self w) path timeout).
  destruct (peer (wire w) (get_request (self w) path timeout))
    as [code headers content| | |]; try discriminate.
  intros Hrun. exists code, headers, content. split; [reflexivity|].
  unfold body_of. destruct (decode headers content); simpl in *; congruence.
Qed.

(** The ways [fetch] can end. *)
Lemma fetch_shape w :
  exists r rs c',
    fetch peer w = (r, {| self := c'; wire := wire w ++ (Sent <$> rs) |})
    /\ Forall plain_get rs
    /\ c' = set_current_state (_current_state c') (self w)
    /\ (forall e, r = inl e -> keeps_view (self w) c')
    /\ (forall u, r = inr u ->
        exists code headers content block_id older cs',
          peer (wire w) (block_list_request (self w))
          = Responded code headers content
          /\ block_ids_of (body_of headers content) = block_id :: older
          /\ _current_state c' = Some cs'
          /\ cs_current_block_id cs' = Some block_id
          /\ (c' = self w
              \/ exists s, cs_state cs' = Some s
                           /\ cs_current_state cs' = Some (clone_store s None))).
Proof.
  assert (Hsame : self w = set_current_state (_current_state (self w)) (self w)).
  { symmetry. apply set_current_state_same. }
  unfold fetch, get_block_list. unfold bind at 1.
  pose proof (getmsg_world peer (_construct_block_list_path (Some 10)) 10 w)
    as Hw.
  fold (block_list_request (self w)) in Hw.
  destruct (getmsg peer (_construct_block_list_path (Some 10)) 10 w)
    as [[e|v] w1] eqn:Hlist; simpl in Hw; subst w1.
  { exists (inl e), [block_list_request (self w)], (self w).
    split; [reflexivity|]. split; [gets|]. split; [first [exact Hsame|rewrite Hcs; exact Hsame]|].
    split; [intros; apply keeps_view_refl|discriminate]. }
  apply getmsg_returns in Hlist as (code & headers & content & Hpeer & ->).
  fold (block_list_request (self w)) in Hpeer.
  destruct (block_ids_of (body_of headers content)) as [|block_id older]
    eqn:Hids.
  { eexists (inl _), [block_list_request (self w)], (self w).
    split; [reflexivity|]. split; [gets|]. split; [first [exact Hsame|rewrite Hcs; exact Hsame]|].
    split; [intros; apply keeps_view_refl|discriminate]. }
  unfold client_state. run.
  destruct (_current_state (self w)) as [cs|] eqn:Hcs; simpl.
  2:{ eexists (inl _), [block_list_request (self w)], (self w).
      split; [reflexivity|]. split; [gets|]. split; [first [exact Hsame|rewrite Hcs; exact Hsame]|].
      split; [intros; apply keeps_view_refl|discriminate]. }
  destruct (bool_decide (Some block_id = cs_current_block_id cs)) eqn:Hnewest.
  { apply bool_decide_eq_true in Hnewest.
    exists (inr tt), [block_list_request (self w)], (self w).
    split; [reflexivity|]. split; [gets|]. split; [first [exact Hsame|rewrite Hcs; exact Hsame]|].
    split; [discriminate|]. intros _ _.
    exists code, headers, content, block_id, older, cs.
    repeat (split; [first [assumption|reflexivity|symmetry; assumption]|]).
    left. reflexivity. }
  set (w1 := {| self := self w;
                wire := wire w ++ [Sent (block_list_request (self w))] |}).
  destruct (py_in (cs_current_block_id cs) (block_id :: older)).
  - unfold py_index.
    destruct (cs_current_block_id cs ≫= _) as [i|]; run.
    2:{ eexists (inl _), [block_list_request (self w)], (self w).
        split; [reflexivity|]. split; [gets|]. split; [first [exact Hsame|rewrite Hcs; exact Hsame]|].
        split; [intros; apply keeps_view_refl|discriminate]. }
    fold w1.
    destruct (fetch_deltas_shape (rev (take i (block_id :: older))) w1)
      as (rs & c2 & Hrun & Hget & Hview).
    destruct (fetch_deltas peer (rev (take i (block_id :: older))) w1)
      as [[e|[]] w2]; simpl in Hrun; subst w2.
    { exists (inl e), (block_list_request (self w) :: rs), c2.
      simpl. rewrite <- app_assoc.
      split; [reflexivity|]. split; [gets|].
      split; [apply keeps_view_state; exact Hview|].
      split; [intros; exact Hview|discriminate]. }
    unfold clone_of_state, client_state, modify_client_state. run.
    destruct (_current_state c2) as [cs2|] eqn:Hcs2; simpl.
    2:{ eexists (inl _), (block_list_request (self w) :: rs), c2.
        simpl. rewrite <- app_assoc.
        split; [reflexivity|]. split; [gets|].
        split; [apply keeps_view_state; exact Hview|].
        split; [intros; exact Hview|discriminate]. }
    destruct (cs_state cs2) as [s2|] eqn:Hs2; simpl.
    2:{ eexists (inl _), (block_list_request (self w) :: rs), c2.
        simpl. rewrite <- app_assoc.
        split; [reflexivity|]. split; [gets|].
        split; [apply keeps_view_state; exact Hview|].
        split; [intros; exact Hview|discriminate]. }
    rewrite Hcs2. simpl.
    eexists (inr tt), (block_list_request (self w) :: rs), _.
    simpl. rewrite <- app_assoc.
    split; [reflexivity|]. split; [gets|].
    split.
    { apply keeps_view_state in Hview. rewrite Hview. reflexivity. }
    split; [discriminate|]. intros _ _.
    exists code, headers, content, block_id, older. eexists.
    split; [exact Hpeer|]. split; [exact Hids|].
    split; [reflexivity|]. split; [reflexivity|].
    right. exists s2. simpl. split; [exact Hs2|reflexivity].
  - unfold get_store_objects_through_block.
    destruct (get_store_shape (Some "*") (Some block_id) false w1)
      as (rs & Hw2 & Hget).
    destruct (get_store peer (Some "*") (Some block_id) false w1)
      as [[e|objects] w2]; simpl in Hw2; subst w2.
    { exists (inl e), (block_list_request (self w) :: rs), (self w).
      simpl. rewrite <- app_assoc.
      split; [reflexivity|]. split; [gets|]. split; [first [exact Hsame|rewrite Hcs; exact Hsame]|].
      split; [intros; apply keeps_view_refl|discriminate]. }
    unfold clone_of_state, client_state, modify_client_state. run.
    repeat (progress (rewrite ?Hcs; simpl)).
    eexists (inr tt), (block_list_request (self w) :: rs), _.
    simpl. rewrite <- app_assoc.
    split; [reflexivity|]. split; [gets|].
    split; [reflexivity|].
    split; [discriminate|]. intros _ _.
    exists code, headers, content, block_id, older. eexists.
    split; [exact Hpeer|]. split; [exact Hids|].
    split; [reflexivity|]. split; [reflexivity|].
    right. eexists. simpl. split; reflexivity.
Qed.

(** X14.  A refresh only reads: however [fetch_state] ends, all it has
    sent are GET requests without header and without body, and nothing of
    the client has changed but its state: the base URL, the cookie, the
    signing identity, the last transaction and the open batch are as
    before. *)
Theorem fetch_state_reads_only w :
  exists rs c',
    (fetch_state peer w).2
    = {| self := c'; wire := wire w ++ (Sent <$> rs) |}
    /\ Forall plain_get rs
    /\ c' = set_current_state (_current_state c') (self w).
Proof.
  unfold fetch_state. unfold bind, get_self. cbn [fst snd].
  destruct (_current_state (self w)) as [cs|] eqn:Hcs.
  - destruct (fetch_shape w) as (r & rs & c' & Hrun & Hget & Hstate & _).
    exists rs, c'. rewrite Hrun. auto.
  - exists [], (self w). simpl. rewrite app_nil_r.
    split; [destruct w; reflexivity|]. split; [apply Forall_nil_2|].
    rewrite Hcs. rewrite <- Hcs. symmetry. apply set_current_state_same.
Qed.

(** X15.  A refresh that fails keeps the view of the client: if
    [fetch_state] raises, whatever the exception, the speculative store
    that [get_state] returns and the recorded head are the ones from
    before; at most the synchronized store has changed. *)
Theorem fetch_state_failure_keeps_view w e w' :
  fetch_state peer w = (inl e, w') ->
  keeps_view (self w) (self w')
  /\ (get_state w').1 = (get_state w).1
  /\ (forall cs, _current_state (self w) = Some cs ->
        exists cs', _current_state (self w') = Some cs'
                    /\ cs_current_state cs' = cs_current_state cs
                    /\ cs_current_block_id cs' = cs_current_block_id cs).
Proof.
  intros Hrun.
  assert (Hview : keeps_view (self w) (self w')).
  { unfold fetch_state in Hrun. unfold bind, get_self in Hrun.
    cbn [fst snd] in Hrun.
    destruct (_current_state (self w)) as [cs|] eqn:Hcs.
    - destruct (fetch_shape w) as (r & rs & c' & Hfetch & _ & _ & Hfail & _).
      rewrite Hfetch in Hrun. injection Hrun as -> <-.
      apply (Hfail e). reflexivity.
    - injection Hrun as _ <-. apply keeps_view_refl. }
  split; [exact Hview|]. destruct Hview as [st Hview].
  split.
  - unfold get_state, state. run. rewrite Hview. simpl.
    destruct (_current_state (self w)); reflexivity.
  - intros cs Hcs. rewrite Hview, Hcs. simpl. eauto.
Qed.

(** X16.  A refresh that returns has caught up: whenever [fetch_state]
    returns, the peer answered the request for the block list, the list
    was not empty, and the recorded head is its first id.  Either the
    client is as it was (the head was that id already), or the speculative
    store is a fresh clone of the synchronized store: what the client had
    applied speculatively is gone. *)
Theorem fetch_state_catches_up w u w' :
  fetch_state peer w = (inr u, w') ->
  exists code headers content block_id older cs',
    peer (wire w) (block_list_request (self w))
    = Responded code headers content
    /\ block_ids_of (body_of headers content) = block_id :: older
    /\ _current_state (self w') = Some cs'
    /\ cs_current_block_id cs' = Some block_id
    /\ (self w' = self w
        \/ exists s, cs_state cs' = Some s
                     /\ cs_current_state cs' = Some (clone_store s None)).
Proof.
  intros Hrun. unfold fetch_state in Hrun. unfold bind, get_self in Hrun.
  cbn [fst snd] in Hrun.
  destruct (_current_state (self w)) as [cs|] eqn:Hcs; [|discriminate].
  destruct (fetch_shape w) as (r & rs & c' & Hfetch & _ & _ & _ & Hreturn).
  rewrite Hfetch in Hrun. injection Hrun as -> <-.
  apply (Hreturn u). reflexivity.
Qed.

(** The loop over the deltas, interrupted: the deltas served before the
    request that fails are cloned onto the synchronized store. *)
Lemma fetch_deltas_interrupted c name served : forall deltas failing rest w cs s0,
  _communication (self w) = _communication c ->
  _store_name (self w) = Some name ->
  _current_state (self w) = Some cs ->
  cs_state cs = Some s0 ->
  deltas_served peer c name (wire w) served deltas ->
  (forall code headers content,
      peer (wire w ++ (Sent <$> (delta_request c name <$> served)))
        (delta_request c name failing)
      <> Responded code headers content) ->
  exists msg,
    fetch_deltas peer (served ++ failing :: rest) w
    = (inl (MessageException msg),
       {| self :=
            set_current_state
              (Some (set_cs_state
                       (Some (foldl (fun s delta => clone_store s (Some delta))
                                s0 deltas)) cs))
              (self w);
          wire := wire w
                  ++ (Sent <$> (delta_request c name
                                  <$> served ++ [failing])) |}).
Proof.
  induction served as [|block_id served IH];
    intros deltas failing rest w cs s0 Hcomm Hname Hcs Hs0 Hserved Hfails.
  - destruct deltas; [|contradiction]. simpl in Hfails |- *.
    rewrite app_nil_r in Hfails.
    rewrite <- (delta_request_comm (self w) c) in Hfails |- * by exact Hcomm.
    unfold bind at 1. unfold get_store_delta_for_block.
    rewrite (get_store_run peer w name) by assumption.
    destruct (getmsg_failed peer _ 10 w Hfails) as [msg Hget].
    unfold delta_request in Hget |- *. rewrite Hget.
    exists msg.
    assert (Hself : set_current_state (Some (set_cs_state (Some s0) cs))
                      (self w) = self w).
    { rewrite <- Hs0, set_cs_state_same, <- Hcs.
      apply set_current_state_same. }
    rewrite Hself. reflexivity.
  - destruct deltas as [|delta deltas]; [contradiction|].
    destruct Hserved as [(code & headers & content & Hpeer & Hbody) Hrest].
    rewrite <- (delta_request_comm (self w) c) in Hpeer, Hrest by exact Hcomm.
    simpl. unfold bind at 1. unfold get_store_delta_for_block.
    rewrite (get_store_run peer w name) by assumption.
    rewrite (getmsg_Responded peer _ _ w code headers content) by exact Hpeer.
    rewrite Hbody.
    unfold clone_of_state, client_state. run. rewrite Hcs, Hs0.
    unfold modify_client_state. run. rewrite Hcs. simpl.
    edestruct (IH deltas failing rest
                 {| self := set_current_state
                              (Some (set_cs_state
                                       (Some (clone_store s0 (Some delta))) cs))
                              (self w);
                    wire := wire w
                            ++ [Sent (delta_request (self w) name block_id)] |}
                 (set_cs_state (Some (clone_store s0 (Some delta))) cs)
                 (clone_store s0 (Some delta)))
      as [msg Hrun]; try reflexivity; try assumption.
    { simpl. rewrite <- app_assoc. simpl in Hfails |- *.
      rewrite <- (delta_request_comm (self w) c name block_id)
        in Hfails by exact Hcomm.
      exact Hfails. }
    exists msg. simpl in Hrun. unfold delta_request in Hrun |- *.
    rewrite Hrun. simpl. rewrite <- app_assoc. simpl.
    unfold get_request. rewrite Hcomm. reflexivity.
Qed.

(** X17.  A refresh interrupted while it catches up leaves the client
    between two blocks: when the deltas of some of the new blocks have been
    served and the request for the next one fails, [fetch_state] raises
    [MessageException]; the deltas served so far are cloned onto the
    synchronized store, yet the recorded head and the speculative store
    are the old ones: the synchronized store is ahead of the head that is
    recorded for it. *)
Theorem fetch_state_interrupted w cs name s0 code headers content head newer
    older served failing rest deltas :
  _current_state (self w) = Some cs ->
  _store_name (self w) = Some name ->
  cs_current_block_id cs = Some head ->
  cs_state cs = Some s0 ->
  peer (wire w) (block_list_request (self w))
  = Responded code headers content ->
  block_ids_of (body_of headers content) = newer ++ head :: older ->
  head ∉ newer ->
  rev newer = served ++ failing :: rest ->
  let tr1 := wire w ++ [Sent (block_list_request (self w))] in
  deltas_served peer (self w) name tr1 served deltas ->
  (forall code' headers' content',
      peer (tr1 ++ (Sent <$> (delta_request (self w) name <$> served)))
        (delta_request (self w) name failing)
      <> Responded code' headers' content') ->
  exists msg,
    fetch_state peer w
    = (inl (MessageException msg),
       {| self :=
            set_current_state
              (Some {| cs_state_type := cs_state_type cs;
                       cs_state :=
                         Some (foldl (fun s delta => clone_store s (Some delta))
                                 s0 deltas);
                       cs_current_state := cs_current_state cs;
                       cs_current_block_id := Some head |})
              (self w);
          wire := tr1 ++ (Sent <$> (delta_request (self w) name
                                      <$> served ++ [failing])) |}).
Proof.
  intros Hcs Hname Hhead Hs0 Hpeer Hids Hnotin Hrev tr1 Hserved Hfails.
  rewrite (fetch_state_fetch peer w cs) by exact Hcs.
  assert (Hnewer : newer <> []).
  { intros ->. destruct served; discriminate. }
  destruct newer as [|newest newer']; [congruence|].
  unfold fetch.
  rewrite (block_list_run peer _ w code headers content) by exact Hpeer.
  rewrite Hids. cbn [app].
  change (newest :: newer' ++ head :: older)
    with ((newest :: newer') ++ head :: older).
  set (newer := newest :: newer') in *.
  unfold client_state, bind at 1 2, get_self, ret. cbn [self].
  rewrite Hcs, Hhead.
  rewrite bool_decide_eq_false_2.
  2:{ intros [= ->]. apply Hnotin. now left. }
  rewrite py_in_present.
  2:{ apply elem_of_app. right. now left. }
  unfold py_index, mbind, option_bind.
  rewrite list_index_first by exact Hnotin.
  unfold bind at 2, ret.
  rewrite take_app_length.
  unfold bind at 1. rewrite Hrev.
  destruct (fetch_deltas_interrupted (self w) name served deltas failing rest
              {| self := self w;
                 wire := wire w ++ [Sent (block_list_request (self w))] |}
              cs s0) as [msg Hrun]; try reflexivity; try assumption.
  rewrite Hrun. exists msg. f_equal. f_equal. f_equal. f_equal.
  unfold set_cs_state. rewrite Hhead. reflexivity.
Qed.

(** X18.  A peer without blocks: when the list of block ids that the peer
    returns is empty, [block_ids[0]] raises [IndexError]; one request has
    been sent and the client is unchanged. *)
Theorem fetch_state_empty_block_list w cs code headers content :
  _current_state (self w) = Some cs ->
  peer (wire w) (block_list_request (self w))
  = Responded code headers content ->
  block_ids_of (body_of headers content) = [] ->
  fetch_state peer w
  = (inl (IndexError "list index out of range"),
     sent w (block_list_request (self w))).
Proof.
  intros Hcs Hpeer Hids.
  rewrite (fetch_state_fetch peer w cs) by exact Hcs.
  unfold fetch.
  rewrite (block_list_run peer _ w code headers content) by exact Hpeer.
  rewrite Hids. reflexivity.
Qed.

End RefreshMore.

(** ** More of the wait for a commit *)

Section CommitMore.

Context {E : Externals}.
Variable peer : list Event -> Request -> Outcome.

Lemma after_submit_last txn (c : SawtoothClient) :
  _last_transaction (after_submit txn c) = Some (txn_Identifier txn).
Proof.
  unfold after_submit. cbv zeta.
  destruct (negb (_disable_client_validation _)); reflexivity.
Qed.

(** What a submission records as the last transaction: the identifier it
    returns, and nothing if it returns none. *)
Lemma sendtxn_last_transaction w txn_type txn_msg_type minfo r w' :
  sendtxn peer txn_type txn_msg_type minfo w = (r, w') ->
  match r with
  | inr (Some txnid) => _last_transaction (self w') = Some txnid
  | _ => _last_transaction (self w') = _last_transaction (self w)
  end.
Proof.
  destruct (sendtxn_cases peer w txn_type txn_msg_type minfo)
    as [[e Hearly]|(local_node & tty & mty & Hnode & Htty & Hmty & Hvalid)].
  { rewrite Hearly. intros [= <- <-]. reflexivity. }
  rewrite (sendtxn_by_outcome peer w txn_type txn_msg_type minfo local_node
             tty mty) by assumption.
  cbv zeta.
  set (txn := signed_txn tty minfo local_node).
  set (msg := signed_msg mty txn local_node).
  destruct (after_post_self peer w (msg_MessageType msg) (msg_dump msg))
    as [k Hk].
  destruct (peer (wire w) _) as [code headers content
                                |code headers [content|]| |].
  - destruct (from_option py_truth false (decode headers content));
      intros [= <- <-].
    + cbn [self]. apply after_submit_last.
    + rewrite Hk. reflexivity.
  - destruct (decode headers content) as [value|];
      [|intros [= <- <-]; reflexivity].
    destruct (py_contains "errorType" value);
      [|intros [= <- <-]; reflexivity].
    destruct (py_eq_str _ _); intros [= <- <-]; reflexivity.
  - intros [= <- <-]; reflexivity.
  - intros [= <- <-]; reflexivity.
  - intros [= <- <-]; reflexivity.
Qed.

(** X19.  What [wait_for_commit] waits for when it is given no
    transaction.  With no last transaction either it returns [True] at
    once, without a request: so it does after a submission that returned
    no identifier on a client that had submitted nothing before, although
    nothing is committed.  After a submission that returned an identifier
    it waits for that transaction. *)
Theorem wait_for_commit_default_target fuel timetowait iterations :
  (forall w txnid,
      str_truth txnid = false ->
      str_truth (_last_transaction (self w)) = false ->
      wait_for_commit peer fuel txnid timetowait iterations w
      = (inr (Some true), w))
  /\ (forall w txn_type txn_msg_type minfo w',
        _last_transaction (self w) = None ->
        sendtxn peer txn_type txn_msg_type minfo w = (inr None, w') ->
        wait_for_commit peer fuel None timetowait iterations w'
        = (inr (Some true), w'))
  /\ (forall w txn_type txn_msg_type minfo txnid w',
        sendtxn peer txn_type txn_msg_type minfo w = (inr (Some txnid), w') ->
        wait_for_commit peer fuel None timetowait iterations w'
        = wait_for_commit peer fuel (Some txnid) timetowait iterations w').
Proof.
  assert (Hnothing : forall w txnid,
             str_truth txnid = false ->
             str_truth (_last_transaction (self w)) = false ->
             wait_for_commit peer fuel txnid timetowait iterations w
             = (inr (Some true), w)).
  { intros w txnid Htxnid Hlast. unfold wait_for_commit, bind, get_self.
    cbn [fst snd]. rewrite Htxnid. cbn [negb].
    destruct (_last_transaction (self w)) as [[|a t]|];
      try reflexivity. discriminate Hlast. }
  split; [exact Hnothing|]. split.
  - intros w txn_type txn_msg_type minfo w' Hnone Hrun.
    apply sendtxn_last_transaction in Hrun. simpl in Hrun.
    apply Hnothing; [reflexivity|]. rewrite Hrun, Hnone. reflexivity.
  - intros w txn_type txn_msg_type minfo txnid w' Hrun.
    apply sendtxn_last_transaction in Hrun. simpl in Hrun.
    unfold wait_for_commit, bind, get_self. cbn [fst snd].
    rewrite Hrun. destruct txnid as [|a t]; reflexivity.
Qed.

(** The loop, from how it ended. *)
Lemma wait_for_commit_loop_sound txnid timetowait iterations :
  forall fuel passes w r w',
    wait_for_commit_loop peer fuel txnid timetowait iterations passes w
    = (r, w') ->
    r <> inr None ->
    self w' = self w
    /\ exists tr,
        wire w' = wire w ++ tr ++ [Sent (status_request (self w) txnid)]
        /\ match r with
           | inr (Some true) =>
               status_code (peer (wire w ++ tr) (status_request (self w) txnid))
               = Some 200
           | inr (Some false) =>
               (exists code,
                   status_code
                     (peer (wire w ++ tr) (status_request (self w) txnid))
                   = Some code /\ code <> 200)
               /\ (iterations < passes + Z.of_nat (S (status_checks tr)))%Z
           | _ =>
               status_code (peer (wire w ++ tr) (status_request (self w) txnid))
               = None
               /\ exists msg, r = inl (MessageException msg)
           end.
Proof.
  induction fuel as [|fuel IH]; intros passes w r w' Hrun Hr.
  { simpl in Hrun. injection Hrun as <- <-. congruence. }
  simpl in Hrun. unfold bind at 1 in Hrun.
  unfold get_transaction_status, headrequest in Hrun.
  unfold bind at 1 2, get_self, open in Hrun. cbn [fst snd self wire] in Hrun.
  fold (head_request (self w) (_construct_transaction_path txnid None))
    in Hrun.
  fold (status_request (self w) txnid) in Hrun.
  set (check := status_request (self w) txnid) in *.
  assert (Hcode : forall code,
             status_code (peer (wire w) check) = Some code ->
             (if negb (code =? TransactionStatus_value committed)%Z
                 && (iterations <? passes + 1)%Z
              then ret (Some false)
              else if (code =? TransactionStatus_value committed)%Z
                   then ret (Some true)
                   else bind (sleep timetowait)
                          (fun _ => wait_for_commit_loop peer fuel txnid
                                      timetowait iterations (passes + 1)))
               {| self := self w; wire := wire w ++ [Sent check] |}
             = (r, w') ->
             self w' = self w
             /\ exists tr,
                 wire w' = wire w ++ tr ++ [Sent check]
                 /\ match r with
                    | inr (Some true) =>
                        status_code (peer (wire w ++ tr) check) = Some 200
                    | inr (Some false) =>
                        (exists code,
                            status_code (peer (wire w ++ tr) check) = Some code
                            /\ code <> 200)
                        /\ (iterations
                            < passes + Z.of_nat (S (status_checks tr)))%Z
                    | _ =>
                        status_code (peer (wire w ++ tr) check) = None
                        /\ exists msg, r = inl (MessageException msg)
                    end).
  { intros code Hstatus Hnext.
    change (TransactionStatus_value committed) with 200 in Hnext.
    destruct (code =? 200)%Z eqn:Hcommitted; cbn [negb andb] in Hnext.
    - apply Z.eqb_eq in Hcommitted. subst code.
      injection Hnext as <- <-. split; [reflexivity|].
      exists []. rewrite app_nil_r. split; [reflexivity|exact Hstatus].
    - apply Z.eqb_neq in Hcommitted.
      destruct (iterations <? passes + 1)%Z eqn:Hbudget.
      + apply Z.ltb_lt in Hbudget. injection Hnext as <- <-.
        split; [reflexivity|].
        exists []. rewrite app_nil_r. split; [reflexivity|].
        split; [eauto|]. change (status_checks []) with 0%nat. lia.
      + apply Z.ltb_ge in Hbudget.
        unfold bind, sleep in Hnext. cbn [fst snd self wire] in Hnext.
        apply IH in Hnext as [Hself (tr & Hwire & Hend)]; [|exact Hr].
        cbn [self wire] in Hself, Hwire, Hend. split; [exact Hself|].
        exists ([Sent check; Slept timetowait] ++ tr).
        split.
        { rewrite Hwire. rewrite <- !app_assoc. reflexivity. }
        assert (Hlog : wire w ++ [Sent check; Slept timetowait] ++ tr
                       = ((wire w ++ [Sent check]) ++ [Slept timetowait])
                         ++ tr).
        { rewrite <- !app_assoc. reflexivity. }
        rewrite Hlog.
        assert (Hchecks : status_checks ([Sent check; Slept timetowait] ++ tr)
                          = S (status_checks tr)).
        { rewrite status_checks_app. reflexivity. }
        rewrite Hchecks.
        destruct r as [e|[[|]|]]; try exact Hend.
        destruct Hend as [Hlast Hover]. split; [exact Hlast|]. lia. }
  destruct (peer (wire w) check) as [code headers content
                                    |code headers content| |] eqn:Hpeer.
  - apply (Hcode code); [reflexivity|exact Hrun].
  - apply (Hcode code); [reflexivity|exact Hrun].
  - unfold raise in Hrun. injection Hrun as <- <-.
    split; [reflexivity|]. exists []. rewrite app_nil_r.
    split; [reflexivity|]. rewrite Hpeer. split; [reflexivity|eauto].
  - unfold raise in Hrun. injection Hrun as <- <-.
    split; [reflexivity|]. exists []. rewrite app_nil_r.
    split; [reflexivity|]. rewrite Hpeer. split; [reflexivity|eauto].
Qed.

(** X20.  What the result of [wait_for_commit] says about a transaction
    given by its id.  The wait leaves the client unchanged and ends with a
    status check.  If it returns [True], that check was answered 200.  If
    it returns [False], that check was answered with another code and more
    status checks than [iterations] have been made.  It raises only
    [MessageException], and only when that check got no status code: an
    unreachable validator is not reported as [False]. *)
Theorem wait_for_commit_sound fuel a t timetowait iterations w r w' :
  let txnid := String a t in
  let check := status_request (self w) txnid in
  wait_for_commit peer fuel (Some txnid) timetowait iterations w = (r, w') ->
  r <> inr None ->
  self w' = self w
  /\ exists tr,
      wire w' = wire w ++ tr ++ [Sent check]
      /\ match r with
         | inr (Some true) => status_code (peer (wire w ++ tr) check) = Some 200
         | inr (Some false) =>
             (exists code,
                 status_code (peer (wire w ++ tr) check) = Some code
                 /\ code <> 200)
             /\ (iterations < Z.of_nat (status_checks (tr ++ [Sent check])))%Z
         | _ =>
             status_code (peer (wire w ++ tr) check) = None
             /\ exists msg, r = inl (MessageException msg)
         end.
Proof.
  intros txnid check Hrun Hr.
  change (wait_for_commit peer fuel (Some txnid) timetowait iterations w)
    with (wait_for_commit_loop peer fuel txnid timetowait iterations 0 w)
    in Hrun.
  apply wait_for_commit_loop_sound in Hrun as [Hself (tr & Hwire & Hend)];
    [|exact Hr].
  split; [exact Hself|]. exists tr. split; [exact Hwire|].
  destruct r as [e|[[|]|]]; try exact Hend.
  destruct Hend as [Hlast Hover]. split; [exact Hlast|].
  rewrite status_checks_app.
  change (status_checks [Sent check]) with 1%nat. lia.
Qed.

End CommitMore.

(** ** Reading the ledger *)

Section Reading.

Context {E : Externals}.
Variable peer : list Event -> Request -> Outcome.

Lemma getmsg_read_only path timeout : read_only (getmsg peer path timeout).
Proof.
  intros w. exists [get_request (self w) path timeout].
  rewrite getmsg_world. split; [reflexivity|]. split; [simpl; lia|].
  apply Forall_cons_2; [|apply Forall_nil_2]. repeat split. discriminate.
Qed.

Lemma headrequest_read_only path : read_only (headrequest peer path).
Proof.
  intros w. exists [head_request (self w) path].
  rewrite headrequest_world. split; [reflexivity|]. split; [simpl; lia|].
  apply Forall_cons_2; [|apply Forall_nil_2]. repeat split. discriminate.
Qed.

Lemma get_store_read_only key block_id delta :
  read_only (get_store peer key block_id delta).
Proof.
  intros w. destruct (_store_name (self w)) as [name|] eqn:Hname.
  - rewrite (get_store_run peer w name) by exact Hname.
    apply getmsg_read_only.
  - unfold get_store. run. rewrite Hname.
    exists []. simpl. rewrite app_nil_r. split; [destruct w; reflexivity|].
    split; [lia|apply Forall_nil_2].
Qed.

Lemma pure_read_only {A} (m : M A) :
  (forall w, (m w).2 = w) -> read_only m.
Proof.
  intros Hpure w. exists []. rewrite Hpure. simpl. rewrite app_nil_r.
  split; [destruct w; reflexivity|]. split; [lia|apply Forall_nil_2].
Qed.

(** X21.  The reading methods only read: each of them leaves the client as
    it is, cookie and state included, and sends at most one request, a GET
    or a HEAD without header and without body, whatever the peer answers
    and whether the method returns or raises. *)
Theorem reading_methods_only_read :
  (forall timeout, read_only (get_status peer timeout))
  /\ read_only (get_store_list peer)
  /\ (forall txn_type_or_name key block_id delta,
        read_only (get_store_by_name peer txn_type_or_name key block_id delta))
  /\ (forall key block_id delta,
        read_only (get_store peer key block_id delta))
  /\ read_only (get_store_keys peer)
  /\ read_only (get_all_store_objects peer)
  /\ (forall key, read_only (get_store_object_for_key peer key))
  /\ (forall block_id, read_only (get_store_delta_for_block peer block_id))
  /\ (forall block_id,
        read_only (get_store_objects_through_block peer block_id))
  /\ (forall count, read_only (get_block_list peer count))
  /\ (forall block_id field, read_only (get_block peer block_id field))
  /\ (forall block_count, read_only (get_transaction_list peer block_count))
  /\ (forall transaction_id field,
        read_only (get_transaction peer transaction_id field))
  /\ (forall transaction_id,
        read_only (get_transaction_status peer transaction_id))
  /\ read_only get_state
  /\ read_only last_transaction_id.
Proof.
  repeat match goal with |- _ /\ _ => split end; intros;
    first [apply getmsg_read_only
          |apply get_store_read_only
          |apply headrequest_read_only
          |apply pure_read_only; intros w; unfold get_state, state,
             last_transaction_id; run;
           destruct (_current_state (self w)); reflexivity
          |apply pure_read_only; intros w; reflexivity].
Qed.

End Reading.

(** ** The constructor *)

Section Construction.

Context {E : Externals}.
Variable peer : list Event -> Request -> Outcome.
Variable TransactionTypeName : TxnType -> string.
Variable TransactionStoreType : TxnType -> StoreType.
Variable KeyValueStore : StoreType.
Variable SigningKey : Type.
Variable generate_signing_key : string -> SigningKey.
Variable key_truth : SigningKey -> bool.
Variable generate_identifier : SigningKey -> string.
Variable new_node : string -> SigningKey -> string -> Node.
Variable read_file : string -> string + string.
Variable py_strip : string -> string.

#[local] Notation "'new_client'" :=
  (SawtoothClient_init peer TransactionTypeName TransactionStoreType
     KeyValueStore SigningKey generate_signing_key key_truth
     generate_identifier new_node read_file py_strip).

(** The client before the constructor fetches the state and loads a key. *)
Lemma fetch_full_run w cs name code headers content block_id older code'
    headers' content' :
  _current_state (self w) = Some cs ->
  _store_name (self w) = Some name ->
  peer (wire w) (block_list_request (self w))
  = Responded code headers content ->
  block_ids_of (body_of headers content) = block_id :: older ->
  (forall head, cs_current_block_id cs = Some head ->
                head ∉ block_id :: older) ->
  peer (wire w ++ [Sent (block_list_request (self w))])
    (objects_request (self w) name block_id)
  = Responded code' headers' content' ->
  let fresh :=
    new_store (cs_state_type cs) None
      (Some (py_dict (<["Store" := body_of headers' content']>
                        (<["DeletedKeys" := py_list []]> ∅)))) in
  fetch peer w
  = (inr tt,
     {| self :=
          set_current_state
            (Some {| cs_state_type := cs_state_type cs;
                     cs_state := Some fresh;
                     cs_current_state := Some (clone_store fresh None);
                     cs_current_block_id := Some block_id |})
            (self w);
        wire := wire w
                ++ [Sent (block_list_request (self w));
                    Sent (objects_request (self w) name block_id)] |}).
Proof.
  intros Hcs Hname Hpeer Hids Habsent Hobj fresh.
  assert (Hne : Some block_id <> cs_current_block_id cs).
  { intros Heq. symmetry in Heq. apply (Habsent _ Heq). now left. }
  unfold fetch.
  rewrite (block_list_run peer _ w code headers content) by exact Hpeer.
  rewrite Hids.
  unfold client_state. run. rewrite Hcs.
  rewrite bool_decide_eq_false_2 by exact Hne.
  rewrite py_in_absent by exact Habsent.
  unfold get_store_objects_through_block.
  rewrite (get_store_run peer
             {| self := self w;
                wire := wire w ++ [Sent (block_list_request (self w))] |} name)
    by exact Hname.
  fold (objects_request (self w) name block_id).
  rewrite (getmsg_Responded peer _ _
             {| self := self w;
                wire := wire w ++ [Sent (block_list_request (self w))] |}
             code' headers' content') by exact Hobj.
  simpl. rewrite Hcs. unfold modify_client_state, clone_of_state,
    client_state. run. rewrite Hcs. simpl. rewrite <- app_assoc. reflexivity.
Qed.

(** X22.  A client constructed without a store name and without a
    transaction type keeps no state: the constructor sends no request,
    whatever the key arguments, and on the client it leaves [fetch_state],
    [get_state] and the reads of the store raise [ClientException] without
    a request. *)
Theorem init_without_store_name base_url name message_type keystring keyfile
    disable_client_validation tr :
  let run := new_client base_url None name None message_type keystring keyfile
               disable_client_validation tr in
  wire run.2 = tr
  /\ _store_name (self run.2) = None
  /\ _current_state (self run.2) = None
  /\ fetch_state peer run.2
     = (inl (ClientException
         "Client must be configured with a store name to access its current state"),
        run.2)
  /\ get_state run.2
     = (inl (ClientException
         "Client must be configured with a store name to access its current state"),
        run.2)
  /\ forall key block_id delta,
       get_store peer key block_id delta run.2
       = (inl (ClientException
           "The client must be configured with a store name or transaction type"),
          run.2).
Proof.
  intros run.
  assert (Hrun : exists r node,
             run = (r, {| self :=
                            {| _base_url := base_url;
                               _message_type := message_type;
                               _transaction_type := None;
                               _store_name := None;
                               _communication := Communication_init base_url;
                               _last_transaction := None;
                               _local_node := node;
                               _update_batch := None;
                               _disable_client_validation :=
                                 disable_client_validation;
                               _current_state := None |};
                          wire := tr |})).
  { subst run.
    unfold SawtoothClient_init, init_current_state, init_local_node,
      init_signing_key, blank_client. run.
    destruct keystring as [[|a s]|]; destruct keyfile as [[|a' s']|];
      try (eexists _, _; reflexivity);
      try (destruct (key_truth _); eexists _, _; reflexivity);
      destruct (read_file _); simpl;
      try (destruct (key_truth _)); eexists _, _; reflexivity. }
  destruct Hrun as (r & node & ->).
  repeat split.
Qed.

(** The first phase of the constructor on a client with a store name. *)
Lemma init_current_state_run w store transaction_type :
  _store_name (self w) = Some store ->
  init_current_state peer TransactionStoreType KeyValueStore transaction_type w
  = fetch peer
      {| self :=
           set_current_state
             (Some (ClientState_init false
                      match transaction_type with
                      | Some transaction_type =>
                          TransactionStoreType transaction_type
                      | None => KeyValueStore
                      end))
             (self w);
         wire := wire w |}.
Proof.
  intros Hstore. unfold init_current_state. run. rewrite Hstore.
  unfold fetch_state. run. reflexivity.
Qed.

(** X23.  A client constructed with a store name (its own, or the one of
    its transaction type) and a key string, against a validator that
    answers: the constructor asks for the ten newest block ids and for all
    objects of the store through the newest block, and returns a client
    that is synchronized at that block, with a speculative store cloned
    from the synchronized store, a store of the type of the transaction
    type (of the default type if it has none), and a signing identity made
    from the key string. *)
Theorem init_synchronizes base_url store_name name transaction_type
    message_type a s keyfile disable_client_validation tr store code headers
    content block_id older code' headers' content' :
  let c0 := blank_client TransactionTypeName base_url store_name
              transaction_type message_type disable_client_validation in
  _store_name c0 = Some store ->
  peer tr (block_list_request c0) = Responded code headers content ->
  block_ids_of (body_of headers content) = block_id :: older ->
  peer (tr ++ [Sent (block_list_request c0)])
    (objects_request c0 store block_id)
  = Responded code' headers' content' ->
  let key := generate_signing_key (String a s) in
  let state_type :=
    match transaction_type with
    | Some transaction_type => TransactionStoreType transaction_type
    | None => KeyValueStore
    end in
  let fresh :=
    new_store state_type None
      (Some (py_dict (<["Store" := body_of headers' content']>
                        (<["DeletedKeys" := py_list []]> ∅)))) in
  new_client base_url store_name name transaction_type message_type
    (Some (String a s)) keyfile disable_client_validation tr
  = (inr tt,
     {| self :=
          set_local_node
            (if key_truth key
             then Some (new_node (generate_identifier key) key name)
             else None)
            (set_current_state
               (Some {| cs_state_type := state_type;
                        cs_state := Some fresh;
                        cs_current_state := Some (clone_store fresh None);
                        cs_current_block_id := Some block_id |})
               c0);
        wire := tr ++ [Sent (block_list_request c0);
                       Sent (objects_request c0 store block_id)] |}).
Proof.
  intros c0 Hstore Hlist Hids Hobjects key state_type fresh.
  unfold SawtoothClient_init. fold c0. unfold bind at 1.
  rewrite (init_current_state_run {| self := c0; wire := tr |} store)
    by exact Hstore.
  fold state_type. cbn [self wire].
  rewrite (fetch_full_run
             {| self := set_current_state
                          (Some (ClientState_init false state_type)) c0;
                wire := tr |}
             (ClientState_init false state_type) store code headers content
             block_id older code' headers' content');
    try reflexivity; try assumption.
  2:{ intros head Hhead. discriminate Hhead. }
  unfold init_local_node, init_signing_key. run. fold key.
  destruct (key_truth key); reflexivity.
Qed.

(** X24.  A client with a store name cannot be constructed while the
    validator does not answer: if the request for the block list gets no
    response, the constructor raises [MessageException] after that one
    request, before it looks at the key arguments. *)
Theorem init_unreachable base_url store_name name transaction_type
    message_type keystring keyfile disable_client_validation tr store :
  let c0 := blank_client TransactionTypeName base_url store_name
              transaction_type message_type disable_client_validation in
  _store_name c0 = Some store ->
  (forall code headers content,
      peer tr (block_list_request c0) <> Responded code headers content) ->
  exists msg c',
    new_client base_url store_name name transaction_type message_type
      keystring keyfile disable_client_validation tr
    = (inl (MessageException msg),
       {| self := c'; wire := tr ++ [Sent (block_list_request c0)] |})
    /\ _local_node c' = None.
Proof.
  intros c0 Hstore Hfails.
  unfold SawtoothClient_init. fold c0. unfold bind at 1.
  rewrite (init_current_state_run {| self := c0; wire := tr |} store)
    by exact Hstore.
  unfold fetch, get_block_list. unfold bind at 1.
  match goal with
  | |- context [getmsg peer ?path 10 ?w0] =>
      destruct (getmsg_failed peer path 10 w0) as [msg Hget];
        [exact Hfails|]
  end.
  rewrite Hget. exists msg. eexists. split; reflexivity.
Qed.

(** The first phase of the constructor gives no signing identity. *)
Lemma init_current_state_local_node w transaction_type :
  _local_node
    (self (init_current_state peer TransactionStoreType KeyValueStore
             transaction_type w).2)
  = _local_node (self w).
Proof.
  destruct (_store_name (self w)) as [store|] eqn:Hstore.
  - rewrite (init_current_state_run w store) by exact Hstore.
    match goal with
    | |- context [fetch peer ?w0] =>
        destruct (fetch_shape peer w0) as (r & rs & c' & Hrun & _ & Hc' & _)
    end.
    rewrite Hrun. cbn [snd self]. rewrite Hc'. reflexivity.
  - unfold init_current_state. run. rewrite Hstore. reflexivity.
Qed.

(** X25.  The signing identity of a new client.  A key string takes
    precedence over a key file, which then is not read.  Without a key
    string, a key file that cannot be read makes the constructor raise: no
    client is returned, and if the client has no store name the exception
    is the [ClientException] about the key file.  With neither, the client
    is read-only, and submitting with it raises [ClientException] without
    a request. *)
Theorem init_signing_identity base_url store_name name transaction_type
    message_type disable_client_validation tr :
  (forall a s keyfile,
      new_client base_url store_name name transaction_type message_type
        (Some (String a s)) keyfile disable_client_validation tr
      = new_client base_url store_name name transaction_type message_type
          (Some (String a s)) None disable_client_validation tr)
  /\ (forall keystring a s ex,
        str_truth keystring = false ->
        read_file (String a s) = inl ex ->
        let run := new_client base_url store_name name transaction_type
                     message_type keystring (Some (String a s))
                     disable_client_validation tr in
        (exists e, run.1 = inl e)
        /\ (init_store_name TransactionTypeName store_name transaction_type
            = None ->
            run.1 = inl (ClientException ("Failed to load key file: " +:+ ex))
            /\ wire run.2 = tr))
  /\ (forall keystring keyfile,
        str_truth keystring = false ->
        str_truth keyfile = false ->
        let run := new_client base_url store_name name transaction_type
                     message_type keystring keyfile
                     disable_client_validation tr in
        _local_node (self run.2) = None
        /\ forall txn_type txn_msg_type minfo,
             sendtxn peer txn_type txn_msg_type minfo run.2
             = (inl (ClientException
                       "can not send transactions as a read-only client"),
                run.2)).
Proof.
  split; [|split].
  - intros a s keyfile. reflexivity.
  - intros keystring a s ex Hkeystring Hread run.
    assert (Hkey : init_local_node SigningKey generate_signing_key key_truth
                     generate_identifier new_node read_file py_strip name
                     keystring (Some (String a s))
                   = raise (ClientException
                              ("Failed to load key file: " +:+ ex))).
    { unfold init_local_node, init_signing_key.
      destruct keystring as [[|a' s']|]; try discriminate Hkeystring;
        rewrite Hread; reflexivity. }
    subst run. unfold SawtoothClient_init. rewrite Hkey. split.
    + unfold bind.
      destruct (init_current_state _ _ _ _ _) as [[e|u] w1]; eauto.
    + intros Hnone. unfold init_current_state, blank_client. run.
      rewrite Hnone. split; reflexivity.
  - intros keystring keyfile Hkeystring Hkeyfile run.
    assert (Hkey : init_local_node SigningKey generate_signing_key key_truth
                     generate_identifier new_node read_file py_strip name
                     keystring keyfile
                   = ret tt).
    { unfold init_local_node, init_signing_key.
      destruct keystring as [[|a' s']|]; try discriminate Hkeystring;
        destruct keyfile as [[|a' s']|]; try discriminate Hkeyfile;
        reflexivity. }
    assert (Hnode : _local_node (self run.2) = None).
    { subst run. unfold SawtoothClient_init. rewrite Hkey.
      unfold bind at 1.
      pose proof (init_current_state_local_node
                    {| self := blank_client TransactionTypeName base_url
                                 store_name transaction_type message_type
                                 disable_client_validation;
                       wire := tr |} transaction_type) as Hphase.
      destruct (init_current_state _ _ _ _ _) as [[e|u] w1];
        simpl in Hphase |- *; exact Hphase. }
    split; [exact Hnode|].
    intros txn_type txn_msg_type minfo. unfold sendtxn. run.
    rewrite Hnode. reflexivity.
Qed.

End Construction.

(** ** Runs on the client of the store [Accounts] *)

Section FurtherRuns.

#[local] Existing Instance Demo.externals.

Lemma read_only_client_cannot_submit_witness :
  let w := {| self := set_local_node None Demo.synced_client; wire := [] |} in
  sendtxn (Demo.chain_peer "B0" 302) None None ∅ w
  = (inl (ClientException "can not send transactions as a read-only client"),
     w).
Proof.
  intros w.
  apply (proj1 (read_only_client_cannot_submit (E := Demo.externals)
                  (Demo.chain_peer "B0" 302) w eq_refl)).
Defined.

Lemma sendtxn_accepted_witness :
  let w := {| self := Demo.synced_client; wire := [] |} in
  exists w',
    sendtxn (Demo.chain_peer "B0" 302) None None ∅ w
    = (inr (Some "txn-of-alice"), w')
    /\ _last_transaction (self w') = Some "txn-of-alice"
    /\ (cs_current_state <$> _current_state (self w'))
       = Some (Some (Demo.Applied "txn-of-alice"
                       (Demo.CloneStore Demo.store_B0 None))).
Proof.
  intros w.
  destruct (sendtxn_accepted (E := Demo.externals) (Demo.chain_peer "B0" 302)
              w None None ∅ "alice" "/Accounts" "/Accounts/Transaction"
              200 Demo.json_headers "accepted" (Demo.PyList ["accepted"]))
    as (w' & Hrun & _ & Hlast & Hstate);
    try reflexivity.
  { right. exists Demo.synced_state. split; reflexivity. }
  exists w'. split; [exact Hrun|]. split; [exact Hlast|].
  rewrite Hstate. reflexivity.
Defined.

Lemma sendtxn_unacknowledged_witness :
  let w := {| self := Demo.synced_client; wire := [] |} in
  exists w',
    sendtxn DemoRest.mute_peer None None ∅ w = (inl AssertionError, w')
    /\ _last_transaction (self w') = None.
Proof.
  intros w.
  destruct (sendtxn_unacknowledged (E := Demo.externals) DemoRest.mute_peer
              w None None ∅ "alice" "/Accounts" "/Accounts/Transaction"
              200 ∅ "ok")
    as (w' & Hrun & _ & Hlast & _);
    try reflexivity.
  { right. exists Demo.synced_state. split; reflexivity. }
  exists w'. split; [exact Hrun|exact Hlast].
Defined.

Lemma sendtxn_http_error_without_error_type_witness :
  let w := {| self := Demo.synced_client; wire := [] |} in
  (sendtxn DemoRest.failing_peer None None ∅ w).1
  = inl (UnboundLocalError
           "local variable 'response' referenced before assignment").
Proof.
  intros w.
  rewrite (proj2 (sendtxn_http_error_without_error_type (E := Demo.externals)
                    DemoRest.failing_peer w None None ∅ "alice" "/Accounts"
                    "/Accounts/Transaction" 500 Demo.json_headers
                    "internal error" (Demo.PyList ["internal"; "error"])
                    eq_refl eq_refl eq_refl
                    (or_intror (ex_intro _ Demo.synced_state
                                  (conj eq_refl eq_refl)))
                    eq_refl eq_refl eq_refl)).
  reflexivity.
Defined.

Lemma sendtxn_sends_at_most_one_post_witness :
  let w := {| self := Demo.synced_client; wire := [] |} in
  exists r c',
    sendtxn (Demo.chain_peer "B0" 302) None None ∅ w
    = (r, {| self := c';
             wire := [Sent (post_request Demo.synced_client
                              "/Accounts/Transaction"
                              (Demo.PyDict
                                 [("Transaction",
                                   "/Accounts/Transaction")]))] |})
    /\ (cs_current_block_id <$> _current_state c') = Some (Some "B0")
    /\ _update_batch c' = None
    /\ _store_name c' = Some "Accounts".
Proof.
  intros w.
  destruct (sendtxn_sends_at_most_one_post (E := Demo.externals)
              (Demo.chain_peer "B0" 302) w None None ∅)
    as (r & c' & tr & Hrun & Hsent & Hhead & _ & Hbatch & Hname).
  exists r, c'.
  destruct (Hhead Demo.synced_state eq_refl) as (cs' & Hcs' & Hsame & _).
  assert (Hwire : tr = wire (sendtxn (Demo.chain_peer "B0" 302) None None ∅
                               w).2).
  { rewrite Hrun. reflexivity. }
  vm_compute in Hwire. subst tr.
  split; [exact Hrun|].
  split; [rewrite Hcs'; simpl; rewrite Hsame; reflexivity|].
  split; [exact Hbatch|exact Hname].
Defined.

End FurtherRuns.

(** ** Runs with the stricter transaction family *)

Section StrictRuns.

#[local] Existing Instance Strict.externals.

Lemma sendtxn_local_rejection_witness :
  let w := {| self := Strict.synced_client; wire := [] |} in
  sendtxn (Demo.chain_peer "B0" 302) None None ∅ w
  = (inl (InvalidTransactionError (Demo.PyStr "no updates")), w).
Proof.
  intros w.
  apply (sendtxn_local_rejection (E := Strict.externals)
           (Demo.chain_peer "B0" 302) w None None ∅ "alice" "/Accounts"
           Strict.synced_state);
    reflexivity.
Defined.

Lemma sendtxn_remote_rejection_witness :
  let w := {| self := Strict.synced_client; wire := [] |} in
  (sendtxn Strict.rejecting_peer None None Strict.one_update w).1
  = inl (InvalidTransactionError (Demo.PyStr "overdrawn")).
Proof.
  intros w.
  rewrite (sendtxn_remote_rejection (E := Strict.externals)
             Strict.rejecting_peer w None None Strict.one_update "alice"
             "/Accounts" "/Accounts/Transaction" 400 Strict.cbor_headers
             "errorType InvalidTransactionError error overdrawn"
             (Demo.PyDict [("errorType", "InvalidTransactionError");
                           ("error", "overdrawn")])
             eq_refl eq_refl eq_refl
             (or_intror (ex_intro _ Strict.synced_state
                           (conj eq_refl eq_refl)))
             eq_refl eq_refl eq_refl).
  reflexivity.
Defined.

End StrictRuns.

(** ** Runs of batches, refreshes and waits *)

Section MoreRuns.

#[local] Existing Instance Demo.externals.

Lemma send_update_batching_is_offline_witness :
  let batch : gmap string (list Value) :=
    <["Updates" := []]> (<["Dependencies" := []]> ∅) in
  let w := {| self := set_update_batch (Some batch) Demo.synced_client;
              wire := [] |} in
  wire (send_update Demo.unreachable_peer DemoRest.py_type
          DemoRest.as_updates (OneUpdate (Demo.PyDict [("amount", "5")]))
          None w).2
  = [].
Proof.
  intros batch w.
  apply (proj1 (send_update_batching_is_offline (E := Demo.externals)
                  Demo.unreachable_peer DemoRest.py_type DemoRest.as_updates
                  w batch (OneUpdate (E := Demo.externals) (Demo.PyDict [("amount", "5")])) None
                  eq_refl)).
Defined.

Lemma send_update_adds_to_batch_witness :
  let batch : gmap string (list Value) :=
    <["Updates" := [Demo.PyStr "first"]]> (<["Dependencies" := []]> ∅) in
  let w := {| self := set_update_batch (Some batch) Demo.synced_client;
              wire := [] |} in
  exists batch',
    send_update Demo.unreachable_peer DemoRest.py_type DemoRest.as_updates
      (UpdateList [Demo.PyStr "second"; Demo.PyStr "third"])
      (Some [Demo.PyStr "tx0"]) w
    = (inr None,
       {| self := set_update_batch (Some batch') Demo.synced_client;
          wire := [] |})
    /\ batch' !! "Updates"
       = Some [Demo.PyStr "first"; Demo.PyStr "second"; Demo.PyStr "third"]
    /\ batch' !! "Dependencies" = Some [Demo.PyStr "tx0"].
Proof.
  intros batch w.
  destruct (send_update_adds_to_batch (E := Demo.externals)
              Demo.unreachable_peer DemoRest.py_type DemoRest.as_updates
              w batch [Demo.PyStr "first"] []
              (UpdateList (E := Demo.externals) [Demo.PyStr "second"; Demo.PyStr "third"])
              [Demo.PyStr "second"; Demo.PyStr "third"]
              (Some [Demo.PyStr "tx0"]))
    as (batch' & Hrun & Hupdates & Hdependencies & _);
    try reflexivity.
  exists batch'. split; [exact Hrun|]. split; assumption.
Defined.

Lemma with_UpdateBatch_is_one_transaction_witness :
  let peer := Demo.chain_peer "B0" 302 in
  let w := {| self := Demo.synced_client; wire := [] |} in
  let calls :=
    [(OneUpdate (Demo.PyStr "first"), None);
     (UpdateList [Demo.PyStr "second"; Demo.PyStr "third"],
      Some [Demo.PyStr "tx0"])] in
  with_UpdateBatch peer
    (send_updates peer DemoRest.py_type DemoRest.as_updates calls) w
  = match sendtxn peer (Some "/Accounts") (Some "/Accounts/Transaction")
            (<["Updates" := [Demo.PyStr "first"; Demo.PyStr "second";
                             Demo.PyStr "third"]]>
               (<["Dependencies" := [Demo.PyStr "tx0"]]> ∅)) w with
    | (inl e, w') => (inl (Exception e), w')
    | (inr _, w') => (inr tt, w')
    end.
Proof.
  intros peer w calls.
  apply (with_UpdateBatch_is_one_transaction (E := Demo.externals) peer
           DemoRest.py_type DemoRest.as_updates w calls eq_refl).
  repeat (apply Forall_cons_2; [eexists; reflexivity|]). apply Forall_nil_2.
Defined.

Lemma with_UpdateBatch_is_all_or_nothing_witness :
  let peer := Demo.chain_peer "B0" 302 in
  let w := {| self := Demo.synced_client; wire := [] |} in
  with_UpdateBatch peer
    (send_updates peer DemoRest.py_type DemoRest.as_updates
       [(OneUpdate (Demo.PyDict [("amount", "5")]), None);
        (OtherUpdates (Demo.PyStr "amount=5"), None);
        (OneUpdate (Demo.PyDict [("amount", "7")]), None)]) w
  = (inl (Exception
            (ClientException "Unexpected updates type <type 'str'>.")),
     w).
Proof.
  intros peer w.
  apply (with_UpdateBatch_is_all_or_nothing (E := Demo.externals) peer
           DemoRest.py_type DemoRest.as_updates w
           [(OneUpdate (E := Demo.externals) (Demo.PyDict [("amount", "5")]), None)]
           (Demo.PyStr "amount=5") None
           [(OneUpdate (E := Demo.externals) (Demo.PyDict [("amount", "7")]), None)] eq_refl).
  apply Forall_cons_2; [eexists; reflexivity|apply Forall_nil_2].
Defined.

Lemma UpdateBatch_scope_witness :
  let peer := Demo.chain_peer "B0" 302 in
  let batch : gmap string (list Value) :=
    <["Updates" := [Demo.PyStr "first"]]> (<["Dependencies" := []]> ∅) in
  let w := {| self := set_update_batch (Some batch) Demo.synced_client;
              wire := [] |} in
  with_UpdateBatch peer
    (send_update peer DemoRest.py_type DemoRest.as_updates
       (OneUpdate (Demo.PyStr "second")) None) w
  = (inl (Exception (ClientException "Update batch already in progress.")),
     w).
Proof.
  intros peer batch w.
  apply (proj1 (UpdateBatch_scope (E := Demo.externals) peer
                  (send_update (E := Demo.externals) peer DemoRest.py_type
                     DemoRest.as_updates
                     (OneUpdate (E := Demo.externals) (Demo.PyStr "second"))
                     None) w)
           batch eq_refl).
Defined.

Lemma batch_of_one_is_immediate_witness :
  let peer := Demo.chain_peer "B0" 302 in
  let w := {| self := Demo.synced_client; wire := [] |} in
  let call :=
    send_update peer DemoRest.py_type DemoRest.as_updates
      (OneUpdate (Demo.PyDict [("amount", "5")])) None in
  with_UpdateBatch peer call w
  = match call w with
    | (inl e, w') => (inl e, w')
    | (inr _, w') => (inr None, w')
    end.
Proof.
  intros peer w call.
  apply (batch_of_one_is_immediate (E := Demo.externals) peer
           DemoRest.py_type DemoRest.as_updates w
           (OneUpdate (E := Demo.externals) (Demo.PyDict [("amount", "5")]))
           [Demo.PyDict [("amount", "5")]] None eq_refl eq_refl).
Defined.

Lemma fetch_state_reads_only_witness :
  let w := {| self := Demo.synced_client; wire := [] |} in
  exists rs c',
    (fetch_state (Demo.chain_peer "B2 B1 B0" 302) w).2
    = {| self := c'; wire := Sent <$> rs |}
    /\ Forall plain_get rs.
Proof.
  intros w.
  destruct (fetch_state_reads_only (E := Demo.externals)
              (Demo.chain_peer "B2 B1 B0" 302) w)
    as (rs & c' & Hrun & Hget & _).
  exists rs, c'. split; [exact Hrun|exact Hget].
Defined.

Lemma fetch_state_failure_keeps_view_witness :
  let w := {| self := Demo.synced_client; wire := [] |} in
  let w' := (fetch_state Demo.unreachable_peer w).2 in
  (get_state w').1 = inr (Some (Demo.CloneStore Demo.store_B0 None)).
Proof.
  intros w w'.
  rewrite (proj1 (proj2 (fetch_state_failure_keeps_view (E := Demo.externals)
                           Demo.unreachable_peer w
                           (MessageException
                              "operation failed: connection refused")
                           w' eq_refl))).
  reflexivity.
Defined.

Lemma fetch_state_catches_up_witness :
  let peer := Demo.chain_peer "B2 B1 B0" 302 in
  let w := {| self := Demo.synced_client; wire := [] |} in
  exists cs',
    _current_state (self (fetch_state peer w).2) = Some cs'
    /\ cs_current_block_id cs' = Some "B2".
Proof.
  intros peer w.
  destruct (fetch_state_catches_up (E := Demo.externals) peer w tt
              (fetch_state peer w).2 eq_refl)
    as (code & headers & content & block_id & older & cs' & Hpeer & Hids
        & Hstate & Hhead & _).
  exists cs'. split; [exact Hstate|].
  rewrite Hhead. vm_compute in Hpeer. injection Hpeer as <- <- <-.
  vm_compute in Hids. injection Hids as <- _. reflexivity.
Defined.

Lemma fetch_state_interrupted_witness :
  let w := {| self := Demo.synced_client; wire := [] |} in
  let delta :=
    Demo.PyList
      ["body"; "of";
       "http://validator/store/Accounts/*?blockid=B1&delta=1"] in
  exists msg,
    fetch_state DemoRest.flaky_peer w
    = (inl (MessageException msg),
       {| self :=
            set_current_state
              (Some {| cs_state_type := tt;
                       cs_state :=
                         Some (Demo.CloneStore Demo.store_B0 (Some delta));
                       cs_current_state :=
                         Some (Demo.CloneStore Demo.store_B0 None);
                       cs_current_block_id := Some "B0" |})
              Demo.synced_client;
          wire := [Sent (block_list_request Demo.synced_client);
                   Sent (delta_request Demo.synced_client "Accounts" "B1");
                   Sent (delta_request Demo.synced_client "Accounts" "B2")] |}).
Proof.
  intros w delta.
  apply (fetch_state_interrupted (E := Demo.externals) DemoRest.flaky_peer w
           Demo.synced_state "Accounts" Demo.store_B0 200 Demo.json_headers
           "B2 B1 B0" "B0" ["B2"; "B1"] [] ["B1"] "B2" [] [delta]);
    try reflexivity.
  - intros Hin. repeat (apply elem_of_cons in Hin as [Hin|Hin];
                        [discriminate Hin|]).
    inversion Hin.
  - split; [|exact I]. eexists _, _, _. split; reflexivity.
  - intros code headers content. discriminate.
Defined.

Lemma fetch_state_empty_block_list_witness :
  let w := {| self := Demo.synced_client; wire := [] |} in
  fetch_state (Demo.chain_peer EmptyString 302) w
  = (inl (IndexError "list index out of range"),
     {| self := Demo.synced_client;
        wire := [Sent (block_list_request Demo.synced_client)] |}).
Proof.
  intros w.
  apply (fetch_state_empty_block_list (E := Demo.externals)
           (Demo.chain_peer EmptyString 302) w Demo.synced_state 200
           Demo.json_headers EmptyString);
    reflexivity.
Defined.

Lemma wait_for_commit_default_target_witness :
  let w := {| self := Demo.synced_client; wire := [] |} in
  wait_for_commit Demo.unreachable_peer 0 None 5 12 w = (inr (Some true), w).
Proof.
  intros w.
  apply (proj1 (wait_for_commit_default_target (E := Demo.externals)
                  Demo.unreachable_peer 0 5 12) w None eq_refl eq_refl).
Defined.

Lemma wait_for_commit_sound_witness :
  let peer := Demo.chain_peer "B0" 404 in
  let w := {| self := Demo.synced_client; wire := [] |} in
  let run := wait_for_commit peer 10 (Some "tx1") 0 2 w in
  run.1 = inr (Some false)
  /\ exists tr,
      wire run.2 = tr ++ [Sent (status_request Demo.synced_client "tx1")]
      /\ (2 < Z.of_nat (status_checks
                          (tr ++ [Sent (status_request Demo.synced_client
                                          "tx1")])))%Z.
Proof.
  intros peer w run. split; [reflexivity|].
  destruct (wait_for_commit_sound (E := Demo.externals) peer 10 "t"%char "x1"
              0 2 w (inr (Some false)) run.2 eq_refl)
    as (_ & tr & Hwire & _ & Hover); [discriminate|].
  exists tr. split; [exact Hwire|exact Hover].
Defined.

Lemma reading_methods_only_read_witness :
  let w := {| self := Demo.synced_client; wire := [] |} in
  exists rs,
    (get_store_keys Demo.unreachable_peer w).2
    = {| self := Demo.synced_client; wire := Sent <$> rs |}
    /\ (length rs <= 1)%nat.
Proof.
  intros w.
  destruct (proj1 (proj2 (proj2 (proj2 (proj2
              (reading_methods_only_read (E := Demo.externals)
                 Demo.unreachable_peer))))) w)
    as (rs & Hrun & Hlength & _).
  exists rs. split; [exact Hrun|exact Hlength].
Defined.

End MoreRuns.

(** ** Constructions *)

Section ConstructionRuns.

#[local] Existing Instance Demo.externals.

Lemma init_without_store_name_witness :
  let run := DemoRest.construct Demo.unreachable_peer "http://validator/"
               None "client" None None (Some "5Kalice") None false [] in
  wire run.2 = []
  /\ fetch_state Demo.unreachable_peer run.2
     = (inl (ClientException
         "Client must be configured with a store name to access its current state"),
        run.2).
Proof.
  intros run.
  pose proof (init_without_store_name (E := Demo.externals)
                Demo.unreachable_peer DemoRest.TransactionTypeName
                (fun _ => tt) tt string (fun wif => wif) DemoRest.key_truth
                DemoRest.generate_identifier DemoRest.new_node
                DemoRest.read_file DemoRest.py_strip "http://validator/"
                "client" None (Some "5Kalice") None false [])
    as (Hwire & _ & _ & Hfetch & _).
  split; [exact Hwire|exact Hfetch].
Defined.

Lemma init_synchronizes_witness :
  let run := DemoRest.construct (Demo.chain_peer "B1 B0" 302)
               "http://validator/" (Some "/Accounts/") "client"
               (Some "/Accounts") (Some "/Accounts/Transaction")
               (Some "5Kalice") None false [] in
  run.1 = inr tt
  /\ _store_name (self run.2) = Some "Accounts"
  /\ (cs_current_block_id <$> _current_state (self run.2))
     = Some (Some "B1")
  /\ _local_node (self run.2) = Some "id-of-5Kalice"
  /\ length (wire run.2) = 2%nat.
Proof.
  intros run. subst run. unfold DemoRest.construct.
  rewrite (init_synchronizes (E := Demo.externals)
             (Demo.chain_peer "B1 B0" 302) DemoRest.TransactionTypeName
             (fun _ => tt) tt string (fun wif => wif) DemoRest.key_truth
             DemoRest.generate_identifier DemoRest.new_node
             DemoRest.read_file DemoRest.py_strip "http://validator/"
             (Some "/Accounts/") "client" (Some "/Accounts")
             (Some "/Accounts/Transaction") "5"%char "Kalice" None false []
             "Accounts" 200 Demo.json_headers "B1 B0" "B1" ["B0"] 200
             Demo.json_headers
             "body of http://validator/store/Accounts/*?blockid=B1"
             eq_refl eq_refl eq_refl eq_refl).
  repeat split.
Defined.

Lemma init_unreachable_witness :
  exists msg,
    (DemoRest.construct Demo.unreachable_peer "http://validator/"
       (Some "Accounts") "client" None None (Some "5Kalice") None false []).1
    = inl (MessageException msg).
Proof.
  destruct (init_unreachable (E := Demo.externals)
              Demo.unreachable_peer DemoRest.TransactionTypeName
              (fun _ => tt) tt string (fun wif => wif) DemoRest.key_truth
              DemoRest.generate_identifier DemoRest.new_node
              DemoRest.read_file DemoRest.py_strip "http://validator/"
              (Some "Accounts") "client" None None (Some "5Kalice") None
              false [] "Accounts" eq_refl)
    as (msg & c' & Hrun & _).
  { intros code headers content. discriminate. }
  exists msg. unfold DemoRest.construct. rewrite Hrun. reflexivity.
Defined.

Lemma init_signing_identity_witness :
  (DemoRest.construct Demo.unreachable_peer "http://validator/" None "client"
     None None None (Some "bob.wif") false []).1
  = inl (ClientException
           "Failed to load key file: No such file or directory: bob.wif").
Proof.
  apply (proj1 (proj2 (proj1 (proj2
           (init_signing_identity (E := Demo.externals)
              Demo.unreachable_peer DemoRest.TransactionTypeName
              (fun _ => tt) tt string (fun wif => wif) DemoRest.key_truth
              DemoRest.generate_identifier DemoRest.new_node
              DemoRest.read_file DemoRest.py_strip "http://validator/" None
              "client" None None false []))
           None "b"%char "ob.wif" "No such file or directory: bob.wif"
           eq_refl eq_refl) eq_refl)).
Defined.

End ConstructionRuns.
